(** * Posty: document ingestion, fallback classification, storage scoping,
      notification and OAuth state handling

    A shallow embedding of the server-side TypeScript of the Posty mail
    application, and theorems about it.

    Conventions of the embedding.
    - A JavaScript string is a [string] (a list of character codes); only the
      ASCII letters take part in case conversion.
    - A time value is an integer number of milliseconds since the epoch, as
      [Date.now()] returns it; the range limit of [TimeClip] is not modelled.
      The local time zone of the process is an input: its offset from UTC
      at each instant and for each local time.
    - A value of TypeScript type [any] is a [JValue].
    - A call that may throw returns an [Outcome]; a [try]/[catch] is a match
      on it.  External services (OCR/classification API, PDF rasteriser, file
      system, SMTP transport, the clock, the random source) are inputs. *)

From Stdlib Require Import ZArith Lia Bool List Ascii String Sorted Permutation.
From stdpp Require Import gmap strings list fin_maps.
Import ListNotations.

Set Warnings "-register-all".

(* ===================================================================== *)
(** ** JavaScript values and string primitives                            *)
(* ===================================================================== *)

Module JS.

(** A runtime value, as [JSON.parse] or an untyped request body yields it.
    Numbers only ever have their truthiness inspected by the code below. *)
Inductive JValue : Type :=
  | JUndefined
  | JNull
  | JBool (b : bool)
  | JNum (n : Z)
  | JStr (s : string)
  | JArr (items : list JValue)
  | JObj (fields : list (string * JValue)).

(** What [throw] carries: an [Error] instance with its message, or any other
    value. *)
Inductive Thrown : Type :=
  | JsError (message : string)
  | NonError (v : JValue).

(** The result of evaluating an expression that may throw. *)
Inductive Outcome (A : Type) : Type :=
  | Returns (a : A)
  | Throws (e : Thrown).
Arguments Returns {A} a.
Arguments Throws {A} e.

(** Sequencing: the first [throw] aborts what follows.  With the instances
    below, [x ← c; k] is stdpp's notation for it. *)
#[export] Instance outcome_ret : MRet Outcome := fun A a => Returns a.

#[export] Instance outcome_bind : MBind Outcome := fun A B k o =>
  match o with
  | Returns a => k a
  | Throws e => Throws e
  end.

(** [try { body } catch (e) { handler(e) }] *)
Definition try_catch {A} (body : Outcome A) (handler : Thrown -> Outcome A)
  : Outcome A :=
  match body with
  | Returns a => Returns a
  | Throws e => handler e
  end.

(** ToBoolean *)
Definition truthy (v : JValue) : bool :=
  match v with
  | JUndefined | JNull => false
  | JBool b => b
  | JNum n => negb (Z.eqb n 0)
  | JStr s => negb (String.eqb s "")
  | JArr _ | JObj _ => true
  end.

(** [a || b] *)
Definition js_or (a b : JValue) : JValue := if truthy a then a else b.

Fixpoint assoc (k : string) (fs : list (string * JValue)) : JValue :=
  match fs with
  | [] => JUndefined
  | (k', v) :: rest => if String.eqb k k' then v else assoc k rest
  end.

(** [v.k] for one of the keys the code reads (title, summary, category,
    reminderDate): a TypeError on [null] and [undefined], the field of an
    object, [undefined] on every other value. *)
Definition getProp (v : JValue) (k : string) : Outcome JValue :=
  match v with
  | JUndefined | JNull =>
      Throws (JsError ("Cannot read properties of null (reading '" +:+ k +:+ "')"))
  | JObj fs => Returns (assoc k fs)
  | _ => Returns JUndefined
  end.

(** [String.prototype.toLowerCase], on the ASCII letters. *)
Definition lower_ascii (c : ascii) : ascii :=
  let n := nat_of_ascii c in
  if (Nat.leb 65 n && Nat.leb n 90)%bool then ascii_of_nat (n + 32) else c.

Fixpoint toLowerCase (s : string) : string :=
  match s with
  | EmptyString => EmptyString
  | String c rest => String (lower_ascii c) (toLowerCase rest)
  end.

(** [s.startsWith(p)] *)
Fixpoint startsWith (s p : string) : bool :=
  match p, s with
  | EmptyString, _ => true
  | String _ _, EmptyString => false
  | String a p', String b s' => (Ascii.eqb a b && startsWith s' p')%bool
  end.

(** [s.includes(sub)] *)
Fixpoint includes (s sub : string) : bool :=
  if startsWith s sub then true
  else match s with
       | EmptyString => false
       | String _ rest => includes rest sub
       end.

(** [s.replace(pat, repl)] with a string pattern: the first occurrence
    only. *)
Fixpoint replace (s pat repl : string) : string :=
  if startsWith s pat then repl +:+ String.substring (String.length pat) (String.length s) s
  else match s with
       | EmptyString => EmptyString
       | String c rest => String c (replace rest pat repl)
       end.

Definition all_chars (p : ascii -> bool) (s : string) : bool :=
  forallb p (list_ascii_of_string s).

Definition not_slash_or_dot (c : ascii) : bool :=
  negb (Ascii.eqb c "/" || Ascii.eqb c ".")%bool.

(** [s.replace(/\.[^/.]+$/, "")]: the leftmost position holding a dot that
    is followed, up to the end of the string, by one or more characters
    other than a slash and a dot. *)
Fixpoint stripExtension (s : string) : string :=
  match s with
  | EmptyString => EmptyString
  | String c rest =>
      if (Ascii.eqb c "." && negb (String.eqb rest "")
          && all_chars not_slash_or_dot rest)%bool
      then EmptyString
      else String c (stripExtension rest)
  end.

(** [s.replace(/^\//, "")] *)
Definition stripLeadingSlash (s : string) : string :=
  match s with
  | String c rest => if Ascii.eqb c "/" then rest else s
  | EmptyString => EmptyString
  end.

Definition is_space (c : ascii) : bool :=
  let n := nat_of_ascii c in
  (Nat.eqb n 32 || (Nat.leb 9 n && Nat.leb n 13))%bool.

Fixpoint trimStart (s : string) : string :=
  match s with
  | String c rest => if is_space c then trimStart rest else s
  | EmptyString => EmptyString
  end.

Fixpoint trimEnd (s : string) : string :=
  match s with
  | EmptyString => EmptyString
  | String c rest =>
      match trimEnd rest with
      | EmptyString => if is_space c then EmptyString else String c EmptyString
      | r => String c r
      end
  end.

(** [s.trim()], on ASCII white space. *)
Definition trim (s : string) : string := trimEnd (trimStart s).

(** [s.split(sep)[0]] for a one-character separator. *)
Fixpoint beforeFirst (sep : ascii) (s : string) : string :=
  match s with
  | EmptyString => EmptyString
  | String c rest => if Ascii.eqb c sep then EmptyString else String c (beforeFirst sep rest)
  end.

(** The suffix of [s] that starts at its last occurrence of [c]. *)
Fixpoint fromLast (c : ascii) (s : string) : option string :=
  match s with
  | EmptyString => None
  | String a rest =>
      match fromLast c rest with
      | Some r => Some r
      | None => if Ascii.eqb a c then Some s else None
      end
  end.

Fixpoint dropTrailingSlashes (s : string) : string :=
  match s with
  | EmptyString => EmptyString
  | String c rest =>
      match dropTrailingSlashes rest with
      | EmptyString => if Ascii.eqb c "/" then EmptyString else String c EmptyString
      | r => String c r
      end
  end.

(** [path.basename(p)] (POSIX) *)
Definition basename (p : string) : string :=
  let q := dropTrailingSlashes p in
  match fromLast "/" q with
  | Some (String _ r) => r
  | _ => q
  end.

(** [path.extname(p)] (POSIX): from the last dot of the base name to its
    end; empty when there is no dot, when the only dot is the first
    character, and for the name [..]. *)
Definition extname (p : string) : string :=
  match basename p with
  | EmptyString => EmptyString
  | String c rest =>
      if String.eqb (String c rest) ".." then EmptyString
      else match fromLast "." rest with
           | Some r => r
           | None => EmptyString
           end
  end.

(** The line feed of a [\n] escape. *)
Definition nl : string := String (ascii_of_nat 10) EmptyString.

End JS.

(* ===================================================================== *)
(** ** The part of [Date] the classifier uses                             *)
(* ===================================================================== *)

(** The time-value algorithms of the language standard (Day, TimeWithinDay,
    DayFromYear, YearFromTime, MonthFromTime, DateFromTime, MakeDay,
    MakeDate), [getDate], [setDate] and the date half of [toISOString].
    The local time zone is a [TimeZone]: the offset from UTC, in
    milliseconds, that it applies at each instant and to each local time. *)
Module JSDate.

Local Open Scope Z_scope.

Definition msPerDay : Z := 86400000.

Definition Day (t : Z) : Z := t / msPerDay.
Definition TimeWithinDay (t : Z) : Z := t mod msPerDay.

Definition DayFromYear (y : Z) : Z :=
  365 * (y - 1970) + (y - 1969) / 4 - (y - 1901) / 100 + (y - 1601) / 400.

Definition DaysInYear (y : Z) : Z := DayFromYear (y + 1) - DayFromYear y.

(** One step of the search for the year of a day number: move to the next
    year when that year has already begun. *)
Definition bumpYear (d y : Z) : Z :=
  if DayFromYear (y + 1) <=? d then y + 1 else y.

(** The largest [y] with [DayFromYear y <= d]: the day is reduced to the
    400-year cycle that starts in 1970, a year is estimated from below at
    366 days a year, and the estimate is corrected upwards. *)
Definition yearOfDay (d : Z) : Z :=
  let cycle := d / 146097 in
  let r := d mod 146097 in
  let y0 := 1970 + r / 366 in
  bumpYear r (bumpYear r (bumpYear r y0)) + 400 * cycle.

Definition YearFromTime (t : Z) : Z := yearOfDay (Day t).

Definition InLeapYear (t : Z) : Z := DaysInYear (YearFromTime t) - 365.

Definition DayWithinYear (t : Z) : Z := Day t - DayFromYear (YearFromTime t).

(** The day within the year on which month [m] (0 to 11) begins; [leap] is
    0 or 1. *)
Definition monthStart (leap m : Z) : Z :=
  match m with
  | 0 => 0
  | 1 => 31
  | 2 => 59 + leap
  | 3 => 90 + leap
  | 4 => 120 + leap
  | 5 => 151 + leap
  | 6 => 181 + leap
  | 7 => 212 + leap
  | 8 => 243 + leap
  | 9 => 273 + leap
  | 10 => 304 + leap
  | _ => 334 + leap
  end.

Definition monthOfDayInYear (leap d : Z) : Z :=
  if d <? 31 then 0
  else if d <? 59 + leap then 1
  else if d <? 90 + leap then 2
  else if d <? 120 + leap then 3
  else if d <? 151 + leap then 4
  else if d <? 181 + leap then 5
  else if d <? 212 + leap then 6
  else if d <? 243 + leap then 7
  else if d <? 273 + leap then 8
  else if d <? 304 + leap then 9
  else if d <? 334 + leap then 10
  else 11.

Definition MonthFromTime (t : Z) : Z :=
  monthOfDayInYear (InLeapYear t) (DayWithinYear t).

Definition DateFromTime (t : Z) : Z :=
  DayWithinYear t - monthStart (InLeapYear t) (MonthFromTime t) + 1.

(** [MakeDay(year, month, date)] for a month in 0..11, as every caller here
    passes it: the day number of the first of the month, plus [date - 1]. *)
Definition MakeDay (year month date : Z) : Z :=
  DayFromYear year + monthStart (DaysInYear year - 365) month + date - 1.

Definition MakeDate (day time : Z) : Z := day * msPerDay + time.

(** The local time zone of the process, as the two readings of
    [LocalTZA(t, isUTC)]: [offsetAt t] is the offset in force at the
    instant [t]; [offsetOfLocal t] is the offset by which the local time
    value [t] is read (for a local time that a transition skips or
    repeats, the implementation's choice). *)
Record TimeZone : Type := {
  offsetAt : Z -> Z;
  offsetOfLocal : Z -> Z
}.

(** A zone that is always [tza] milliseconds ahead of UTC. *)
Definition fixedOffset (tza : Z) : TimeZone :=
  {| offsetAt := fun _ => tza; offsetOfLocal := fun _ => tza |}.

Definition LocalTime (zone : TimeZone) (t : Z) : Z := t + offsetAt zone t.
Definition UTC (zone : TimeZone) (t : Z) : Z := t - offsetOfLocal zone t.

(** [d.getDate()] *)
Definition getDate (zone : TimeZone) (t : Z) : Z := DateFromTime (LocalTime zone t).

(** [d.setDate(dt)]: the new time value of [d]. *)
Definition setDate (zone : TimeZone) (t dt : Z) : Z :=
  let lt := LocalTime zone t in
  UTC zone (MakeDate (MakeDay (YearFromTime lt) (MonthFromTime lt) dt)
                     (TimeWithinDay lt)).

Definition digit (n : Z) : ascii := ascii_of_nat (48 + Z.to_nat (n mod 10)).

Definition pad2 (n : Z) : string :=
  String (digit (n / 10)) (String (digit n) EmptyString).

Definition pad4 (n : Z) : string := pad2 (n / 100) +:+ pad2 n.

Definition pad6 (n : Z) : string := pad2 (n / 10000) +:+ pad4 n.

(** The year of [toISOString]: four digits from 0 to 9999, a sign and six
    digits otherwise. *)
Definition isoYear (y : Z) : string :=
  if (0 <=? y) && (y <=? 9999) then pad4 y
  else if y <? 0 then "-" +:+ pad6 (- y)
  else "+" +:+ pad6 y.

(** [d.toISOString().split('T')[0]]: the date half of the ISO form, which
    is in UTC. *)
Definition isoDate (t : Z) : string :=
  isoYear (YearFromTime t) +:+ "-" +:+ pad2 (MonthFromTime t + 1)
    +:+ "-" +:+ pad2 (DateFromTime t).

End JSDate.

(* ===================================================================== *)
(** ** server/ai-service.ts: the document analyzer                        *)
(** (in this tree the module follows server/email-providers.ts in the
    same file) *)
(* ===================================================================== *)

Module AIService.
Import JS.

(** [Category] is a union of string literals: at run time, a string. *)
Definition Category : Type := string.

Record AIAnalysisResult : Type := {
  title : JValue;
  summary : JValue;
  category : Category;
  categories : list Category;
  customCategories : list string;
  reminderDate : JValue;
  extractedText : string
}.

Definition validCategories : list Category :=
  ["bill"; "appointment"; "personal"; "promotional"; "government";
   "insurance"; "nhs"]%string.

(** [validCategories.includes(category)] *)
Definition isValidCategory (category : JValue) : bool :=
  match category with
  | JStr s => existsb (String.eqb s) validCategories
  | _ => false
  end.

Definition validateCategory (category : JValue) : Category :=
  match category with
  | JStr s => if isValidCategory category then s else "personal"
  | _ => "personal"
  end.

(** [c || "personal"] *)
Definition orPersonal (c : Category) : Category :=
  if String.eqb c "" then "personal"%string else c.

(** [error instanceof Error &&
     (error.message.includes('quota') || error.message.includes('429'))] *)
Definition isQuotaError (error : Thrown) : bool :=
  match error with
  | JsError message => includes message "quota" || includes message "429"
  | NonError _ => false
  end.

Definition quotaNote : string :=
  " (AI analysis temporarily unavailable due to quota limits)".

Definition failureNote : string :=
  " (Detailed AI analysis failed - document processed based on filename)".

(** The reminder of the bill branch: [new Date()], [setDate(getDate() + 14)],
    [toISOString().split('T')[0]]. *)
Definition reminderIn14Days (zone : JSDate.TimeZone) (now : Z) : string :=
  let futureDate := JSDate.setDate zone now (JSDate.getDate zone now + 14) in
  JSDate.isoDate futureDate.

Definition fallbackText (fileName : string) (category : Category) : string :=
  "Filename-based analysis for: " +:+ fileName +:+ nl +:+ nl
  +:+ "This document could not be processed with OCR due to service limitations. The content analysis is based on the filename pattern."
  +:+ nl +:+ nl +:+ "For complete text extraction, please ensure:" +:+ nl
  +:+ "- Document is a clear image (JPG, PNG)" +:+ nl
  +:+ "- Text is readable and well-lit" +:+ nl
  +:+ "- AI service is available" +:+ nl +:+ nl
  +:+ "Document type: " +:+ category +:+ nl
  +:+ "Expected content based on filename patterns.".

(** The mutable locals of [generateEnhancedFallback] after the chain of
    filename tests: (category, title, summary, reminderDate). *)
Definition classifyFileName (zone : JSDate.TimeZone) (now : Z) (fileName : string)
  : Category * string * string * JValue :=
  let lowerFileName := toLowerCase fileName in
  let title := stripExtension fileName in
  if includes lowerFileName "council" || includes lowerFileName "tax"
     || includes lowerFileName "bill" || includes lowerFileName "invoice"
  then ("bill"%string,
        "Bill/Tax Document - " +:+ title,
        "Billing or tax document. Review payment details, due dates, and account information. Set reminder for payment if needed."%string,
        JStr (reminderIn14Days zone now))
  else if includes lowerFileName "appointment" || includes lowerFileName "doctor"
     || includes lowerFileName "medical" || includes lowerFileName "clinic"
  then ("appointment"%string,
        "Medical Appointment - " +:+ title,
        "Medical appointment or healthcare document. Verify appointment details, time, and location. Prepare required documents or follow pre-appointment instructions."%string,
        JUndefined)
  else if includes lowerFileName "bank" || includes lowerFileName "statement"
     || includes lowerFileName "finance"
  then ("bill"%string,
        "Financial Document - " +:+ title,
        "Financial statement or banking document. Review transactions, account balance, and any important notices or changes."%string,
        JUndefined)
  else if includes lowerFileName "insurance" || includes lowerFileName "policy"
     || includes lowerFileName "claim"
  then ("insurance"%string,
        "Insurance Document - " +:+ title,
        "Insurance policy, claim, or coverage document. Review policy details, coverage limits, renewal dates, and any required actions."%string,
        JUndefined)
  else if includes lowerFileName "nhs" || includes lowerFileName "health"
  then ("nhs"%string,
        "NHS/Health Document - " +:+ title,
        "NHS or health service document. Review appointment details, treatment information, test results, or health records."%string,
        JUndefined)
  else if includes lowerFileName "gov" || includes lowerFileName "hmrc"
     || includes lowerFileName "dvla" || includes lowerFileName "government"
  then ("government"%string,
        "Government Document - " +:+ title,
        "Official government correspondence or document. Review requirements, deadlines, and respond by specified dates if action is required."%string,
        JUndefined)
  else if includes lowerFileName "ticket" || includes lowerFileName "travel"
     || includes lowerFileName "train" || includes lowerFileName "flight"
  then ("personal"%string,
        "Travel Document - " +:+ title,
        "Travel ticket or booking confirmation. Verify travel details, departure times, seat assignments, and any special requirements."%string,
        JUndefined)
  else ("personal"%string,
        "Document - " +:+ title,
        "Document uploaded and categorized based on filename. AI analysis will provide detailed content extraction once service is available."%string,
        JUndefined).

(** [generateEnhancedFallback(fileName, error)], run at time [now] in a
    process whose local time zone is [zone]. *)
Definition generateEnhancedFallback (zone : JSDate.TimeZone) (now : Z)
    (fileName : string)
    (error : Thrown) : AIAnalysisResult :=
  let '(category, title, summary, reminderDate) :=
    classifyFileName zone now fileName in
  let summary :=
    if isQuotaError error then summary +:+ quotaNote
    else summary +:+ failureNote in
  {| title := JStr title;
     summary := JStr summary;
     category := category;
     categories := [category];
     customCategories := [];
     reminderDate := reminderDate;
     extractedText := fallbackText fileName category |}.

(** A chat completion, reduced to what the analyzer reads of it:
    [choices[i].message.content], a string or [null]. *)
Record ChatCompletion : Type := { choices : list (option string) }.

(** [response.choices[0].message.content]: a TypeError when there is no
    first choice. *)
Definition firstContent (r : ChatCompletion) : Outcome (option string) :=
  match choices r with
  | [] => Throws (JsError "Cannot read properties of undefined (reading 'message')")
  | c :: _ => Returns c
  end.

(** [content || dflt] on a string or [null] *)
Definition contentOr (content : option string) (dflt : string) : string :=
  match content with
  | Some s => if String.eqb s "" then dflt else s
  | None => dflt
  end.

(** The three requests sent to the completions API, each with the data
    interpolated into it; the fixed prompt text is part of the service. *)
Inductive ChatRequest : Type :=
  | OcrRequest (mimeType base64Image fileName : string)
  | AnalysisRequest (fileName extractedText : string)
  | FilenameRequest (fileName currentDate : string).

(** What the analyzer calls outside itself.  [convertPDF] gives
    [pageResult.buffer] in base64 ([None]: no buffer); [readFileSync] gives
    the file in base64. *)
Record Externals : Type := {
  convertPDF : string -> Outcome (option string);
  readFileSync : string -> Outcome string;
  chat : ChatRequest -> Outcome ChatCompletion;
  JSON_parse : string -> Outcome JValue
}.

Definition pdfFailedText (fileName : string) : string :=
  "PDF Processing Failed - " +:+ fileName +:+ nl +:+ nl
  +:+ "This PDF could not be converted to image for OCR processing. Possible reasons:" +:+ nl
  +:+ "- PDF format not compatible with conversion library" +:+ nl
  +:+ "- File corrupted or password protected" +:+ nl
  +:+ "- Insufficient system resources" +:+ nl +:+ nl
  +:+ "Try converting manually to image format (JPG/PNG) for full OCR processing."
  +:+ nl +:+ nl +:+ "Analysis based on filename patterns.".

(** The object literal every successful path returns, from the parsed
    classification [result]. *)
Definition resultOf (result : JValue) (defaultTitle defaultSummary : string)
    (noReminder : JValue) (text : string) : Outcome AIAnalysisResult :=
  t ← getProp result "title";
  s ← getProp result "summary";
  c ← getProp result "category";
  r ← getProp result "reminderDate";
  mret {| title := js_or t (JStr defaultTitle);
          summary := js_or s (JStr defaultSummary);
          category := orPersonal (validateCategory c);
          categories := [orPersonal (validateCategory c)];
          customCategories := [];
          reminderDate := js_or r noReminder;
          extractedText := text |}.

Section Analyzer.

Variable ext : Externals.
Variable zone : JSDate.TimeZone.
Variable now : Z.

(** The inner [try] of the PDF branch: rasterise page 1, transcribe it,
    classify the transcription. *)
Definition pdfViaImage (filePath fileName : string) : Outcome AIAnalysisResult :=
  buffer ← convertPDF ext filePath;
  base64Image ← match buffer with
                | None => Throws (JsError "Failed to convert PDF to image")
                | Some b => Returns b
                end;
  _ ← (if Nat.eqb (String.length base64Image) 0
       then Throws (JsError "PDF conversion produced empty image")
       else Returns tt);
  ocrResponse ← chat ext (OcrRequest "image/jpeg" base64Image fileName);
  content ← firstContent ocrResponse;
  let extractedText := contentOr content "" in
  analysisResponse ← chat ext (AnalysisRequest fileName extractedText);
  answer ← firstContent analysisResponse;
  analysisResult ← JSON_parse ext (contentOr answer "{}");
  resultOf analysisResult ("PDF Document - " +:+ fileName)
    "PDF document processed successfully via image conversion and OCR."
    JNull extractedText.

(** The [catch (pdfError)] of the PDF branch: one classification call on
    the file name alone. *)
Definition pdfByFileName (fileName : string) : Outcome AIAnalysisResult :=
  response ← chat ext (FilenameRequest fileName (JSDate.isoDate now));
  answer ← firstContent response;
  result ← JSON_parse ext (contentOr answer "{}");
  resultOf result ("PDF - " +:+ fileName)
    "PDF document analyzed based on filename."
    JNull (pdfFailedText fileName).

(** The image branch, taken for every extension other than [.pdf]. *)
Definition imageViaVision (filePath fileName ext_ : string)
  : Outcome AIAnalysisResult :=
  base64Image ← readFileSync ext filePath;
  let mimeType := if String.eqb ext_ ".png" then "image/png"%string
                  else "image/jpeg"%string in
  ocrResponse ← chat ext (OcrRequest mimeType base64Image fileName);
  content ← firstContent ocrResponse;
  let extractedText :=
    contentOr (match content with Some s => Some (trim s) | None => None end) "" in
  analysisResponse ← chat ext (AnalysisRequest fileName extractedText);
  answer ← firstContent analysisResponse;
  analysisResult ← JSON_parse ext (contentOr answer "{}");
  resultOf analysisResult ("Document - " +:+ fileName)
    "Document processed successfully."
    JUndefined extractedText.

(** The body of the outer [try]. *)
Definition analyzeBody (filePath fileName : string) : Outcome AIAnalysisResult :=
  let ext_ := toLowerCase (extname fileName) in
  if String.eqb ext_ ".pdf"
  then try_catch (pdfViaImage filePath fileName)
                 (fun pdfError => pdfByFileName fileName)
  else imageViaVision filePath fileName ext_.

(** [analyzeDocument(filePath, fileName)]; the console output is left out. *)
Definition analyzeDocument (filePath fileName : string)
  : Outcome AIAnalysisResult :=
  try_catch (analyzeBody filePath fileName)
            (fun error => Returns (generateEnhancedFallback zone now fileName error)).

End Analyzer.

End AIService.

(* ===================================================================== *)
(** ** shared/schema.ts and server/storage.ts: the persistence layer      *)
(** (in this tree: unnamed/part_000 and the second module of
    test-ukrainian-analysis.js) *)
(* ===================================================================== *)

Module Storage.
Import JS.

(** A row of [users]; [emailConfig] is the untyped per-user SMTP setting
    that the notification service looks for on the object it is handed. *)
Record EmailSettings : Type := {
  cfg_host : string;
  cfg_port : Z;
  cfg_secure : bool;
  cfg_user : string;
  cfg_pass : string;
  cfg_fromName : string;
  cfg_fromEmail : string
}.

Record User : Type := {
  user_id : string;
  email : option string;
  firstName : option string;
  lastName : option string;
  provider : string;
  passwordHash : option string;
  emailConfig : option EmailSettings
}.

(** A row of [mail_items]. *)
Record MailItem : Type := {
  id : Z;
  userId : string;
  title : string;
  summary : string;
  category : string;
  reminderDate : option string;
  imageUrl : string;
  fileName : string;
  extractedText : option string;
  uploadDate : Z
}.

(** [InsertMailItem]: a row without [id] and [uploadDate]. *)
Record InsertMailItem : Type := {
  ins_userId : string;
  ins_title : string;
  ins_summary : string;
  ins_category : string;
  ins_reminderDate : option string;
  ins_imageUrl : string;
  ins_fileName : string;
  ins_extractedText : option string
}.

(** [Partial<InsertMailItem>]: [None] is an absent key. *)
Record MailItemUpdates : Type := {
  set_userId : option string;
  set_title : option string;
  set_summary : option string;
  set_category : option string;
  set_reminderDate : option (option string);
  set_imageUrl : option string;
  set_fileName : option string;
  set_extractedText : option (option string)
}.

(** The database: the two tables the mail item code touches and the
    counter behind the [serial] key. *)
Record Database : Type := {
  users : list User;
  mailItems : list MailItem;
  nextId : Z
}.

Definition userExists (db : Database) (uid : string) : bool :=
  existsb (fun u => String.eqb (user_id u) uid) (users db).

(** [eq(mailItems.userId, userId)] *)
Definition ownedBy (uid : string) (m : MailItem) : bool :=
  String.eqb (userId m) uid.

(** [and(eq(mailItems.id, id), eq(mailItems.userId, userId))] *)
Definition isItemOf (i : Z) (uid : string) (m : MailItem) : bool :=
  Z.eqb (id m) i && ownedBy uid m.

(** SQL [LIKE]: [%] matches any run of characters, [_] any one character,
    a backslash makes the next pattern character literal. *)
Fixpoint like (pattern s : string) {struct pattern} : bool :=
  match pattern with
  | EmptyString => String.eqb s ""
  | String p rest =>
      if Ascii.eqb p "%" then
        (fix anySuffix (s : string) : bool :=
           like rest s ||
           match s with
           | EmptyString => false
           | String _ s' => anySuffix s'
           end) s
      else if Ascii.eqb p "_" then
        match s with
        | EmptyString => false
        | String _ s' => like rest s'
        end
      else if Ascii.eqb p "\" then
        match rest, s with
        | String q rest', String c s' => Ascii.eqb q c && like rest' s'
        | _, _ => false
        end
      else
        match s with
        | EmptyString => false
        | String c s' => Ascii.eqb p c && like rest s'
        end
  end.

(** [ilike(column, pattern)]; a null column matches nothing. *)
Definition ilike (column : option string) (pattern : string) : bool :=
  match column with
  | Some s => like (toLowerCase pattern) (toLowerCase s)
  | None => false
  end.

Definition matchesQuery (query : string) (m : MailItem) : bool :=
  let pattern := "%" +:+ query +:+ "%" in
  ilike (Some (title m)) pattern || ilike (Some (summary m)) pattern
  || ilike (Some (category m)) pattern || ilike (extractedText m) pattern.

(** [orderBy(desc(mailItems.uploadDate))], as an insertion sort; SQL leaves
    the order among rows of equal date open. *)
Fixpoint insertByDate (m : MailItem) (l : list MailItem) : list MailItem :=
  match l with
  | [] => [m]
  | x :: rest =>
      if (uploadDate x <? uploadDate m)%Z then m :: x :: rest
      else x :: insertByDate m rest
  end.

Definition newestFirst (l : list MailItem) : list MailItem :=
  foldr insertByDate [] l.

Definition getAllMailItems (uid : string) (db : Database) : list MailItem :=
  newestFirst (List.filter (ownedBy uid) (mailItems db)).

(** [const [item] = await ...; return item || undefined] *)
Definition getMailItem (i : Z) (uid : string) (db : Database) : option MailItem :=
  head (List.filter (isItemOf i uid) (mailItems db)).

(** [insert(...).values(...).returning()]: the key and the upload time are
    assigned by the database; an unknown owner violates the foreign key. *)
Definition createMailItem (ins : InsertMailItem) (now : Z) (db : Database)
  : Outcome (Database * MailItem) :=
  if userExists db (ins_userId ins) then
    let item := {| id := nextId db;
                   userId := ins_userId ins;
                   title := ins_title ins;
                   summary := ins_summary ins;
                   category := ins_category ins;
                   reminderDate := ins_reminderDate ins;
                   imageUrl := ins_imageUrl ins;
                   fileName := ins_fileName ins;
                   extractedText := ins_extractedText ins;
                   uploadDate := now |} in
    Returns ({| users := users db;
                mailItems := mailItems db ++ [item];
                nextId := (nextId db + 1)%Z |}, item)
  else Throws (JsError "insert or update on table mail_items violates foreign key constraint").

(** [.set(updates)] on one row *)
Definition applyUpdates (u : MailItemUpdates) (m : MailItem) : MailItem :=
  {| id := id m;
     userId := default (userId m) (set_userId u);
     title := default (title m) (set_title u);
     summary := default (summary m) (set_summary u);
     category := default (category m) (set_category u);
     reminderDate := default (reminderDate m) (set_reminderDate u);
     imageUrl := default (imageUrl m) (set_imageUrl u);
     fileName := default (fileName m) (set_fileName u);
     extractedText := default (extractedText m) (set_extractedText u);
     uploadDate := uploadDate m |}.

Definition updateWhere (sel : MailItem -> bool) (u : MailItemUpdates)
    (l : list MailItem) : list MailItem :=
  map (fun m => if sel m then applyUpdates u m else m) l.

(** No key of the update carries a value. *)
Definition noKeys (u : MailItemUpdates) : bool :=
  match set_userId u, set_title u, set_summary u, set_category u,
        set_reminderDate u, set_imageUrl u, set_fileName u, set_extractedText u with
  | None, None, None, None, None, None, None, None => true
  | _, _, _, _, _, _, _, _ => false
  end.

(** [update(mailItems).set(updates).where(...).returning()]: [set] throws
    before any statement is sent when no key carries a value; the foreign
    key is checked when a row is really rewritten. *)
Definition updateMailItem (i : Z) (uid : string) (u : MailItemUpdates)
    (db : Database) : Outcome (Database * option MailItem) :=
  if noKeys u then Throws (JsError "No values to set")
  else
    let hit := List.filter (isItemOf i uid) (mailItems db) in
    let foreignKeyHolds :=
      match hit, set_userId u with
      | _ :: _, Some owner => userExists db owner
      | _, _ => true
      end in
    if foreignKeyHolds then
      Returns ({| users := users db;
                  mailItems := updateWhere (isItemOf i uid) u (mailItems db);
                  nextId := nextId db |},
               head (map (applyUpdates u) hit))
    else Throws (JsError "insert or update on table mail_items violates foreign key constraint").

(** [(result.rowCount || 0) > 0] *)
Definition deleteMailItem (i : Z) (uid : string) (db : Database)
  : Database * bool :=
  let hit := List.filter (isItemOf i uid) (mailItems db) in
  ({| users := users db;
      mailItems := List.filter (fun m => negb (isItemOf i uid m)) (mailItems db);
      nextId := nextId db |},
   Nat.ltb 0 (length hit)).

Definition deleteAllMailItems (uid : string) (db : Database) : Database * nat :=
  ({| users := users db;
      mailItems := List.filter (fun m => negb (ownedBy uid m)) (mailItems db);
      nextId := nextId db |},
   length (List.filter (ownedBy uid) (mailItems db))).

Definition searchMailItems (query uid : string) (db : Database) : list MailItem :=
  newestFirst
    (List.filter (fun m => ownedBy uid m && matchesQuery query m) (mailItems db)).

Definition getMailItemsByCategory (cat uid : string) (db : Database)
  : list MailItem :=
  newestFirst
    (List.filter (fun m => String.eqb (category m) cat && ownedBy uid m)
            (mailItems db)).

Definition getUser (uid : string) (db : Database) : option User :=
  head (List.filter (fun u => String.eqb (user_id u) uid) (users db)).

End Storage.

(* ===================================================================== *)
(** ** server/email-service.ts: the notification service                  *)
(* ===================================================================== *)

Module EmailService.
Import JS Storage.

(** [process.env], the variables the service reads. *)
Record Env : Type := {
  SMTP_HOST : option string;
  SMTP_PORT : option string;
  SMTP_SECURE : option string;
  SMTP_USER : option string;
  SMTP_PASS : option string;
  FROM_NAME : option string;
  FROM_EMAIL : option string;
  APP_URL : option string
}.

(** [v || dflt] on a string or [undefined] *)
Definition strOr (v : option string) (dflt : string) : string :=
  match v with
  | Some s => if String.eqb s "" then dflt else s
  | None => dflt
  end.

Record SmtpAuth : Type := { auth_user : string; auth_pass : string }.

Record Smtp : Type := {
  host : string;
  port : option Z;
  secure : bool;
  auth : SmtpAuth
}.

Record Sender : Type := { from_name : string; from_address : string }.

Record EmailConfig : Type := { smtp : Smtp; from : Sender }.

Record LetterData : Type := {
  letter_id : Z;
  letter_title : string;
  letter_fileName : string;
  letter_imageUrl : string;
  letter_uploadDate : Z;
  letter_summary : option string;
  letter_extractedText : option string
}.

Record Attachment : Type := {
  att_filename : string;
  att_path : string;
  att_contentType : string
}.

Record MailOptions : Type := {
  mail_from : string;
  mail_to : string;
  mail_subject : string;
  mail_text : string;
  mail_html : string;
  mail_attachments : list Attachment
}.

Inductive LogEntry : Type :=
  | ConsoleLog (text : string)
  | ConsoleError (text : string).

(** Node and nodemailer, as the service uses them.  [parsePort] is
    [parseInt] (its result [None] is NaN); [sendMail] gives
    [info.messageId]. *)
Record Platform : Type := {
  env : Env;
  cwd : string;
  pathJoin : string -> string -> string;
  existsSync : string -> bool;
  parsePort : string -> option Z;
  toLocaleDateString : Z -> string;
  createTransport : Smtp -> Outcome unit;
  sendMail : Smtp -> MailOptions -> Outcome (option string)
}.

Section Service.

Variable pf : Platform.

Definition getEmailConfig (user : option User) : EmailConfig :=
  match user with
  | Some {| emailConfig := Some c |} =>
      {| smtp := {| host := cfg_host c;
                    port := Some (cfg_port c);
                    secure := cfg_secure c;
                    auth := {| auth_user := cfg_user c; auth_pass := cfg_pass c |} |};
         from := {| from_name := strOr (Some (cfg_fromName c)) "Posty";
                    from_address := strOr (Some (cfg_fromEmail c)) (cfg_user c) |} |}
  | _ =>
      {| smtp := {| host := strOr (SMTP_HOST (env pf)) "smtp.gmail.com";
                    port := parsePort pf (strOr (SMTP_PORT (env pf)) "587");
                    secure := match SMTP_SECURE (env pf) with
                              | Some s => String.eqb s "true"
                              | None => false
                              end;
                    auth := {| auth_user := strOr (SMTP_USER (env pf)) "";
                               auth_pass := strOr (SMTP_PASS (env pf)) "" |} |};
         from := {| from_name := strOr (FROM_NAME (env pf)) "Posty";
                    from_address :=
                      strOr (FROM_EMAIL (env pf)) (strOr (SMTP_USER (env pf)) "") |} |}
  end.

(** The transporter is identified with the SMTP settings it was made for. *)
Definition createTransporter (user : option User) : Outcome Smtp :=
  let config := getEmailConfig user in
  if String.eqb (auth_user (auth (smtp config))) ""
     || String.eqb (auth_pass (auth (smtp config))) ""
  then Throws (JsError "SMTP credentials not configured. Please configure email settings in your profile.")
  else
    _ ← createTransport pf (smtp config);
    mret (smtp config).

Definition contentTypeOf (fileExt : string) : string :=
  if String.eqb fileExt ".jpg" || String.eqb fileExt ".jpeg" then "image/jpeg"
  else if String.eqb fileExt ".png" then "image/png"
  else if String.eqb fileExt ".pdf" then "application/pdf"
  else "application/octet-stream".

(** [user.firstName || user.email?.split('@')[0] || 'User'] *)
Definition userNameOf (user : User) : string :=
  strOr (firstName user)
    (strOr (match email user with
            | Some e => Some (beforeFirst "@" e)
            | None => None
            end) "User").

Definition appUrl : string :=
  strOr (APP_URL (env pf)) "https://mail-smart-chepuralex1991.replit.app".

(** A conditional block of a template: [v ? block(v) : ''] *)
Definition whenPresent (v : option string) (block : string -> string) : string :=
  match v with
  | Some s => if String.eqb s "" then "" else block s
  | None => ""
  end.

Definition quote : string := String (ascii_of_nat 34) EmptyString.

Definition textBody (userName : string) (letter : LetterData) : string :=
  nl +:+ "Hi " +:+ userName +:+ "," +:+ nl +:+ nl
  +:+ "Your letter " +:+ quote +:+ letter_title letter +:+ quote
  +:+ " has been successfully processed and is ready for review." +:+ nl +:+ nl
  +:+ "Document Details:" +:+ nl
  +:+ "- Title: " +:+ letter_title letter +:+ nl
  +:+ "- File: " +:+ letter_fileName letter +:+ nl
  +:+ "- Processed: " +:+ toLocaleDateString pf (letter_uploadDate letter) +:+ nl +:+ nl
  +:+ whenPresent (letter_summary letter)
        (fun s => nl +:+ "AI Summary:" +:+ nl +:+ s +:+ nl)
  +:+ nl +:+ nl
  +:+ whenPresent (letter_extractedText letter)
        (fun s => nl +:+ "Extracted Text (OCR):" +:+ nl +:+ s +:+ nl)
  +:+ nl +:+ nl
  +:+ "You can find the scanned document attached to this email or view it in your Posty dashboard at "
  +:+ appUrl +:+ "." +:+ nl +:+ nl
  +:+ "This email was sent automatically by Posty." +:+ nl +:+ "    ".

(** The HTML alternative: the same interpolations in the same order; the
    style attributes and the layout white space are left out. *)
Definition htmlBody (userName : string) (letter : LetterData) : string :=
  "<div><h2>Your Letter is Ready!</h2><p>Hi " +:+ userName +:+ ",</p>"
  +:+ "<p>Your letter " +:+ quote +:+ "<strong>" +:+ letter_title letter
  +:+ "</strong>" +:+ quote
  +:+ " has been successfully processed and is ready for review.</p>"
  +:+ "<div><h3>Document Details:</h3><ul>"
  +:+ "<li><strong>Title:</strong> " +:+ letter_title letter +:+ "</li>"
  +:+ "<li><strong>File:</strong> " +:+ letter_fileName letter +:+ "</li>"
  +:+ "<li><strong>Processed:</strong> "
  +:+ toLocaleDateString pf (letter_uploadDate letter) +:+ "</li></ul></div>"
  +:+ whenPresent (letter_summary letter)
        (fun s => "<div><h4>AI Summary:</h4><p>" +:+ s +:+ "</p></div>")
  +:+ whenPresent (letter_extractedText letter)
        (fun s => "<div><h4>Extracted Text (OCR):</h4><div>" +:+ s +:+ "</div></div>")
  +:+ "<p>You can find the scanned document attached to this email or view it in your Posty dashboard.</p>"
  +:+ "<div><a href=" +:+ quote +:+ appUrl +:+ quote
  +:+ ">View in Posty Dashboard</a></div><hr>"
  +:+ "<p>This email was sent automatically by Posty. If you have any questions, please contact support.</p></div>".

(** The [try] block of [sendLetterNotification]: what it wrote to the
    console, and how it ended. *)
Definition notificationAttempt (user : User) (letter : LetterData)
  : list LogEntry * Outcome unit :=
  match email user with
  | None =>
      ([ConsoleError "Cannot send email notification: user has no email address"],
       Returns tt)
  | Some address =>
      if String.eqb address "" then
        ([ConsoleError "Cannot send email notification: user has no email address"],
         Returns tt)
      else
        let config := getEmailConfig (Some user) in
        match createTransporter (Some user) with
        | Throws e => ([], Throws e)
        | Returns transporter =>
            let filePath :=
              pathJoin pf (cwd pf) (stripLeadingSlash (letter_imageUrl letter)) in
            if negb (existsSync pf filePath) then
              ([ConsoleError ("File not found for email attachment: " +:+ filePath)],
               Throws (JsError ("File not found: " +:+ letter_fileName letter)))
            else
              let fileExt := toLowerCase (extname (letter_fileName letter)) in
              let contentType := contentTypeOf fileExt in
              let userName := userNameOf user in
              let mailOptions :=
                {| mail_from := from_name (from config) +:+ " <"
                                +:+ from_address (from config) +:+ ">";
                   mail_to := address;
                   mail_subject := "Your scanned letter from Posty";
                   mail_text := textBody userName letter;
                   mail_html := htmlBody userName letter;
                   mail_attachments :=
                     [{| att_filename := letter_fileName letter;
                         att_path := filePath;
                         att_contentType := contentType |}] |} in
              match sendMail pf transporter mailOptions with
              | Throws e => ([], Throws e)
              | Returns messageId =>
                  ([ConsoleLog ("Email sent successfully to " +:+ address +:+ ": "
                                +:+ strOr messageId "unknown")],
                   Returns tt)
              end
        end
  end.

(** [error instanceof Error ? error.message : 'Unknown error'] *)
Definition errorMessage (e : Thrown) : string :=
  match e with
  | JsError message => message
  | NonError _ => "Unknown error"
  end.

(** [sendLetterNotification(user, letter)]: the whole body is one [try]
    whose [catch] writes to the console and does not rethrow. *)
Definition sendLetterNotification (user : User) (letter : LetterData)
  : list LogEntry * Outcome unit :=
  match notificationAttempt user letter with
  | (log, Returns _) => (log, Returns tt)
  | (log, Throws error) =>
      (log ++ [ConsoleError ("Failed to send letter notification email: "
                             +:+ errorMessage error)],
       Returns tt)
  end.

End Service.

End EmailService.

(* ===================================================================== *)
(** ** server/routes.ts: the mail item endpoints                          *)
(** (in this tree the module follows server/auth.ts in the same file) *)
(* ===================================================================== *)

Module Routes.
Import JS Storage.

(** What [verifyToken] makes of the bearer token or cookie of a request. *)
Inductive Credentials : Type :=
  | NoToken
  | InvalidToken
  | TokenFor (decodedUserId : string).

Inductive Body : Type :=
  | ErrorBody (error : string)
  | Items (rows : list MailItem)
  | Item (row : MailItem)
  | Success.

Record Response : Type := { status : Z; body : Body }.

(** The rows a response carries. *)
Definition rowsOf (r : Response) : list MailItem :=
  match body r with
  | Items rows => rows
  | Item row => [row]
  | _ => []
  end.

(** [authenticateToken]: a response that ends the request, or the id it
    stores in [req.userId]. *)
Definition authenticateToken (c : Credentials) (db : Database)
  : Response + string :=
  match c with
  | NoToken => inl {| status := 401; body := ErrorBody "Access token required" |}
  | InvalidToken => inl {| status := 403; body := ErrorBody "Invalid or expired token" |}
  | TokenFor decoded =>
      match getUser decoded db with
      | None => inl {| status := 401; body := ErrorBody "User not found" |}
      | Some user => inr (user_id user)
      end
  end.

(** A handler behind [authenticateToken]. *)
Definition protected {S} (c : Credentials) (db : Database)
    (handler : string -> S * Response) (unchanged : S) : S * Response :=
  match authenticateToken c db with
  | inl refusal => (unchanged, refusal)
  | inr uid => handler uid
  end.

(** [GET /api/mail-items] *)
Definition listMailItems (c : Credentials) (db : Database) : Database * Response :=
  protected c db
    (fun uid => (db, {| status := 200; body := Items (getAllMailItems uid db) |}))
    db.

(** [GET /api/mail-items/:id], with the parameter already parsed. *)
Definition fetchMailItem (c : Credentials) (i : Z) (db : Database)
  : Database * Response :=
  protected c db
    (fun uid =>
       match getMailItem i uid db with
       | None => (db, {| status := 404; body := ErrorBody "Mail item not found" |})
       | Some item => (db, {| status := 200; body := Item item |})
       end)
    db.

(** [PATCH /api/mail-items/:id]: the request body goes to the storage as it
    came. *)
Definition patchMailItem (c : Credentials) (i : Z) (updates : MailItemUpdates)
    (db : Database) : Database * Response :=
  protected c db
    (fun uid =>
       match updateMailItem i uid updates db with
       | Returns (db', None) =>
           (db', {| status := 404; body := ErrorBody "Mail item not found" |})
       | Returns (db', Some updatedItem) =>
           (db', {| status := 200; body := Item updatedItem |})
       | Throws _ =>
           (db, {| status := 500; body := ErrorBody "Failed to update mail item" |})
       end)
    db.

(** [DELETE /api/mail-items/:id] *)
Definition removeMailItem (c : Credentials) (i : Z) (db : Database)
  : Database * Response :=
  protected c db
    (fun uid =>
       match deleteMailItem i uid db with
       | (db', false) =>
           (db', {| status := 404; body := ErrorBody "Mail item not found" |})
       | (db', true) => (db', {| status := 200; body := Success |})
       end)
    db.

(** The routes module imports [storage]; the identifier [dataStorage] that
    its search, category and second health handlers name is bound nowhere,
    so evaluating it throws a ReferenceError. *)
Definition dataStorage (A : Type) : Outcome A :=
  Throws (JsError "dataStorage is not defined").

(** [GET /api/mail-items/search/:query]: registered without
    [authenticateToken]; the method is called with the query alone. *)
Definition searchRoute (query : string) (db : Database) : Database * Response :=
  match (method ← dataStorage (string -> list MailItem); mret (method query)) with
  | Returns items => (db, {| status := 200; body := Items items |})
  | Throws _ => (db, {| status := 500; body := ErrorBody "Failed to search mail items" |})
  end.

(** [GET /api/mail-items/category/:category]: likewise. *)
Definition categoryRoute (cat : string) (db : Database) : Database * Response :=
  match (method ← dataStorage (string -> list MailItem); mret (method cat)) with
  | Returns items => (db, {| status := 200; body := Items items |})
  | Throws _ =>
      (db, {| status := 500; body := ErrorBody "Failed to fetch mail items by category" |})
  end.

(** The file multer stored for an upload. *)
Record UploadedFile : Type := {
  file_path : string;
  file_filename : string;
  file_originalname : string
}.

(** [insertMailItemSchema.parse(mailItemData)]: the text columns must hold
    strings, the nullable ones a string, [null] or nothing. *)
Definition parseInsert (uid : string) (r : AIService.AIAnalysisResult)
    (file : UploadedFile) : Outcome InsertMailItem :=
  match AIService.title r, AIService.summary r,
        js_or (AIService.reminderDate r) JNull with
  | JStr t, JStr s, JStr d =>
      Returns {| ins_userId := uid; ins_title := t; ins_summary := s;
                 ins_category := AIService.category r;
                 ins_reminderDate := Some d;
                 ins_imageUrl := "/uploads/" +:+ file_filename file;
                 ins_fileName := file_originalname file;
                 ins_extractedText := Some (AIService.extractedText r) |}
  | JStr t, JStr s, JNull =>
      Returns {| ins_userId := uid; ins_title := t; ins_summary := s;
                 ins_category := AIService.category r;
                 ins_reminderDate := None;
                 ins_imageUrl := "/uploads/" +:+ file_filename file;
                 ins_fileName := file_originalname file;
                 ins_extractedText := Some (AIService.extractedText r) |}
  | _, _, _ => Throws (JsError "ZodError")
  end.

Section Upload.

Variable ai : AIService.Externals.
Variable pf : EmailService.Platform.
Variable zone : JSDate.TimeZone.
Variable now : Z.

(** The inner [try] of the upload handler, around the notification. *)
Definition notifyUploader (uid : string) (newItem : MailItem) (db : Database)
  : list EmailService.LogEntry :=
  match getUser uid db with
  | None => []
  | Some user =>
      match EmailService.sendLetterNotification pf user
              {| EmailService.letter_id := id newItem;
                 EmailService.letter_title := title newItem;
                 EmailService.letter_fileName := fileName newItem;
                 EmailService.letter_imageUrl := imageUrl newItem;
                 EmailService.letter_uploadDate := uploadDate newItem;
                 EmailService.letter_summary := Some (summary newItem);
                 EmailService.letter_extractedText := extractedText newItem |} with
      | (log, Returns _) => log
      | (log, Throws _) =>
          log ++ [EmailService.ConsoleError "Email notification failed:"]
      end
  end.

(** [POST /api/mail-items]: the new database, the response and the lines
    the notification wrote to the console. *)
Definition uploadMailItem (c : Credentials) (file : option UploadedFile)
    (db : Database) : Database * Response * list EmailService.LogEntry :=
  match authenticateToken c db with
  | inl refusal => (db, refusal, [])
  | inr uid =>
      match file with
      | None => (db, {| status := 400; body := ErrorBody "No file uploaded" |}, [])
      | Some f =>
          let stored :=
            analysisResult ← AIService.analyzeDocument ai zone now
                               (file_path f) (file_originalname f);
            validatedData ← parseInsert uid analysisResult f;
            createMailItem validatedData now db in
          match stored with
          | Throws _ =>
              (db, {| status := 500; body := ErrorBody "Failed to create mail item" |}, [])
          | Returns (db', newItem) =>
              (db', {| status := 201; body := Item newItem |},
               notifyUploader uid newItem db')
          end
      end
  end.

End Upload.

End Routes.

(* ===================================================================== *)
(** ** server/auth.ts: user ids and the OAuth state map                   *)
(* ===================================================================== *)

Module Auth.
Import JS.

Local Open Scope Z_scope.

Definition digitChar (d : Z) : ascii :=
  if d <? 10 then ascii_of_nat (48 + Z.to_nat d)
  else ascii_of_nat (97 + Z.to_nat (d - 10)).

Fixpoint digitsOf (radix : Z) (fuel : nat) (n : Z) : string :=
  match fuel with
  | O => EmptyString
  | S fuel' =>
      if n <? radix then String (digitChar n) EmptyString
      else digitsOf radix fuel' (n / radix)
           +:+ String (digitChar (n mod radix)) EmptyString
  end.

(** [n.toString(radix)] for an integer [n] and a radix from 2 to 36; the
    number of digits is at most one more than the binary logarithm. *)
Definition numberToString (radix n : Z) : string :=
  if n <? 0 then "-" +:+ digitsOf radix (S (Z.to_nat (Z.log2 (- n)))) (- n)
  else digitsOf radix (S (Z.to_nat (Z.log2 n))) n.

(** A string or [undefined], tested for truthiness. *)
Definition present (v : option string) : option string :=
  match v with
  | Some s => if String.eqb s "" then None else Some s
  | None => None
  end.

(** [generateUserId(provider, providerId, email)]; [now] is [Date.now()] and
    [random] is [Math.random().toString(36).substring(2)]. *)
Definition generateUserId (provider : string) (providerId email : option string)
    (now : Z) (random : string) : string :=
  match (if String.eqb provider "email" then present email else None) with
  | Some e => "email_" +:+ replace (replace e "@" "_") "." "_"
  | None =>
      match present providerId with
      | Some pid => provider +:+ "_" +:+ pid
      | None => provider +:+ "_" +:+ numberToString 10 now +:+ "_" +:+ random
      end
  end.

Record StateInfo : Type := { timestamp : Z }.

(** [oauthStates]: the module-level [Map] from state to the time it was
    issued. *)
Abbreviation StateMap := (gmap string StateInfo).

(** The sweep at the end of [generateOAuthState]. *)
Definition dropOlderThan (cutoff : Z) (m : StateMap) : StateMap :=
  filter (fun kv => ¬ (timestamp kv.2 < cutoff)) m.

(** [generateOAuthState()].  [random] is
    [Math.random().toString(36).substring(2)]; the three times are the
    three readings of [Date.now()], in program order: for the state string,
    for the stored timestamp and for the sweep. *)
Definition generateOAuthState (random : string) (nowState nowStamp nowSweep : Z)
    (oauthStates : StateMap) : StateMap * string :=
  let state := random +:+ numberToString 36 nowState in
  let oauthStates := <[state := {| timestamp := nowStamp |}]> oauthStates in
  let tenMinutesAgo := nowSweep - 10 * 60 * 1000 in
  (dropOlderThan tenMinutesAgo oauthStates, state).

(** [verifyOAuthState(state)] at time [now]. *)
Definition verifyOAuthState (state : string) (now : Z) (oauthStates : StateMap)
  : StateMap * bool :=
  match oauthStates !! state with
  | None => (oauthStates, false)
  | Some stateInfo =>
      let fiveMinutesAgo := now - 5 * 60 * 1000 in
      if timestamp stateInfo <? fiveMinutesAgo
      then (delete state oauthStates, false)
      else (delete state oauthStates, true)
  end.

(** A call on the state map. *)
Inductive Call : Type :=
  | Generate (random : string) (nowState nowStamp nowSweep : Z)
  | Verify (state : string) (now : Z).

(** The state a [Generate] call returns. *)
Definition issued (c : Call) : option string :=
  match c with
  | Generate random nowState _ _ => Some (random +:+ numberToString 36 nowState)
  | Verify _ _ => None
  end.

(** Running a sequence of calls from a given map: how many verifications
    of [s] returned true. *)
Fixpoint accepted (s : string) (calls : list Call) (oauthStates : StateMap) : nat :=
  match calls with
  | [] => O
  | Generate random t1 t2 t3 :: rest =>
      accepted s rest (generateOAuthState random t1 t2 t3 oauthStates).1
  | Verify state now :: rest =>
      let r := verifyOAuthState state now oauthStates in
      ((if r.2 && String.eqb state s then 1 else 0) + accepted s rest r.1)%nat
  end.

End Auth.

(* ===================================================================== *)
(** ** The fallback classifier as the specification words it              *)
(* ===================================================================== *)

Module FallbackSpec.
Import JS AIService.

(** The keyword groups of the specification, in the order it lists them,
    each with its category. *)
Definition keywordTable : list (list string * Category) :=
  [ (["council"; "tax"; "bill"; "invoice"], "bill");
    (["appointment"; "doctor"; "medical"; "clinic"], "appointment");
    (["bank"; "statement"; "finance"], "bill");
    (["insurance"; "policy"; "claim"], "insurance");
    (["nhs"; "health"], "nhs");
    (["gov"; "hmrc"; "dvla"; "government"], "government");
    (["ticket"; "travel"; "train"; "flight"], "personal") ]%string.

Definition recognizedKeywords : list string :=
  concat (map fst keywordTable).

(** Some keyword of the group occurs in [lower]. *)
Definition groupMatches (lower : string) (keywords : list string) : bool :=
  existsb (includes lower) keywords.

(** The category of the first group of [table] that matches, if any. *)
Fixpoint firstMatch (lower : string) (table : list (list string * Category))
  : option Category :=
  match table with
  | [] => None
  | (keywords, cat) :: rest =>
      if groupMatches lower keywords then Some cat else firstMatch lower rest
  end.

(** The reading of the specification under which every keyword decides the
    category on its own. *)
Definition everyKeywordDecides : Prop :=
  forall (zone : JSDate.TimeZone) (now : Z) (fileName : string) (error : Thrown)
         (keywords : list string) (cat : Category) (k : string),
    In (keywords, cat) keywordTable -> In k keywords ->
    includes (toLowerCase fileName) k = true ->
    category (generateEnhancedFallback zone now fileName error) = cat.

Definition isString (v : JValue) : bool :=
  match v with JStr _ => true | _ => false end.

(** An [AIAnalysisResult] as its interface declares it. *)
Definition wellFormed (r : AIAnalysisResult) : bool :=
  isString (title r) && isString (summary r)
  && existsb (String.eqb (category r)) validCategories
  && bool_decide (categories r = [category r])
  && bool_decide (customCategories r = [])
  && match reminderDate r with
     | JStr _ | JUndefined | JNull => true
     | _ => false
     end.

(** The reading of the specification under which the result is a function
    of the file name and the time alone. *)
Definition dependsOnNameAndTimeOnly : Prop :=
  forall (zone : JSDate.TimeZone) (now : Z) (fileName : string) (e1 e2 : Thrown),
    generateEnhancedFallback zone now fileName e1
    = generateEnhancedFallback zone now fileName e2.

End FallbackSpec.

(* ===================================================================== *)
(** ** Concrete situations used below                                     *)
(* ===================================================================== *)

Module Scenarios.
Import JS AIService Storage.

(** A process that runs in UTC. *)
Definition utc : JSDate.TimeZone := JSDate.fixedOffset 0.

(** Europe/London as it is during 2024: Greenwich Mean Time, and British
    Summer Time, one hour ahead, from 31 March 01:00 UTC to 27 October
    01:00 UTC.  A local time that the change in March skips, or that the
    change in October repeats, is read with the offset before the change. *)
Definition london2024 : JSDate.TimeZone :=
  {| JSDate.offsetAt := fun t =>
       if (1711846800000 <=? t)%Z && (t <? 1729990800000)%Z
       then 3600000%Z else 0%Z;
     JSDate.offsetOfLocal := fun t =>
       if (1711850400000 <=? t)%Z && (t <? 1729994400000)%Z
       then 3600000%Z else 0%Z |}.

(** External services for which the transcription call is refused for
    quota while the classification by file name is answered. *)
Definition quotaOnOcr : Externals :=
  {| convertPDF := fun _ => Returns (Some "AAAA"%string);
     readFileSync := fun _ => Returns "AAAA"%string;
     chat := fun req =>
       match req with
       | FilenameRequest _ _ => Returns {| choices := [Some "{}"%string] |}
       | _ => Throws (JsError "429 You exceeded your current quota")
       end;
     JSON_parse := fun _ => Returns (JObj []) |}.

(** External services with no file behind the path. *)
Definition missingFile : Externals :=
  {| convertPDF := fun _ => Throws (JsError "ENOENT: no such file or directory");
     readFileSync := fun _ => Throws (JsError "ENOENT: no such file or directory");
     chat := fun _ => Throws (JsError "429 You exceeded your current quota");
     JSON_parse := fun _ => Throws (JsError "Unexpected end of JSON input") |}.

Definition alice : User :=
  {| user_id := "email_alice_example.org"; email := Some "alice@example.org"%string;
     firstName := Some "Alice"%string; lastName := None; provider := "email";
     passwordHash := Some "$2a$12$hash"%string; emailConfig := None |}.

Definition bob : User :=
  {| user_id := "google_1234"; email := Some "bob@example.org"%string;
     firstName := Some "Bob"%string; lastName := None; provider := "google";
     passwordHash := None; emailConfig := None |}.

Definition aliceLetter : MailItem :=
  {| id := 1; userId := "email_alice_example.org"; title := "Council tax";
     summary := "Demand for payment"; category := "bill";
     reminderDate := None; imageUrl := "/uploads/file-1.pdf";
     fileName := "council.pdf"; extractedText := None;
     uploadDate := 1705752000000 |}.

Definition twoUsers : Database :=
  {| users := [alice; bob]; mailItems := [aliceLetter]; nextId := 2 |}.

(** An update whose only key is [userId]. *)
Definition handOverToBob : MailItemUpdates :=
  {| set_userId := Some "google_1234"%string; set_title := None;
     set_summary := None; set_category := None; set_reminderDate := None;
     set_imageUrl := None; set_fileName := None; set_extractedText := None |}.

(** A platform with SMTP credentials in the environment, on which no
    uploaded file is found and no mail gets through. *)
Definition noAttachment : EmailService.Platform :=
  {| EmailService.env :=
       {| EmailService.SMTP_HOST := None; EmailService.SMTP_PORT := None;
          EmailService.SMTP_SECURE := None;
          EmailService.SMTP_USER := Some "posty@example.org"%string;
          EmailService.SMTP_PASS := Some "app-password"%string;
          EmailService.FROM_NAME := None; EmailService.FROM_EMAIL := None;
          EmailService.APP_URL := None |};
     EmailService.cwd := "/srv/posty";
     EmailService.pathJoin := fun a b => a +:+ "/" +:+ b;
     EmailService.existsSync := fun _ => false;
     EmailService.parsePort := fun _ => Some 587%Z;
     EmailService.toLocaleDateString := fun _ => "1/20/2024"%string;
     EmailService.createTransport := fun _ => Returns tt;
     EmailService.sendMail := fun _ _ => Throws (JsError "connect ECONNREFUSED") |}.

End Scenarios.

(* ===================================================================== *)
(** ** server/email-providers.ts and server/email-config-service.ts       *)
(* ===================================================================== *)

Module EmailProviders.
Import JS.

Inductive AuthType : Type := AuthPassword | AuthOAuth | AuthAppPassword.

Record ProviderSmtp : Type := {
  smtp_host : string;
  smtp_port : Z;
  smtp_secure : bool
}.

Record EmailProvider : Type := {
  name : string;
  smtp : ProviderSmtp;
  authType : AuthType;
  setupInstructions : string
}.

(** [EMAIL_PROVIDERS] *)
Definition gmail : EmailProvider :=
  {| name := "Gmail";
     smtp := {| smtp_host := "smtp.gmail.com"; smtp_port := 587; smtp_secure := false |};
     authType := AuthAppPassword;
     setupInstructions := "Enable 2FA and generate an app password" |}.

Definition outlook : EmailProvider :=
  {| name := "Outlook/Hotmail";
     smtp := {| smtp_host := "smtp-mail.outlook.com"; smtp_port := 587;
                smtp_secure := false |};
     authType := AuthPassword;
     setupInstructions := "Use your regular email password" |}.

Definition yahoo : EmailProvider :=
  {| name := "Yahoo Mail";
     smtp := {| smtp_host := "smtp.mail.yahoo.com"; smtp_port := 587;
                smtp_secure := false |};
     authType := AuthAppPassword;
     setupInstructions := "Generate an app password in Yahoo Account Security" |}.

Definition icloud : EmailProvider :=
  {| name := "iCloud Mail";
     smtp := {| smtp_host := "smtp.mail.me.com"; smtp_port := 587;
                smtp_secure := false |};
     authType := AuthAppPassword;
     setupInstructions := "Generate an app-specific password in Apple ID settings" |}.

(** [s.split(sep)[1]]: what lies between the first and the second
    separator; [None] is [undefined]. *)
Fixpoint secondPart (sep : ascii) (s : string) : option string :=
  match s with
  | EmptyString => None
  | String c rest =>
      if Ascii.eqb c sep then Some (beforeFirst sep rest) else secondPart sep rest
  end.

Definition detectEmailProvider (email : string) : option EmailProvider :=
  match secondPart "@" email with
  | None => None
  | Some part =>
      let domain := toLowerCase part in
      if String.eqb domain "" then None
      else if String.eqb domain "gmail.com" || String.eqb domain "googlemail.com"
      then Some gmail
      else if String.eqb domain "outlook.com" || String.eqb domain "hotmail.com"
              || String.eqb domain "live.com"
      then Some outlook
      else if String.eqb domain "yahoo.com" || String.eqb domain "ymail.com"
      then Some yahoo
      else if String.eqb domain "icloud.com" || String.eqb domain "me.com"
              || String.eqb domain "mac.com"
      then Some icloud
      else None
  end.

Record SetupInstructions : Type := {
  si_provider : option EmailProvider;
  si_instructions : string;
  si_requiresAppPassword : bool
}.

Definition isAppPassword (a : AuthType) : bool :=
  match a with AuthAppPassword => true | _ => false end.

Definition getEmailSetupInstructions (email : string) : SetupInstructions :=
  match detectEmailProvider email with
  | None =>
      {| si_provider := None;
         si_instructions :=
           "Please configure SMTP settings manually for your email provider.";
         si_requiresAppPassword := false |}
  | Some provider =>
      let requiresAppPassword := isAppPassword (authType provider) in
      let instructions := "Detected " +:+ name provider +:+ ". " in
      let instructions :=
        if requiresAppPassword
        then instructions +:+ "For security, " +:+ name provider
             +:+ " requires an app-specific password. "
             +:+ setupInstructions provider +:+ "."
        else instructions +:+ "You can use your regular email password. "
             +:+ setupInstructions provider +:+ "." in
      {| si_provider := Some provider;
         si_instructions := instructions;
         si_requiresAppPassword := requiresAppPassword |}
  end.

Record AutoConfig : Type := {
  ac_host : string;
  ac_port : Z;
  ac_secure : bool;
  ac_service : string
}.

Record AutoEmailConfig : Type := {
  canAutoSetup : bool;
  provider : option string;
  instructions : string;
  config : option AutoConfig
}.

(** [getAutoEmailConfig(user)], from the e-mail address of the user. *)
Definition getAutoEmailConfig (email : option string) : AutoEmailConfig :=
  match email with
  | None =>
      {| canAutoSetup := false; provider := None;
         instructions := "No email address found for user."; config := None |}
  | Some address =>
      if String.eqb address "" then
        {| canAutoSetup := false; provider := None;
           instructions := "No email address found for user."; config := None |}
      else
        let setup := getEmailSetupInstructions address in
        match si_provider setup with
        | None =>
            {| canAutoSetup := false; provider := None;
               instructions := si_instructions setup; config := None |}
        | Some p =>
            {| canAutoSetup := negb (si_requiresAppPassword setup);
               provider := Some (name p);
               instructions := si_instructions setup;
               config := Some {| ac_host := smtp_host (smtp p);
                                 ac_port := smtp_port (smtp p);
                                 ac_secure := smtp_secure (smtp p);
                                 ac_service := toLowerCase (name p) |} |}
        end
  end.

(** The options handed to [createTransport]. *)
Record TransportOptions : Type := {
  to_config : AutoConfig;
  to_user : string;
  to_pass : string
}.

(** The [config] of a successful automatic setup: no password in it. *)
Record SavedConfig : Type := {
  sc_host : string;
  sc_port : Z;
  sc_secure : bool;
  sc_user : string
}.

Record SetupResult : Type := {
  success : bool;
  message : string;
  saved : option SavedConfig
}.

(** [attemptAutoEmailSetup(user, password)]; [verify] stands for
    [createTransport(options).verify()]. *)
Definition attemptAutoEmailSetup (verify : TransportOptions -> Outcome unit)
    (email password : option string) : SetupResult :=
  let autoConfig := getAutoEmailConfig email in
  match canAutoSetup autoConfig, config autoConfig with
  | true, Some cfg =>
      match password with
      | None | Some EmptyString =>
          {| success := false;
             message := "Password required for automatic email setup.";
             saved := None |}
      | Some pass =>
          let address := match email with Some a => a | None => EmptyString end in
          match verify {| to_config := cfg; to_user := address; to_pass := pass |} with
          | Returns _ =>
              {| success := true;
                 message := "Email configured automatically for "
                            +:+ match provider autoConfig with
                                | Some p => p
                                | None => "null"
                                end;
                 saved := Some {| sc_host := ac_host cfg; sc_port := ac_port cfg;
                                  sc_secure := ac_secure cfg; sc_user := address |} |}
          | Throws error =>
              {| success := false;
                 message := "Automatic setup failed: "
                            +:+ match error with
                                | JsError m => m
                                | NonError _ => "Unknown error"
                                end
                            +:+ ". " +:+ instructions autoConfig;
                 saved := None |}
          end
      end
  | _, _ =>
      {| success := false; message := instructions autoConfig; saved := None |}
  end.

End EmailProviders.

(* ===================================================================== *)
(** ** server/email-service.ts and server/routes.ts: the e-mail tests     *)
(* ===================================================================== *)

Module EmailTest.
Import JS Storage EmailService Routes.

Record TestResult : Type := { test_success : bool; test_message : string }.

Section Tests.

Variable pf : Platform.

(** [transporter.verify()] *)
Variable verify : Smtp -> Outcome unit.

(** [new Date().toISOString()] at the time of the call *)
Variable sentAt : string.

(** [testEmailConfiguration()] *)
Definition testEmailConfiguration : TestResult :=
  match (transporter ← createTransporter pf None; verify transporter) with
  | Returns _ =>
      {| test_success := true;
         test_message := "Email configuration is valid and SMTP server is reachable." |}
  | Throws error =>
      {| test_success := false;
         test_message := match error with
                         | JsError m => m
                         | NonError _ => "Unknown error occurred."
                         end |}
  end.

(** The [mailOptions] of [sendTestEmail]; as in [htmlBody], the style
    attributes and the layout white space of the HTML are left out. *)
Definition testMail (toEmail : string) : MailOptions :=
  let config := getEmailConfig pf None in
  {| mail_from := from_name (from config) +:+ " <"
                  +:+ from_address (from config) +:+ ">";
     mail_to := toEmail;
     mail_subject := "Posty Email Test";
     mail_text := "This is a test email from Posty to verify email configuration.";
     mail_html :=
       "<div><h2>Email Configuration Test</h2>"
       +:+ "<p>This is a test email from Posty to verify that email notifications are working correctly.</p>"
       +:+ "<p>Sent at: " +:+ sentAt +:+ "</p></div>";
     mail_attachments := [] |}.

(** [sendTestEmail(toEmail)]: no [try] around it. *)
Definition sendTestEmail (toEmail : string) : list LogEntry * Outcome unit :=
  match createTransporter pf None with
  | Throws e => ([], Throws e)
  | Returns transporter =>
      match sendMail pf transporter (testMail toEmail) with
      | Throws e => ([], Throws e)
      | Returns _ =>
          ([ConsoleLog ("Test email sent successfully to " +:+ toEmail)], Returns tt)
      end
  end.

(** The answers of the two test endpoints: a refusal of the request, or a
    status with [{ success, message }]. *)
Inductive TestAnswer : Type :=
  | Refused (r : Response)
  | Answered (status : Z) (result : TestResult).

(** [GET /api/email/test-config] *)
Definition testConfigRoute (c : Credentials) (db : Database) : TestAnswer :=
  match authenticateToken c db with
  | inl refusal => Refused refusal
  | inr _ => Answered 200 testEmailConfiguration
  end.

(** [POST /api/email/test-send] *)
Definition testSendRoute (c : Credentials) (db : Database)
  : TestAnswer * list LogEntry :=
  match authenticateToken c db with
  | inl refusal => (Refused refusal, [])
  | inr uid =>
      match getUser uid db with
      | None => (Refused {| status := 404; body := ErrorBody "User not found" |}, [])
      | Some user =>
          match sendTestEmail (strOr (email user) "") with
          | (log, Returns _) =>
              (Answered 200
                 {| test_success := true;
                    test_message := "Test email sent to "
                                    +:+ match email user with
                                        | Some a => a
                                        | None => "null"
                                        end |},
               log)
          | (log, Throws error) =>
              (Answered 500
                 {| test_success := false;
                    test_message := match error with
                                    | JsError m => m
                                    | NonError _ => "Unknown error"
                                    end |},
               log ++ [ConsoleError "Test email failed:"])
          end
      end
  end.

End Tests.

End EmailTest.

(* ===================================================================== *)
(** ** Accounts: the user methods of server/storage.ts, the e-mail helpers *)
(** ** of server/oauth-providers.ts, the register and login endpoints      *)
(* ===================================================================== *)

Module Accounts.
Import JS Storage Routes.

(** A row of [user_settings], with the columns the account code sets; the
    others take their defaults. *)
Record SettingsRow : Type := {
  settings_userId : string;
  settings_theme : string
}.

(** The tables of [Database] and [user_settings]. *)
Record AccountStore : Type := {
  store_db : Database;
  store_settings : list SettingsRow
}.

(** [UpsertUser], with the columns of [User]; [None] is an absent key. *)
Record UpsertUser : Type := {
  up_id : string;
  up_email : option string;
  up_firstName : option string;
  up_lastName : option string;
  up_provider : string;
  up_passwordHash : option string
}.

(** [getUserByEmail(email)] *)
Definition getUserByEmail (address : string) (db : Database) : option User :=
  head (List.filter
          (fun u => match email u with
                    | Some a => String.eqb a address
                    | None => false
                    end)
          (users db)).

(** [v ?? old]: a key that is present replaces the column. *)
Definition orKeep {A} (v : option A) (old : option A) : option A :=
  match v with
  | Some x => Some x
  | None => old
  end.

(** The row [upsertUser] writes: the inserted row when [existing] is
    [None], the row after [set: { ...userData }] otherwise. *)
Definition upsertedRow (userData : UpsertUser) (existing : option User) : User :=
  match existing with
  | None =>
      {| user_id := up_id userData; email := up_email userData;
         firstName := up_firstName userData; lastName := up_lastName userData;
         provider := up_provider userData;
         passwordHash := up_passwordHash userData; emailConfig := None |}
  | Some old =>
      {| user_id := user_id old;
         email := orKeep (up_email userData) (email old);
         firstName := orKeep (up_firstName userData) (firstName old);
         lastName := orKeep (up_lastName userData) (lastName old);
         provider := up_provider userData;
         passwordHash := orKeep (up_passwordHash userData) (passwordHash old);
         emailConfig := emailConfig old |}
  end.

(** Another row already holds the address: the unique constraint on
    [users.email]. *)
Definition emailTaken (row : User) (db : Database) : bool :=
  match email row with
  | None => false
  | Some a =>
      existsb (fun u => negb (String.eqb (user_id u) (user_id row))
                        && match email u with
                           | Some b => String.eqb a b
                           | None => false
                           end)
              (users db)
  end.

(** The table after the row with key [uid] has been rewritten to [row]. *)
Definition replaceRow (uid : string) (row : User) (l : list User) : list User :=
  map (fun u => if String.eqb (user_id u) uid then row else u) l.

(** [insert(users).values(userData).onConflictDoUpdate({ target: users.id,
    set: { ...userData } }).returning()] *)
Definition upsertUser (userData : UpsertUser) (db : Database)
  : Outcome (Database * User) :=
  let existing := getUser (up_id userData) db in
  let row := upsertedRow userData existing in
  if emailTaken row db then
    Throws (JsError "duplicate key value violates unique constraint users_email_unique")
  else
    match existing with
    | None =>
        Returns ({| users := users db ++ [row]; mailItems := mailItems db;
                    nextId := nextId db |}, row)
    | Some _ =>
        Returns ({| users := replaceRow (up_id userData) row (users db);
                    mailItems := mailItems db; nextId := nextId db |}, row)
    end.

Definition getUserSettings (uid : string) (st : AccountStore) : option SettingsRow :=
  head (List.filter (fun r => String.eqb (settings_userId r) uid) (store_settings st)).

(** [insert(userSettings).values(settings).returning()]: the user id is the
    primary key and references [users]. *)
Definition createUserSettings (row : SettingsRow) (st : AccountStore)
  : Outcome AccountStore :=
  match getUserSettings (settings_userId row) st with
  | Some _ =>
      Throws (JsError "duplicate key value violates unique constraint user_settings_pkey")
  | None =>
      if userExists (store_db st) (settings_userId row) then
        Returns {| store_db := store_db st;
                   store_settings := store_settings st ++ [row] |}
      else Throws (JsError "insert or update on table user_settings violates foreign key constraint")
  end.

(** The payload of the signed token; [verifyToken] gives it back. *)
Record Token : Type := {
  tok_userId : string;
  tok_email : option string;
  tok_provider : string
}.

Definition generateToken (user : User) : Token :=
  {| tok_userId := user_id user; tok_email := email user;
     tok_provider := provider user |}.

(** What [authenticateToken] decodes from the cookie that carries [t]. *)
Definition credentialsOf (t : Token) : Credentials := TokenFor (tok_userId t).

Record Registration : Type := {
  reg_email : string;
  reg_password : string;
  reg_firstName : string;
  reg_lastName : string
}.

Record AuthAnswer : Type := {
  auth_status : Z;
  auth_error : option string;
  auth_user : option User;
  auth_cookie : option Token
}.

Section Helpers.

(** [bcrypt.hash(password, 12)] and [bcrypt.compare] *)
Variable hash : string -> string.
Variable compare : string -> string -> bool.

(** The e-mail test of the validation schemas *)
Variable isEmail : string -> bool.

(** [Date.now()] and [Math.random().toString(36).substring(2)], for
    [generateUserId] *)
Variable now : Z.
Variable random : string.

(** [createEmailUser(email, password, firstName, lastName)]: the store it
    leaves behind, also when it throws half way. *)
Definition createEmailUser (address password first last : string)
    (st : AccountStore) : AccountStore * Outcome (User * Token) :=
  let passwordHash := hash password in
  let userData :=
    {| up_id := Auth.generateUserId "email" None (Some address) now random;
       up_email := Some address;
       up_firstName := Some first;
       up_lastName := Some last;
       up_provider := "email";
       up_passwordHash := Some passwordHash |} in
  match upsertUser userData (store_db st) with
  | Throws e => (st, Throws e)
  | Returns (db', user) =>
      let st' := {| store_db := db'; store_settings := store_settings st |} in
      match createUserSettings {| settings_userId := user_id user;
                                  settings_theme := "light" |} st' with
      | Throws e => (st', Throws e)
      | Returns st'' => (st'', Returns (user, generateToken user))
      end
  end.

(** [authenticateEmailUser(email, password)]; [None] is [null]. *)
Definition authenticateEmailUser (address password : string) (st : AccountStore)
  : option (User * Token) :=
  match getUserByEmail address (store_db st) with
  | None => None
  | Some user =>
      if negb (String.eqb (provider user) "email") then None
      else match passwordHash user with
           | None => None
           | Some h =>
               if String.eqb h "" then None
               else if compare password h then Some (user, generateToken user)
               else None
           end
  end.

(** [emailRegistrationSchema.parse] *)
Definition validRegistration (r : Registration) : bool :=
  isEmail (reg_email r) && Nat.leb 8 (String.length (reg_password r))
  && Nat.leb 1 (String.length (reg_firstName r))
  && Nat.leb 1 (String.length (reg_lastName r)).

(** [POST /api/auth/register] *)
Definition registerRoute (r : Registration) (st : AccountStore)
  : AccountStore * AuthAnswer :=
  if negb (validRegistration r) then
    (st, {| auth_status := 400; auth_error := Some "Invalid input data"%string;
            auth_user := None; auth_cookie := None |})
  else
    match getUserByEmail (reg_email r) (store_db st) with
    | Some _ =>
        (st, {| auth_status := 400; auth_error := Some "User already exists"%string;
                auth_user := None; auth_cookie := None |})
    | None =>
        match createEmailUser (reg_email r) (reg_password r) (reg_firstName r)
                (reg_lastName r) st with
        | (st', Throws _) =>
            (st', {| auth_status := 500;
                     auth_error := Some "Registration failed"%string;
                     auth_user := None; auth_cookie := None |})
        | (st', Returns (user, token)) =>
            (st', {| auth_status := 200; auth_error := None;
                     auth_user := Some user; auth_cookie := Some token |})
        end
    end.

(** [POST /api/auth/login] *)
Definition loginRoute (address password : string) (st : AccountStore)
  : AuthAnswer :=
  if negb (isEmail address && Nat.leb 1 (String.length password)) then
    {| auth_status := 400; auth_error := Some "Invalid input data"%string;
       auth_user := None; auth_cookie := None |}
  else
    match authenticateEmailUser address password st with
    | None =>
        {| auth_status := 401; auth_error := Some "Invalid credentials"%string;
           auth_user := None; auth_cookie := None |}
    | Some (user, token) =>
        {| auth_status := 200; auth_error := None;
           auth_user := Some user; auth_cookie := Some token |}
    end.

End Helpers.

(** An account registered as [a.b@x.com]. *)
Definition annBee : User :=
  {| user_id := "email_a_b_x.com"; email := Some "a.b@x.com"%string;
     firstName := Some "Ann"%string; lastName := Some "Bee"%string;
     provider := "email"; passwordHash := Some "hash:first-password"%string;
     emailConfig := None |}.

(** A store with that account and one letter. *)
Definition oneAccount : AccountStore :=
  {| store_db :=
       {| users := [annBee];
          mailItems := [{| id := 1; userId := "email_a_b_x.com";
                           title := "Bank statement"; summary := "Balance";
                           category := "bill"; reminderDate := None;
                           imageUrl := "/uploads/file-1.png";
                           fileName := "statement.png"; extractedText := None;
                           uploadDate := 1705752000000 |}];
          nextId := 2 |};
     store_settings := [{| settings_userId := "email_a_b_x.com";
                           settings_theme := "light" |}] |}.

Definition newcomer : Registration :=
  {| reg_email := "a@b.x.com"; reg_password := "second-password";
     reg_firstName := "Al"; reg_lastName := "Bx" |}.

(** Stand-ins for the password hash in the concrete situations. *)
Definition markedHash (password : string) : string := "hash:" +:+ password.

Definition markedCompare (password h : string) : bool :=
  String.eqb h (markedHash password).

Definition anyAddress (address : string) : bool := true.

(** A registration whose address and id are both free in [oneAccount]. *)
Definition carol : Registration :=
  {| reg_email := "carol@example.org"; reg_password := "third-password";
     reg_firstName := "Carol"; reg_lastName := "Dee" |}.

End Accounts.

(* ===================================================================== *)
(** ** decode.js: the Caesar decoder                                      *)
(* ===================================================================== *)

Module Decode.
Import JS.

Local Open Scope Z_scope.

(** [char.charCodeAt(0)] *)
Definition charCode (c : ascii) : Z := Z.of_nat (nat_of_ascii c).

(** [String.fromCharCode(n)]; the codes that arise below lie between 40
    and 122. *)
Definition fromCharCode (n : Z) : ascii := ascii_of_nat (Z.to_nat n).

(** The double nearest to the integer [x], a tie going to the even
    significand: what the addition of two numbers returns for the exact
    sum [x].  An integer below 2^53 in magnitude is a double; above, the
    53 leading bits are kept. *)
Definition roundToDouble (x : Z) : Z :=
  let a := Z.abs x in
  if a <? 2 ^ 53 then x
  else
    let e := Z.log2 a - 52 in
    let q := a / 2 ^ e in
    let r := a mod 2 ^ e in
    let half := 2 ^ (e - 1) in
    let q' := if (half <? r) || ((r =? half) && Z.odd q) then q + 1 else q in
    Z.sgn x * (q' * 2 ^ e).

(** The function mapped over the characters, for a [shift] that is an
    integer number: the sum with the shift is rounded as the addition of
    numbers rounds it, [%] is the remainder with the sign of the dividend
    and is exact, as is the last sum. *)
Definition decodeChar (shift : Z) (c : ascii) : ascii :=
  if (charCode "a" <=? charCode c) && (charCode c <=? charCode "z") then
    fromCharCode (Z.rem (roundToDouble (charCode c - charCode "a" + shift)) 26
                  + charCode "a")
  else if (charCode "A" <=? charCode c) && (charCode c <=? charCode "Z") then
    fromCharCode (Z.rem (roundToDouble (charCode c - charCode "A" + shift)) 26
                  + charCode "A")
  else c.

(** [caesarDecode(text, shift)] *)
Fixpoint caesarDecode (text : string) (shift : Z) : string :=
  match text with
  | EmptyString => EmptyString
  | String c rest => String (decodeChar shift c) (caesarDecode rest shift)
  end.

End Decode.

(* ===================================================================== *)
(** ** client/src/lib/calendar.ts: the reminder event                     *)
(* ===================================================================== *)

Module Calendar.
Import JS Storage.

Local Open Scope Z_scope.

(** [MakeTime(hour, min, sec, ms)] *)
Definition MakeTime (hour min sec ms : Z) : Z :=
  hour * 3600000 + min * 60000 + sec * 1000 + ms.

(** [d.setHours(hour, min, sec, ms)]: the new time value, in the local
    zone [zone]. *)
Definition setHours (zone : JSDate.TimeZone) (t hour min sec ms : Z) : Z :=
  JSDate.UTC zone
    (JSDate.MakeDate (JSDate.Day (JSDate.LocalTime zone t)) (MakeTime hour min sec ms)).

(** A [Date] is a time value or, as [None], an invalid date. *)
Record CalendarEvent : Type := {
  ev_title : string;
  ev_description : string;
  startDate : option Z;
  endDate : option Z
}.

Section Event.

(** [new Date(text)]: the time value of a date string, [None] when the
    string is not a date. *)
Variable parseDate : string -> option Z.
Variable toLocaleDateString : Z -> string.
Variable zone : JSDate.TimeZone.
Variable now : Z.

(** The document emoji and a space, in UTF-8. *)
Definition titleMark : string :=
  String (ascii_of_nat 240) (String (ascii_of_nat 159) (String (ascii_of_nat 147)
    (String (ascii_of_nat 132) " "))).

(** [createCalendarEvent(item)] *)
Definition createCalendarEvent (item : MailItem) : CalendarEvent :=
  let reminder :=
    match reminderDate item with
    | Some text => if String.eqb text "" then Some now else parseDate text
    | None => Some now
    end in
  let start := option_map (fun t => setHours zone t 9 0 0 0) reminder in
  let finish := option_map (fun t => setHours zone t 10 0 0 0) start in
  {| ev_title := titleMark +:+ title item;
     ev_description := summary item +:+ nl +:+ nl +:+ "Document Category: "
                       +:+ category item +:+ nl +:+ "Uploaded: "
                       +:+ toLocaleDateString (uploadDate item);
     startDate := start;
     endDate := finish |}.

End Event.

End Calendar.

(* ===================================================================== *)
(** ** Conditions on the local time zone                                  *)
(* ===================================================================== *)

Module ZoneConditions.

Local Open Scope Z_scope.

(** The zone reads the local time of [now], fourteen days on, with the
    offset that is in force at [now]: no change of offset lies between
    them. *)
Definition sameOffsetIn14Days (zone : JSDate.TimeZone) (now : Z) : Prop :=
  JSDate.offsetOfLocal zone (JSDate.LocalTime zone now + 14 * JSDate.msPerDay)
  = JSDate.offsetAt zone now.

(** The local time [lt] is one the zone's clocks show: converted to an
    instant and back, it is [lt] again. *)
Definition readsBack (zone : JSDate.TimeZone) (lt : Z) : Prop :=
  JSDate.LocalTime zone (JSDate.UTC zone lt) = lt.

End ZoneConditions.

(* ===================================================================== *)
(** ** Conditions under which the storage facts are stated                *)
(* ===================================================================== *)

Module StorageConditions.
Import JS Storage.

(** What the [serial] primary key of [mail_items] guarantees: the keys in
    the table are pairwise distinct and below the next value of the
    sequence. *)
Definition keysFresh (db : Database) : Prop :=
  NoDup (map id (mailItems db))
  /\ Forall (fun m => (id m < nextId db)%Z) (mailItems db).

(** The order of [orderBy(desc(mailItems.uploadDate))]. *)
Definition notOlder (a b : MailItem) : Prop := (uploadDate b <= uploadDate a)%Z.

(** A character with a meaning of its own in a [LIKE] pattern. *)
Definition isWildcard (c : ascii) : bool :=
  Ascii.eqb c "%" || Ascii.eqb c "_" || Ascii.eqb c "\".

(** A query without such characters. *)
Definition literalQuery (q : string) : bool :=
  all_chars (fun c => negb (isWildcard c)) q.

End StorageConditions.

(* ===================================================================== *)
(** ** Conditions on addresses                                            *)
(* ===================================================================== *)

Module AddressConditions.
Import JS.

(** A string without the character [@]. *)
Definition noAt (s : string) : bool :=
  all_chars (fun c => negb (Ascii.eqb c "@")) s.

End AddressConditions.

(* ===================================================================== *)
(** ** Further concrete situations                                        *)
(* ===================================================================== *)

Module MoreScenarios.
Import JS AIService Storage Scenarios.

Definition aliceInsert : InsertMailItem :=
  {| ins_userId := "email_alice_example.org"; ins_title := "Dentist";
     ins_summary := "Check-up on Monday"; ins_category := "appointment";
     ins_reminderDate := Some "2024-02-05"%string;
     ins_imageUrl := "/uploads/file-2.png"; ins_fileName := "dentist.png";
     ins_extractedText := Some "Dear Alice"%string |}.

(** The row that [createMailItem aliceInsert] adds to [twoUsers] on
    2024-01-21 at noon, and the database after it. *)
Definition dentistLetter : MailItem :=
  {| id := 2; userId := "email_alice_example.org"; title := "Dentist";
     summary := "Check-up on Monday"; category := "appointment";
     reminderDate := Some "2024-02-05"%string;
     imageUrl := "/uploads/file-2.png"; fileName := "dentist.png";
     extractedText := Some "Dear Alice"%string;
     uploadDate := 1705838400000 |}.

Definition afterDentist : Database :=
  {| users := [alice; bob]; mailItems := [aliceLetter; dentistLetter];
     nextId := 3 |}.


Definition councilUpload : Routes.UploadedFile :=
  {| Routes.file_path := "uploads/file-9.pdf";
     Routes.file_filename := "file-9.pdf";
     Routes.file_originalname := "council_tax_bill_2024.pdf" |}.

(** The answer to Alice's upload of [councilUpload] on 2024-01-21 at noon,
    while no file can be read and no mail gets through. *)
Definition councilUploadAnswer
  : Database * Routes.Response * list EmailService.LogEntry :=
  Routes.uploadMailItem missingFile Scenarios.noAttachment utc 1705838400000
    (Routes.TokenFor "email_alice_example.org") (Some councilUpload) twoUsers.

(** [noAttachment] with the file in place and a transport that accepts the
    mail. *)
Definition workingMail : EmailService.Platform :=
  {| EmailService.env := EmailService.env noAttachment;
     EmailService.cwd := "/srv/posty";
     EmailService.pathJoin := fun a b => a +:+ "/" +:+ b;
     EmailService.existsSync := fun _ => true;
     EmailService.parsePort := fun _ => Some 587%Z;
     EmailService.toLocaleDateString := fun _ => "1/20/2024"%string;
     EmailService.createTransport := fun _ => Returns tt;
     EmailService.sendMail := fun _ _ => Returns (Some "<1@posty>"%string) |}.

(** [quotaOnOcr] on a disk that cannot be read. *)
Definition quotaOnOcrNoDisk : Externals :=
  {| convertPDF := convertPDF quotaOnOcr;
     readFileSync := fun _ => Throws (JsError "EACCES: permission denied");
     chat := chat quotaOnOcr;
     JSON_parse := JSON_parse quotaOnOcr |}.

(** A state map holding two states: one issued eleven minutes before noon
    on 2024-01-20, one issued one minute before noon. *)
Definition twoStates : gmap string Auth.StateInfo :=
  {[ "m4x81lrl8a2rs"%string := {| Auth.timestamp := 1705751340000 |};
     "c7d01lrl8n1og"%string := {| Auth.timestamp := 1705751940000 |} ]}.

(** A letter with a reminder on the day summer time begins in London, and
    stand-ins for [new Date(text)] and [toLocaleDateString] on it. *)
Definition summerTimeLetter : MailItem :=
  {| id := 3; userId := "email_alice_example.org"; title := "Car tax";
     summary := "Renewal"; category := "bill";
     reminderDate := Some "2024-03-31"%string;
     imageUrl := "/uploads/file-3.png"; fileName := "car_tax.png";
     extractedText := None; uploadDate := 1705838400000 |}.

Definition parseLastOfMarch (text : string) : option Z := Some 1711843200000%Z.

Definition showLastOfMarch (t : Z) : string := "3/31/2024".

(** A state map holding one state, issued at noon on 2024-01-20. *)
Definition oneState : gmap string Auth.StateInfo :=
  {[ "q9z1lrl8o2o0"%string := {| Auth.timestamp := 1705752000000 |} ]}.

Definition aliceLetterData : EmailService.LetterData :=
  {| EmailService.letter_id := 1; EmailService.letter_title := "Council tax";
     EmailService.letter_fileName := "council.pdf";
     EmailService.letter_imageUrl := "/uploads/file-1.pdf";
     EmailService.letter_uploadDate := 1705752000000;
     EmailService.letter_summary := Some "Demand for payment"%string;
     EmailService.letter_extractedText := None |}.

End MoreScenarios.

(* ===================================================================== *)
(** * Theorems                                                            *)
(* ===================================================================== *)

(** ** The calendar arithmetic *)

Module JSDateFacts.
Import JSDate.
Local Open Scope Z_scope.

Example isoDate_epoch : isoDate 0 = "1970-01-01"%string.
Proof. reflexivity. Qed.

Example isoDate_leap_day : isoDate 1709251199999 = "2024-02-29"%string.
Proof. reflexivity. Qed.

Example isoDate_after_leap_day : isoDate 1709251200000 = "2024-03-01"%string.
Proof. reflexivity. Qed.

Example isoDate_before_epoch : isoDate (-1) = "1969-12-31"%string.
Proof. reflexivity. Qed.

Example isoDate_no_leap_2100 : isoDate 4107542400000 = "2100-03-01"%string.
Proof. reflexivity. Qed.

Example isoDate_year_2400 : isoDate 13569465600000 = "2400-01-01"%string.
Proof. reflexivity. Qed.

Lemma dayFromYear_bounds (n : Z) :
  0 <= n -> 365 * n <= DayFromYear (1970 + n) <= 366 * n.
Proof. intros Hn. unfold DayFromYear. Z.div_mod_to_equations. lia. Qed.

Lemma dayFromYear_cycle (y c : Z) :
  DayFromYear (y + 400 * c) = DayFromYear y + 146097 * c.
Proof. unfold DayFromYear. Z.div_mod_to_equations. lia. Qed.

Lemma daysInYear_range (y : Z) : 365 <= DaysInYear y <= 366.
Proof. unfold DaysInYear, DayFromYear. Z.div_mod_to_equations. lia. Qed.

(** [yearOfDay] computes what the standard defines: the largest year that
    has begun by day [d]. *)
Lemma yearOfDay_spec (d : Z) :
  DayFromYear (yearOfDay d) <= d < DayFromYear (yearOfDay d + 1).
Proof.
  unfold yearOfDay.
  pose proof (Z.div_mod d 146097 ltac:(lia)) as Hd.
  pose proof (Z.mod_pos_bound d 146097 ltac:(lia)) as Hr.
  set (c := d / 146097) in *. set (r := d mod 146097) in *.
  pose proof (Z.div_mod r 366 ltac:(lia)) as Hk.
  pose proof (Z.mod_pos_bound r 366 ltac:(lia)) as Hj.
  set (k := r / 366) in *. set (j := r mod 366) in *.
  pose proof (dayFromYear_bounds k ltac:(lia)) as B0.
  pose proof (dayFromYear_bounds (k + 1) ltac:(lia)) as B1.
  pose proof (dayFromYear_bounds (k + 2) ltac:(lia)) as B2.
  pose proof (dayFromYear_bounds (k + 3) ltac:(lia)) as B3.
  pose proof (dayFromYear_bounds (k + 4) ltac:(lia)) as B4.
  replace (1970 + (k + 1)) with (1970 + k + 1) in B1 by lia.
  replace (1970 + (k + 2)) with (1970 + k + 1 + 1) in B2 by lia.
  replace (1970 + (k + 3)) with (1970 + k + 1 + 1 + 1) in B3 by lia.
  replace (1970 + (k + 4)) with (1970 + k + 1 + 1 + 1 + 1) in B4 by lia.
  replace (bumpYear r (bumpYear r (bumpYear r (1970 + k))) + 400 * c + 1)
    with (bumpYear r (bumpYear r (bumpYear r (1970 + k))) + 1 + 400 * c) by lia.
  rewrite !dayFromYear_cycle.
  unfold bumpYear.
  repeat match goal with
         | |- context [Z.leb ?a ?b] => destruct (Z.leb_spec a b)
         end; lia.
Qed.

Lemma dayWithinYear_range (t : Z) :
  0 <= DayWithinYear t < DaysInYear (YearFromTime t).
Proof.
  unfold DayWithinYear, DaysInYear, YearFromTime.
  pose proof (yearOfDay_spec (Day t)). lia.
Qed.

Lemma monthFromTime_range (t : Z) : 0 <= MonthFromTime t <= 11.
Proof.
  unfold MonthFromTime, monthOfDayInYear.
  repeat match goal with
         | |- context [Z.ltb ?a ?b] => destruct (Z.ltb_spec a b)
         end; lia.
Qed.

Lemma dateFromTime_range (t : Z) : 1 <= DateFromTime t <= 31.
Proof.
  pose proof (dayWithinYear_range t) as Hd.
  pose proof (daysInYear_range (YearFromTime t)) as Hy.
  unfold DateFromTime, MonthFromTime, monthOfDayInYear, InLeapYear.
  set (leap := DaysInYear (YearFromTime t) - 365) in *.
  repeat match goal with
         | |- context [Z.ltb ?a ?b] => destruct (Z.ltb_spec a b)
         end; cbn [monthStart]; lia.
Qed.

(** Rebuilding the day from its calendar date, [k] days on. *)
Lemma makeDay_of_time (t k : Z) :
  MakeDay (YearFromTime t) (MonthFromTime t) (DateFromTime t + k) = Day t + k.
Proof. unfold MakeDay, DateFromTime, DayWithinYear, InLeapYear. lia. Qed.

(** [d.setDate(d.getDate() + k)] moves the local time of [d] by exactly
    [k] days; the new instant is the one the zone gives that local time. *)
Lemma setDate_getDate_plus (zone : TimeZone) (t k : Z) :
  setDate zone t (getDate zone t + k) = UTC zone (LocalTime zone t + k * msPerDay).
Proof.
  unfold setDate, getDate. rewrite makeDay_of_time. f_equal.
  unfold MakeDate, Day, TimeWithinDay.
  pose proof (Z.div_mod (LocalTime zone t) msPerDay). unfold msPerDay in *. lia.
Qed.

(** When the zone reads that local time with the offset in force at [d],
    the instant moves by exactly [k] days as well. *)
Lemma setDate_getDate_steady (zone : TimeZone) (t k : Z) :
  offsetOfLocal zone (LocalTime zone t + k * msPerDay) = offsetAt zone t ->
  setDate zone t (getDate zone t + k) = t + k * msPerDay.
Proof.
  intros H. rewrite setDate_getDate_plus. unfold UTC. rewrite H.
  unfold LocalTime. lia.
Qed.

Lemma setDate_getDate_fixed (tza t k : Z) :
  setDate (fixedOffset tza) t (getDate (fixedOffset tza) t + k) = t + k * msPerDay.
Proof. apply setDate_getDate_steady. reflexivity. Qed.

Lemma isoDate_nonempty (t : Z) : isoDate t <> ""%string.
Proof.
  unfold isoDate, isoYear.
  destruct (_ && _); [| destruct (_ <? _)]; discriminate.
Qed.

Lemma day_plus_days (t k : Z) : Day (t + k * msPerDay) = Day t + k.
Proof. unfold Day. apply Z.div_add. unfold msPerDay. lia. Qed.

End JSDateFacts.

(** ** The fallback classifier *)

Module FallbackFacts.
Import JS AIService FallbackSpec.

Ltac split_includes :=
  repeat match goal with
         | |- context [includes ?l ?k] =>
             destruct (includes l k); cbn [orb]; try reflexivity
         end.

(** The chain of tests picks the category of the first matching group of
    the table, and [personal] when none matches. *)
Lemma classify_category (zone : JSDate.TimeZone) (now : Z) (fileName : string) :
  (classifyFileName zone now fileName).1.1.1
  = default "personal"%string (firstMatch (toLowerCase fileName) keywordTable).
Proof.
  unfold classifyFileName, keywordTable, firstMatch, groupMatches, existsb.
  generalize (toLowerCase fileName) as l. intros l.
  split_includes.
Qed.

Lemma fallback_category (zone : JSDate.TimeZone) (now : Z) (fileName : string) (error : Thrown) :
  category (generateEnhancedFallback zone now fileName error)
  = default "personal"%string (firstMatch (toLowerCase fileName) keywordTable).
Proof.
  rewrite <- (classify_category zone now).
  unfold generateEnhancedFallback.
  destruct (classifyFileName zone now fileName) as [[[c t] s] r]. reflexivity.
Qed.

Lemma firstMatch_first (lower : string) (before after : list (list string * Category))
    (keywords : list string) (cat : Category) :
  groupMatches lower keywords = true ->
  (forall g, In g before -> groupMatches lower g.1 = false) ->
  firstMatch lower (before ++ (keywords, cat) :: after) = Some cat.
Proof.
  intros Hm. induction before as [| [kws c] before IH]; intros Hnone; simpl.
  - rewrite Hm. reflexivity.
  - pose proof (Hnone (kws, c) (or_introl eq_refl)) as Hk. simpl in Hk.
    rewrite Hk. apply IH. intros g Hg. apply Hnone. right. exact Hg.
Qed.

Lemma firstMatch_in_table (lower : string) (table : list (list string * Category))
    (cat : Category) :
  firstMatch lower table = Some cat -> In cat (map snd table).
Proof.
  induction table as [| [kws c] table IH]; simpl; [discriminate |].
  destruct (groupMatches lower kws).
  - intros [= ->]. left. reflexivity.
  - intros H. right. exact (IH H).
Qed.

(** The reminder is the UTC date of the instant at which the local clock
    shows the time of the call, fourteen days on. *)
Lemma reminderIn14Days_eq (zone : JSDate.TimeZone) (now : Z) :
  reminderIn14Days zone now
  = JSDate.isoDate (JSDate.UTC zone (JSDate.LocalTime zone now + 14 * JSDate.msPerDay)).
Proof.
  unfold reminderIn14Days. rewrite JSDateFacts.setDate_getDate_plus. reflexivity.
Qed.

(** In a zone whose offset does not change in between, that is the date
    of the instant fourteen days after the call. *)
Lemma reminderIn14Days_steady (zone : JSDate.TimeZone) (now : Z) :
  ZoneConditions.sameOffsetIn14Days zone now ->
  reminderIn14Days zone now = JSDate.isoDate (now + 14 * JSDate.msPerDay).
Proof.
  intros H. unfold reminderIn14Days.
  rewrite (JSDateFacts.setDate_getDate_steady zone now 14 H). reflexivity.
Qed.

Lemma reminderIn14Days_nonempty (zone : JSDate.TimeZone) (now : Z) :
  reminderIn14Days zone now <> ""%string.
Proof. apply JSDateFacts.isoDate_nonempty. Qed.

Lemma fallback_bill_group (zone : JSDate.TimeZone) (now : Z) (fileName : string) (error : Thrown) :
  groupMatches (toLowerCase fileName) ["council"; "tax"; "bill"; "invoice"]%string = true ->
  let r := generateEnhancedFallback zone now fileName error in
  category r = "bill"%string
  /\ title r = JStr ("Bill/Tax Document - " +:+ stripExtension fileName)
  /\ reminderDate r = JStr (reminderIn14Days zone now).
Proof.
  unfold groupMatches, existsb. intros H.
  unfold generateEnhancedFallback, classifyFileName.
  generalize dependent (toLowerCase fileName). intros l H.
  assert (Hc : includes l "council" || includes l "tax" || includes l "bill"
               || includes l "invoice" = true).
  { rewrite orb_false_r, !orb_assoc in H. exact H. }
  rewrite Hc. cbv beta iota zeta. repeat split.
Qed.

(** The result is the same record whatever the error and the time, up to
    the note at the end of the summary and the reminder date. *)
Lemma fallback_shape (zone : JSDate.TimeZone) (now : Z) (fileName : string) (error : Thrown) :
  let r := generateEnhancedFallback zone now fileName error in
  let c := classifyFileName zone now fileName in
  title r = JStr c.1.1.2
  /\ summary r = JStr (c.1.2 +:+ (if isQuotaError error then quotaNote else failureNote))
  /\ category r = c.1.1.1
  /\ categories r = [c.1.1.1]
  /\ customCategories r = []
  /\ reminderDate r = c.2
  /\ extractedText r = fallbackText fileName c.1.1.1.
Proof.
  unfold generateEnhancedFallback.
  destruct (classifyFileName zone now fileName) as [[[c t] s] d].
  destruct (isQuotaError error); repeat split.
Qed.

(** Only the reminder of the bill branch looks at the clock and the zone,
    and only through the date it computes. *)
Lemma classify_time_independent (zone1 zone2 : JSDate.TimeZone) (now1 now2 : Z)
    (fileName : string) :
  reminderIn14Days zone1 now1 = reminderIn14Days zone2 now2 ->
  classifyFileName zone1 now1 fileName = classifyFileName zone2 now2 fileName.
Proof.
  intros H. unfold classifyFileName. rewrite H. reflexivity.
Qed.

Lemma classify_text_fields (zone1 zone2 : JSDate.TimeZone) (now1 now2 : Z)
    (fileName : string) :
  (classifyFileName zone1 now1 fileName).1
  = (classifyFileName zone2 now2 fileName).1.
Proof.
  unfold classifyFileName.
  generalize (toLowerCase fileName) as l. intros l.
  split_includes.
Qed.

Lemma classify_wellFormed (zone : JSDate.TimeZone) (now : Z) (fileName : string) :
  let c := classifyFileName zone now fileName in
  existsb (String.eqb c.1.1.1) validCategories = true
  /\ (c.2 = JUndefined \/ c.2 = JStr (reminderIn14Days zone now)).
Proof.
  unfold classifyFileName.
  generalize (toLowerCase fileName) as l. intros l.
  repeat match goal with
         | |- context [includes l ?k] =>
             destruct (includes l k); cbn [orb]; try (split; [reflexivity | tauto])
         end.
Qed.

Lemma fallback_wellFormed (zone : JSDate.TimeZone) (now : Z) (fileName : string) (error : Thrown) :
  wellFormed (generateEnhancedFallback zone now fileName error) = true.
Proof.
  pose proof (fallback_shape zone now fileName error) as S. cbv zeta in S.
  destruct S as (Ht & Hs & Hc & Hcs & Hcc & Hr & _).
  pose proof (classify_wellFormed zone now fileName) as W. cbv zeta in W.
  destruct W as [Wc Wr].
  unfold wellFormed. rewrite Ht, Hs, Hc, Hcs, Hcc, Hr, Wc.
  rewrite !bool_decide_eq_true_2 by reflexivity.
  destruct Wr as [-> | ->]; reflexivity.
Qed.

End FallbackFacts.

Section FallbackClaims.
Import JS AIService FallbackSpec FallbackFacts ZoneConditions Scenarios.

(** C3, as stated, fails: in London a bill that arrives on 20 March 2024
    at 00:30 gets the reminder 2024-04-02, thirteen days on: summer time
    begins in between, the local clock shows 00:30 on 3 April one hour
    before the instant fourteen days after the call, and the date is taken
    in UTC. *)
Lemma C3_counterexample :
  includes (toLowerCase "water_bill.pdf") "bill" = true
  /\ JSDate.isoDate 1710894600000 = "2024-03-20"%string
  /\ JSDate.isoDate (1710894600000 + 14 * JSDate.msPerDay) = "2024-04-03"%string
  /\ reminderDate (generateEnhancedFallback london2024 1710894600000
                     "water_bill.pdf" (JsError "connect ECONNREFUSED"))
     = JStr "2024-04-02"
  /\ reminderDate (generateEnhancedFallback london2024 1710894600000
                     "water_bill.pdf" (JsError "connect ECONNREFUSED"))
     <> JStr (JSDate.isoDate (1710894600000 + 14 * JSDate.msPerDay)).
Proof.
  split; [reflexivity |]. split; [vm_compute; reflexivity |].
  split; [vm_compute; reflexivity |]. split; [vm_compute; reflexivity |].
  vm_compute. discriminate.
Qed.

(** C3, amended. A file name whose lower-case form contains "bill",
    "invoice", "council" or "tax" is classified [bill]; the title is
    "Bill/Tax Document" followed by the name without its extension; the
    reminder is a date, never null; and it is the date of the instant
    exactly fourteen days after the call whenever the local zone reads the
    local time fourteen days on with the offset in force at the call, as
    every zone at a fixed offset from UTC does. *)
Theorem C3_bill_keywords_give_bill_with_reminder
    (zone : JSDate.TimeZone) (now : Z) (fileName : string) (error : Thrown) :
  includes (toLowerCase fileName) "bill" = true
  \/ includes (toLowerCase fileName) "invoice" = true
  \/ includes (toLowerCase fileName) "council" = true
  \/ includes (toLowerCase fileName) "tax" = true ->
  let r := generateEnhancedFallback zone now fileName error in
  category r = "bill"%string
  /\ title r = JStr ("Bill/Tax Document - " +:+ stripExtension fileName)
  /\ startsWith ("Bill/Tax Document - " +:+ stripExtension fileName)
                "Bill/Tax Document" = true
  /\ (exists date, reminderDate r = JStr date /\ date <> ""%string)
  /\ (sameOffsetIn14Days zone now ->
      reminderDate r = JStr (JSDate.isoDate (now + 14 * JSDate.msPerDay)))
  /\ (forall tza, sameOffsetIn14Days (JSDate.fixedOffset tza) now)
  /\ JSDate.Day (now + 14 * JSDate.msPerDay) = (JSDate.Day now + 14)%Z.
Proof.
  intros H.
  assert (G : groupMatches (toLowerCase fileName)
                ["council"; "tax"; "bill"; "invoice"]%string = true).
  { unfold groupMatches, existsb.
    destruct H as [H | [H | [H | H]]]; rewrite H; rewrite ?orb_true_r; reflexivity. }
  destruct (fallback_bill_group zone now fileName error G) as (Hc & Ht & Hr).
  cbv zeta. split; [exact Hc |]. split; [exact Ht |]. split; [reflexivity |].
  split.
  { exists (reminderIn14Days zone now).
    split; [exact Hr | apply reminderIn14Days_nonempty]. }
  split.
  { intros S. rewrite Hr, (reminderIn14Days_steady zone now S). reflexivity. }
  split; [intros tza; reflexivity |].
  apply JSDateFacts.day_plus_days.
Qed.

Lemma C3_witness :
  includes (toLowerCase "council_tax_bill_2024.pdf") "bill" = true
  /\ sameOffsetIn14Days london2024 1705752000000
  /\ reminderDate (generateEnhancedFallback london2024 1705752000000
                     "council_tax_bill_2024.pdf" (JsError "connect ECONNREFUSED"))
     = JStr "2024-02-03".
Proof.
  split; [reflexivity |]. split; [reflexivity |].
  exact (proj1 (proj2 (proj2 (proj2 (proj2
    (C3_bill_keywords_give_bill_with_reminder london2024 1705752000000
       "council_tax_bill_2024.pdf" (JsError "connect ECONNREFUSED")
       (or_introl eq_refl))))))
    eq_refl).
Defined.

(** C4. A file name whose lower-case form contains none of the recognised
    keywords is classified [personal], with the generic title and summary
    and no reminder date. *)
Theorem C4_no_keyword_gives_personal_without_reminder
    (zone : JSDate.TimeZone) (now : Z) (fileName : string) (error : Thrown) :
  (forall k, In k recognizedKeywords ->
             includes (toLowerCase fileName) k = false) ->
  let r := generateEnhancedFallback zone now fileName error in
  category r = "personal"%string
  /\ title r = JStr ("Document - " +:+ stripExtension fileName)
  /\ summary r
     = JStr ("Document uploaded and categorized based on filename. AI analysis will provide detailed content extraction once service is available."
             +:+ (if isQuotaError error then quotaNote else failureNote))
  /\ reminderDate r = JUndefined.
Proof.
  intros H. unfold generateEnhancedFallback, classifyFileName.
  generalize dependent (toLowerCase fileName). intros l H.
  repeat match goal with
         | |- context [includes l ?k] => rewrite (H k) by (cbv; tauto)
         end.
  cbv beta iota zeta. cbn [orb].
  destruct (isQuotaError error); repeat split.
Qed.

Lemma C4_witness :
  (forall k, In k recognizedKeywords ->
             includes (toLowerCase "random_xyz.png") k = false)
  /\ category (generateEnhancedFallback utc 1705752000000 "random_xyz.png"
                 (JsError "connect ECONNREFUSED")) = "personal"%string
  /\ reminderDate (generateEnhancedFallback utc 1705752000000 "random_xyz.png"
                     (JsError "connect ECONNREFUSED")) = JUndefined.
Proof.
  assert (H : forall k, In k recognizedKeywords ->
                        includes (toLowerCase "random_xyz.png") k = false).
  { intros k Hk. cbv in Hk.
    repeat (destruct Hk as [<- | Hk]; [reflexivity |]). destruct Hk. }
  split; [exact H |].
  pose proof (C4_no_keyword_gives_personal_without_reminder utc 1705752000000
                "random_xyz.png" (JsError "connect ECONNREFUSED") H) as T.
  cbv zeta in T. destruct T as (Hc & _ & _ & Hr). split; assumption.
Defined.

(** C5, as stated, fails: with the file name and the time fixed, the result
    still depends on the error that is passed in. *)
Lemma C5_counterexample : ~ dependsOnNameAndTimeOnly.
Proof.
  intros H.
  specialize (H utc 0%Z "a.png"%string (JsError "quota") (JsError "timeout")).
  discriminate H.
Qed.

(** C5, amended. The fallback classifier is a total function of the file
    name, of the current time (in the zone of the process) and of whether
    the error is a quota error: every result is well formed; two calls with
    the same file name, the same current time and the same kind of error
    return the same record; the title, the category and the extracted text
    do not depend on the error or the time at all, and two calls with the
    same kind of error and the same reminder return the same record; the
    extracted text is the fixed template around the file name and the
    category. *)
Theorem C5_fallback_total_and_deterministic
    (zone : JSDate.TimeZone) (now : Z) (fileName : string) (e1 e2 : Thrown) :
  let r1 := generateEnhancedFallback zone now fileName e1 in
  let r2 := generateEnhancedFallback zone now fileName e2 in
  wellFormed r1 = true
  /\ (isQuotaError e1 = isQuotaError e2 -> r1 = r2)
  /\ (forall (zone' : JSDate.TimeZone) (now' : Z),
        let r' := generateEnhancedFallback zone' now' fileName e2 in
        title r1 = title r'
        /\ category r1 = category r'
        /\ categories r1 = categories r'
        /\ extractedText r1 = extractedText r'
        /\ (isQuotaError e1 = isQuotaError e2 ->
            reminderDate r1 = reminderDate r' -> r1 = r'))
  /\ extractedText r1 = fallbackText fileName (category r1).
Proof.
  cbv zeta. split; [apply fallback_wellFormed |].
  split.
  { intros He. unfold generateEnhancedFallback. rewrite He. reflexivity. }
  split.
  - intros zone' now'.
    pose proof (fallback_shape zone now fileName e1) as S1.
    pose proof (fallback_shape zone' now' fileName e2) as S2.
    cbv zeta in S1, S2.
    destruct S1 as (Ht1 & Hs1 & Hc1 & Hcs1 & Hcc1 & Hr1 & Hx1).
    destruct S2 as (Ht2 & Hs2 & Hc2 & Hcs2 & Hcc2 & Hr2 & Hx2).
    pose proof (classify_text_fields zone zone' now now' fileName) as E.
    rewrite Ht1, Ht2, Hc1, Hc2, Hcs1, Hcs2, Hx1, Hx2, E.
    repeat split.
    intros He Hd. rewrite Hr1, Hr2 in Hd. unfold generateEnhancedFallback.
    destruct (classifyFileName zone now fileName) as [[[c1 t1] s1] d1].
    destruct (classifyFileName zone' now' fileName) as [[[c2 t2] s2] d2].
    cbn in E, Hd. injection E as -> -> ->. subst d2. rewrite He. reflexivity.
  - pose proof (fallback_shape zone now fileName e1) as S1. cbv zeta in S1.
    destruct S1 as (_ & _ & Hc1 & _ & _ & _ & Hx1). rewrite Hx1, Hc1. reflexivity.
Qed.

Lemma C5_witness :
  isQuotaError (JsError "socket hang up") = isQuotaError (NonError JNull)
  /\ generateEnhancedFallback london2024 1710894600000 "gas_bill.jpg"
       (JsError "socket hang up")
     = generateEnhancedFallback london2024 1710894600000 "gas_bill.jpg"
         (NonError JNull).
Proof.
  split; [reflexivity |].
  exact (proj1 (proj2
    (C5_fallback_total_and_deterministic london2024 1710894600000
       "gas_bill.jpg" (JsError "socket hang up") (NonError JNull)))
    eq_refl).
Defined.

(** C6, as stated, fails: "doctor_invoice.pdf" contains "doctor", which the
    list maps to [appointment], and is classified [bill]; and the reminder
    of the first group is not always fourteen days out: in London a bill of
    20 March 2024, 00:30, gets 2024-04-02, thirteen days on. *)
Lemma C6_counterexample :
  ~ everyKeywordDecides
  /\ (JSDate.isoDate (1710894600000 + 14 * JSDate.msPerDay) = "2024-04-03"%string
      /\ reminderDate (generateEnhancedFallback london2024 1710894600000
                         "water_bill.pdf" (JsError "connect ECONNREFUSED"))
         = JStr "2024-04-02").
Proof.
  split.
  - intros H.
    specialize (H utc 0%Z "doctor_invoice.pdf"%string (JsError "")
                  ["appointment"; "doctor"; "medical"; "clinic"]%string
                  "appointment"%string "doctor"%string).
    assert (E : category (generateEnhancedFallback utc 0 "doctor_invoice.pdf"
                            (JsError ""))
                = "appointment"%string).
    { apply H; [cbv; tauto | cbv; tauto | reflexivity]. }
    discriminate E.
  - split; vm_compute; reflexivity.
Qed.

(** C6, amended. The groups are tried in the order of the list and the
    first group with a keyword in the lower-case file name decides the
    category; when that is the first group, the title gets its prefix and
    the reminder is a date, which is the date fourteen days on whenever the
    local zone reads the local time fourteen days on with the offset in
    force at the call. *)
Theorem C6_first_matching_group_decides
    (zone : JSDate.TimeZone) (now : Z) (fileName : string) (error : Thrown)
    (before after : list (list string * Category))
    (keywords : list string) (cat : Category) :
  keywordTable = before ++ (keywords, cat) :: after ->
  groupMatches (toLowerCase fileName) keywords = true ->
  (forall g, In g before -> groupMatches (toLowerCase fileName) g.1 = false) ->
  let r := generateEnhancedFallback zone now fileName error in
  category r = cat
  /\ (before = [] ->
      title r = JStr ("Bill/Tax Document - " +:+ stripExtension fileName)
      /\ (exists date, reminderDate r = JStr date /\ date <> ""%string)
      /\ (sameOffsetIn14Days zone now ->
          reminderDate r = JStr (JSDate.isoDate (now + 14 * JSDate.msPerDay)))).
Proof.
  intros Htab Hm Hnone. cbv zeta. split.
  - rewrite fallback_category, Htab.
    rewrite (firstMatch_first _ before after keywords cat Hm Hnone). reflexivity.
  - intros ->. simpl in Htab. injection Htab as <- _ _.
    destruct (fallback_bill_group zone now fileName error Hm) as (_ & Ht & Hr).
    split; [exact Ht |]. split.
    + exists (reminderIn14Days zone now).
      split; [exact Hr | apply reminderIn14Days_nonempty].
    + intros S. rewrite Hr, (reminderIn14Days_steady zone now S). reflexivity.
Qed.

Lemma C6_witness :
  groupMatches (toLowerCase "Doctor_Letter.pdf")
    ["appointment"; "doctor"; "medical"; "clinic"]%string = true
  /\ category (generateEnhancedFallback utc 0 "Doctor_Letter.pdf" (JsError ""))
     = "appointment"%string.
Proof.
  split; [reflexivity |].
  refine (proj1 (C6_first_matching_group_decides utc 0 "Doctor_Letter.pdf" (JsError "")
            [(["council"; "tax"; "bill"; "invoice"], "bill")]%string _
            ["appointment"; "doctor"; "medical"; "clinic"]%string
            "appointment"%string eq_refl eq_refl _)).
  intros g [<- | []]. reflexivity.
Defined.

End FallbackClaims.

(** ** The analyzer *)

Module AnalyzerFacts.
Import JS AIService FallbackSpec FallbackFacts.

Lemma validateCategory_string (c : string) :
  validateCategory (JStr c)
  = if existsb (String.eqb c) validCategories then c else "personal"%string.
Proof. reflexivity. Qed.

Lemma existsb_eqb_In (c : string) (l : list string) :
  existsb (String.eqb c) l = true <-> In c l.
Proof.
  rewrite existsb_exists. split.
  - intros (x & Hx & E). apply String.eqb_eq in E. subst. exact Hx.
  - intros H. exists c. split; [exact H | apply String.eqb_refl].
Qed.

Lemma validateCategory_valid (v : JValue) : In (validateCategory v) validCategories.
Proof.
  destruct v; try (cbv; tauto).
  rewrite validateCategory_string.
  destruct (existsb (String.eqb s) validCategories) eqn:E.
  - apply existsb_eqb_In. exact E.
  - cbv; tauto.
Qed.

Lemma orPersonal_valid (c : Category) :
  In c validCategories -> orPersonal c = c.
Proof.
  intros H. unfold orPersonal.
  destruct (String.eqb_spec c ""); [| reflexivity].
  subst. cbv in H. repeat (destruct H as [H | H]; [discriminate H |]). destruct H.
Qed.

Lemma resultOf_category (v : JValue) (dt ds : string) (nr : JValue) (txt : string)
    (r : AIAnalysisResult) :
  resultOf v dt ds nr txt = Returns r -> In (category r) validCategories.
Proof.
  unfold resultOf.
  destruct (getProp v "title") as [t |]; [| discriminate].
  destruct (getProp v "summary") as [s |]; [| discriminate].
  destruct (getProp v "category") as [c |]; [| discriminate].
  destruct (getProp v "reminderDate") as [d |]; [| discriminate].
  cbn. intros [= <-]. cbn.
  rewrite orPersonal_valid; apply validateCategory_valid.
Qed.

Ltac step :=
  match goal with
  | |- context [mbind _ ?c] =>
      let E := fresh "E" in destruct c eqn:E; cbn [mbind outcome_bind]; try discriminate
  end.

Lemma analyzeBody_from_resultOf (ext : Externals) (now : Z)
    (filePath fileName : string) (r : AIAnalysisResult) :
  analyzeBody ext now filePath fileName = Returns r ->
  exists v dt ds nr txt, resultOf v dt ds nr txt = Returns r.
Proof.
  unfold analyzeBody.
  destruct (String.eqb (toLowerCase (extname fileName)) ".pdf").
  - unfold try_catch.
    destruct (pdfViaImage ext filePath fileName) as [r' | e] eqn:E.
    + intros [= <-]. revert E. unfold pdfViaImage.
      repeat step. eauto 10.
    + unfold pdfByFileName. repeat step. eauto 10.
  - unfold imageViaVision. repeat step. eauto 10.
Qed.
End AnalyzerFacts.

Section AnalyzerClaims.
Import JS AIService FallbackSpec FallbackFacts AnalyzerFacts Scenarios.

(** [analyzeDocument] never throws: under every behaviour of the external
    calls it returns a result.  Whenever its [try] block ends in an
    exception -- on the image path a failing file read, a failing
    transcription call or a reply that is not JSON, for instance; on the
    PDF path a failure of the classification by file name that follows a
    failure of the conversion and transcription -- the result is that of
    the fallback classifier for that exception: well formed, its summary
    ending in the quota note when the exception is an [Error] whose message
    contains "quota" or "429", and in the other note otherwise. *)
Lemma analyzeDocument_never_throws
    (ext : Externals) (zone : JSDate.TimeZone) (now : Z) (filePath fileName : string) :
  (exists r, analyzeDocument ext zone now filePath fileName = Returns r)
  /\ (forall e, analyzeBody ext now filePath fileName = Throws e ->
        analyzeDocument ext zone now filePath fileName
        = Returns (generateEnhancedFallback zone now fileName e))
  /\ (forall e,
        wellFormed (generateEnhancedFallback zone now fileName e) = true
        /\ exists base,
             summary (generateEnhancedFallback zone now fileName e)
             = JStr (base +:+ (if isQuotaError e then quotaNote else failureNote)))
  /\ quotaNote <> failureNote
  /\ (toLowerCase (extname fileName) <> ".pdf"%string ->
      forall e,
        readFileSync ext filePath = Throws e
        \/ (exists b mime,
              readFileSync ext filePath = Returns b
              /\ mime = (if String.eqb (toLowerCase (extname fileName)) ".png"
                         then "image/png" else "image/jpeg")%string
              /\ chat ext (OcrRequest mime b fileName) = Throws e) ->
        analyzeDocument ext zone now filePath fileName
        = Returns (generateEnhancedFallback zone now fileName e))
  /\ (toLowerCase (extname fileName) <> ".pdf"%string ->
      forall b mime ocr text answer reply e,
        readFileSync ext filePath = Returns b ->
        mime = (if String.eqb (toLowerCase (extname fileName)) ".png"
                then "image/png" else "image/jpeg")%string ->
        chat ext (OcrRequest mime b fileName) = Returns ocr ->
        firstContent ocr = Returns text ->
        chat ext (AnalysisRequest fileName
                    (contentOr (match text with
                                | Some s => Some (trim s)
                                | None => None
                                end) ""))
        = Returns answer ->
        firstContent answer = Returns reply ->
        JSON_parse ext (contentOr reply "{}") = Throws e ->
        analyzeDocument ext zone now filePath fileName
        = Returns (generateEnhancedFallback zone now fileName e))
  /\ (toLowerCase (extname fileName) = ".pdf"%string ->
      forall e0 e,
        pdfViaImage ext filePath fileName = Throws e0 ->
        pdfByFileName ext now fileName = Throws e ->
        analyzeDocument ext zone now filePath fileName
        = Returns (generateEnhancedFallback zone now fileName e)).
Proof.
  assert (Hbody : forall e, analyzeBody ext now filePath fileName = Throws e ->
            analyzeDocument ext zone now filePath fileName
            = Returns (generateEnhancedFallback zone now fileName e)).
  { intros e He. unfold analyzeDocument. rewrite He. reflexivity. }
  split.
  { unfold analyzeDocument.
    destruct (analyzeBody ext now filePath fileName) as [r | e]; cbn; eauto. }
  split; [exact Hbody |].
  split.
  { intros e. split; [apply fallback_wellFormed |].
    pose proof (fallback_shape zone now fileName e) as S. cbv zeta in S.
    destruct S as (_ & Hs & _). eauto. }
  split; [discriminate |].
  split; [| split].
  - intros Hext e Hfail. apply Hbody. unfold analyzeBody.
    destruct (String.eqb_spec (toLowerCase (extname fileName)) ".pdf");
      [contradiction |].
    unfold imageViaVision.
    destruct Hfail as [-> | (b & mime & -> & -> & Hc)]; cbn [mbind outcome_bind].
    + reflexivity.
    + rewrite Hc. reflexivity.
  - intros Hext b mime ocr text answer reply e Hr -> Ho Ht Ha Hy Hj.
    apply Hbody. unfold analyzeBody.
    destruct (String.eqb_spec (toLowerCase (extname fileName)) ".pdf");
      [contradiction |].
    unfold imageViaVision. rewrite Hr. cbn [mbind outcome_bind].
    rewrite Ho. cbn [mbind outcome_bind]. rewrite Ht. cbn [mbind outcome_bind].
    rewrite Ha. cbn [mbind outcome_bind]. rewrite Hy. cbn [mbind outcome_bind].
    rewrite Hj. reflexivity.
  - intros Hext e0 e H0 H1. apply Hbody. unfold analyzeBody.
    rewrite Hext, String.eqb_refl, H0. cbn [try_catch]. exact H1.
Qed.

(** C2. The code breaks the claim for a PDF.  The file is converted to an
    image, the transcription call is refused for quota, and the [catch]
    around the whole PDF branch takes that for a failed conversion: it asks
    for a classification by file name and returns that answer, with the
    text "PDF Processing Failed", a summary without any note, and nothing
    of the fallback classifier.  The image branch sends the same refusal to
    the fallback classifier, whose summary ends in the quota note. *)
Theorem C2_pdf_quota_error_bypasses_the_fallback :
  convertPDF quotaOnOcr "uploads/file-1.pdf" = Returns (Some "AAAA"%string)
  /\ chat quotaOnOcr (OcrRequest "image/jpeg" "AAAA" "scan.pdf")
     = Throws (JsError "429 You exceeded your current quota")
  /\ isQuotaError (JsError "429 You exceeded your current quota") = true
  /\ (exists r,
        analyzeDocument quotaOnOcr utc 0 "uploads/file-1.pdf" "scan.pdf" = Returns r
        /\ title r = JStr "PDF - scan.pdf"
        /\ summary r = JStr "PDF document analyzed based on filename."
        /\ startsWith (extractedText r) "PDF Processing Failed - scan.pdf" = true
        /\ forall e, r <> generateEnhancedFallback utc 0 "scan.pdf" e)
  /\ analyzeDocument quotaOnOcr utc 0 "uploads/file-1.png" "scan.png"
     = Returns (generateEnhancedFallback utc 0 "scan.png"
                  (JsError "429 You exceeded your current quota"))
  /\ summary (generateEnhancedFallback utc 0 "scan.png"
                (JsError "429 You exceeded your current quota"))
     = JStr ("Document uploaded and categorized based on filename. AI analysis will provide detailed content extraction once service is available."
             +:+ quotaNote).
Proof.
  split; [reflexivity |]. split; [reflexivity |]. split; [reflexivity |].
  split.
  { eexists. split; [reflexivity |]. split; [reflexivity |].
    split; [reflexivity |]. split; [vm_compute; reflexivity |].
    intros e H. apply (f_equal extractedText) in H.
    rewrite (proj2 (proj2 (proj2 (proj2 (proj2 (proj2
               (fallback_shape utc 0 "scan.pdf" e))))))) in H.
    vm_compute in H. discriminate H. }
  split; [reflexivity | reflexivity].
Qed.

(** C7. [validateCategory] returns a string of the closed enumeration
    unchanged and [personal] for every other string (and for every value
    that is not a string); so the category of every result of
    [analyzeDocument] is in the enumeration. *)
Theorem C7_validateCategory_closes_the_enumeration :
  validCategories
  = ["bill"; "appointment"; "personal"; "promotional"; "government";
     "insurance"; "nhs"]%string
  /\ (forall c : string, In c validCategories -> validateCategory (JStr c) = c)
  /\ (forall c : string, ~ In c validCategories ->
                         validateCategory (JStr c) = "personal"%string)
  /\ (forall v : JValue, isString v = false -> validateCategory v = "personal"%string)
  /\ (forall (ext : Externals) (zone : JSDate.TimeZone) (now : Z) (filePath fileName : string)
             (r : AIAnalysisResult),
        analyzeDocument ext zone now filePath fileName = Returns r ->
        In (category r) validCategories).
Proof.
  split; [reflexivity |].
  split.
  { intros c H. rewrite validateCategory_string.
    rewrite (proj2 (existsb_eqb_In c validCategories) H). reflexivity. }
  split.
  { intros c H. rewrite validateCategory_string.
    destruct (existsb (String.eqb c) validCategories) eqn:E; [| reflexivity].
    apply existsb_eqb_In in E. contradiction. }
  split.
  { intros v H. destruct v; try reflexivity. discriminate H. }
  intros ext zone now filePath fileName r. unfold analyzeDocument, try_catch.
  destruct (analyzeBody ext now filePath fileName) as [r' | e] eqn:E.
  - intros [= <-]. apply analyzeBody_from_resultOf in E.
    destruct E as (v & dt & ds & nr & txt & E).
    exact (resultOf_category _ _ _ _ _ _ E).
  - intros [= <-]. rewrite fallback_category.
    destruct (firstMatch (toLowerCase fileName) keywordTable) as [c |] eqn:F.
    + apply firstMatch_in_table in F. cbv in F. cbv.
      repeat (destruct F as [<- | F]; [tauto |]). destruct F.
    + cbv. tauto.
Qed.

Lemma C7_witness :
  In "nhs"%string validCategories
  /\ validateCategory (JStr "nhs") = "nhs"%string
  /\ ~ In "receipt"%string validCategories
  /\ validateCategory (JStr "receipt") = "personal"%string.
Proof.
  assert (H1 : In "nhs"%string validCategories) by (cbv; tauto).
  assert (H2 : ~ In "receipt"%string validCategories).
  { cbv. intros H. repeat (destruct H as [H | H]; [discriminate H |]). exact H. }
  split; [exact H1 |].
  split; [exact (proj1 (proj2 C7_validateCategory_closes_the_enumeration) _ H1) |].
  split; [exact H2 |].
  exact (proj1 (proj2 (proj2 C7_validateCategory_closes_the_enumeration)) _ H2).
Defined.

End AnalyzerClaims.

(** ** The persistence layer *)

Module StorageFacts.
Import JS Storage.

Lemma In_insertByDate (m x : MailItem) (l : list MailItem) :
  In x (insertByDate m l) <-> x = m \/ In x l.
Proof.
  induction l as [| y l IH]; cbn.
  - intuition congruence.
  - destruct (uploadDate y <? uploadDate m)%Z; cbn; rewrite ?IH; intuition congruence.
Qed.

Lemma In_newestFirst (x : MailItem) (l : list MailItem) :
  In x (newestFirst l) <-> In x l.
Proof.
  unfold newestFirst. induction l as [| y l IH]; cbn; [tauto |].
  rewrite In_insertByDate, IH. intuition congruence.
Qed.

Lemma ownedBy_true (uid : string) (m : MailItem) :
  ownedBy uid m = true <-> userId m = uid.
Proof. unfold ownedBy. apply String.eqb_eq. Qed.

Lemma isItemOf_true (i : Z) (uid : string) (m : MailItem) :
  isItemOf i uid m = true <-> id m = i /\ userId m = uid.
Proof.
  unfold isItemOf. rewrite andb_true_iff, ownedBy_true, Z.eqb_eq. tauto.
Qed.

Lemma head_In {A} (l : list A) (x : A) : head l = Some x -> In x l.
Proof. destruct l; cbn; [discriminate | intros [= ->]; left; reflexivity]. Qed.

(** List: exactly the caller's rows. *)
Lemma getAllMailItems_scoped (uid : string) (db : Database) (r : MailItem) :
  In r (getAllMailItems uid db) <-> In r (mailItems db) /\ userId r = uid.
Proof.
  unfold getAllMailItems. rewrite In_newestFirst, filter_In, ownedBy_true. tauto.
Qed.

(** Get by id: a row of the caller with that id. *)
Lemma getMailItem_scoped (i : Z) (uid : string) (db : Database) (r : MailItem) :
  getMailItem i uid db = Some r ->
  In r (mailItems db) /\ id r = i /\ userId r = uid.
Proof.
  unfold getMailItem. intros H. apply head_In in H.
  apply filter_In in H. rewrite isItemOf_true in H. tauto.
Qed.

(** Search: rows of the caller only. *)
Lemma searchMailItems_scoped (query uid : string) (db : Database) (r : MailItem) :
  In r (searchMailItems query uid db) ->
  In r (mailItems db) /\ userId r = uid.
Proof.
  unfold searchMailItems. rewrite In_newestFirst, filter_In, andb_true_iff, ownedBy_true.
  tauto.
Qed.

(** Filter by category: rows of the caller only. *)
Lemma getMailItemsByCategory_scoped (cat uid : string) (db : Database) (r : MailItem) :
  In r (getMailItemsByCategory cat uid db) ->
  In r (mailItems db) /\ userId r = uid /\ category r = cat.
Proof.
  unfold getMailItemsByCategory.
  rewrite In_newestFirst, filter_In, andb_true_iff, ownedBy_true, String.eqb_eq.
  tauto.
Qed.

(** Delete: the rows of the other users stay as they are, in their order. *)
Lemma deleteMailItem_others (i : Z) (uid other : string) (db : Database) :
  other <> uid ->
  List.filter (ownedBy other) (mailItems (deleteMailItem i uid db).1)
  = List.filter (ownedBy other) (mailItems db).
Proof.
  intros Hne. cbn. induction (mailItems db) as [| m l IH]; cbn; [reflexivity |].
  destruct (isItemOf i uid m) eqn:E; cbn.
  - apply isItemOf_true in E. destruct E as [_ E].
    destruct (ownedBy other m) eqn:O; [| exact IH].
    apply ownedBy_true in O. congruence.
  - rewrite IH. reflexivity.
Qed.

Lemma deleteAllMailItems_others (uid other : string) (db : Database) :
  other <> uid ->
  List.filter (ownedBy other) (mailItems (deleteAllMailItems uid db).1)
  = List.filter (ownedBy other) (mailItems db).
Proof.
  intros Hne. cbn. induction (mailItems db) as [| m l IH]; cbn; [reflexivity |].
  destruct (ownedBy uid m) eqn:E; cbn.
  - apply ownedBy_true in E.
    destruct (ownedBy other m) eqn:O; [| exact IH].
    apply ownedBy_true in O. congruence.
  - rewrite IH. reflexivity.
Qed.

Lemma updateWhere_others (i : Z) (uid : string) (u : MailItemUpdates)
    (l : list MailItem) (r : MailItem) :
  In r l -> userId r <> uid -> In r (updateWhere (isItemOf i uid) u l).
Proof.
  intros Hin Hne. unfold updateWhere. apply in_map_iff. exists r. split; [| exact Hin].
  destruct (isItemOf i uid r) eqn:E; [| reflexivity].
  apply isItemOf_true in E. tauto.
Qed.

(** Update: no row of another user is rewritten. *)
Lemma updateMailItem_others (i : Z) (uid : string) (u : MailItemUpdates)
    (db db' : Database) (res : option MailItem) (r : MailItem) :
  updateMailItem i uid u db = Returns (db', res) ->
  In r (mailItems db) -> userId r <> uid -> In r (mailItems db').
Proof.
  unfold updateMailItem. destruct (noKeys u); [discriminate |].
  destruct (match List.filter (isItemOf i uid) (mailItems db) with
            | [] => true
            | _ :: _ => match set_userId u with
                        | Some owner => userExists db owner
                        | None => true
                        end
            end); [| discriminate].
  intros [= <- _]. cbn. apply updateWhere_others.
Qed.

(** Update: the row it returns is the rewritten form of a row that was the
    caller's; its owner is the caller unless the update names another. *)
Lemma updateMailItem_returned (i : Z) (uid : string) (u : MailItemUpdates)
    (db db' : Database) (r : MailItem) :
  updateMailItem i uid u db = Returns (db', Some r) ->
  (exists r0, In r0 (mailItems db) /\ id r0 = i /\ userId r0 = uid
              /\ r = applyUpdates u r0)
  /\ userId r = default uid (set_userId u).
Proof.
  unfold updateMailItem. destruct (noKeys u); [discriminate |].
  destruct (match List.filter (isItemOf i uid) (mailItems db) with
            | [] => true
            | _ :: _ => match set_userId u with
                        | Some owner => userExists db owner
                        | None => true
                        end
            end); [| discriminate].
  intros [= _ H].
  destruct (List.filter (isItemOf i uid) (mailItems db)) as [| r0 rest] eqn:F;
    [discriminate |].
  cbn in H. injection H as <-.
  assert (Hin : In r0 (List.filter (isItemOf i uid) (mailItems db)))
    by (rewrite F; left; reflexivity).
  apply filter_In in Hin. rewrite isItemOf_true in Hin.
  destruct Hin as (Hin & Hid & Hu).
  split; [exists r0; tauto |].
  cbn. rewrite Hu. reflexivity.
Qed.

End StorageFacts.

(** ** The OAuth state map *)

Module AuthFacts.
Import JS Auth.
Local Open Scope Z_scope.

Lemma lookup_dropOlderThan (cutoff : Z) (m : gmap string StateInfo)
    (k : string) (v : StateInfo) :
  dropOlderThan cutoff m !! k = Some v <-> m !! k = Some v /\ cutoff <= timestamp v.
Proof.
  unfold dropOlderThan. rewrite map_lookup_filter_Some. simpl. intuition lia.
Qed.

Lemma lookup_after_generate (random : string) (t1 t2 t3 : Z)
    (m : gmap string StateInfo) (k : string) (v : StateInfo) :
  let r := generateOAuthState random t1 t2 t3 m in
  r.1 !! k = Some v <->
  t3 - 600000 <= timestamp v
  /\ (if decide (k = r.2) then v = {| timestamp := t2 |} else m !! k = Some v).
Proof.
  cbv zeta. unfold generateOAuthState. cbn [fst snd].
  rewrite lookup_dropOlderThan.
  replace (10 * 60 * 1000) with 600000 by reflexivity.
  destruct (decide (k = random +:+ numberToString 36 t1)) as [-> | Hne].
  - rewrite lookup_insert_eq. split.
    + intros [[= <-] H]. auto.
    + intros [H ->]. auto.
  - rewrite lookup_insert_ne by congruence. tauto.
Qed.

Lemma verify_removes (s : string) (now : Z) (m : gmap string StateInfo) :
  (verifyOAuthState s now m).1 !! s = None.
Proof.
  unfold verifyOAuthState. destruct (m !! s) as [info |] eqn:E; cbn.
  - destruct (timestamp info <? now - 5 * 60 * 1000); cbn; apply lookup_delete_eq.
  - exact E.
Qed.

Lemma verify_absent (s : string) (now : Z) (m : gmap string StateInfo) :
  m !! s = None -> verifyOAuthState s now m = (m, false).
Proof. intros H. unfold verifyOAuthState. rewrite H. reflexivity. Qed.

Lemma verify_keeps_absent (s k : string) (now : Z) (m : gmap string StateInfo) :
  m !! s = None -> (verifyOAuthState k now m).1 !! s = None.
Proof.
  intros H. unfold verifyOAuthState. destruct (m !! k) as [info |]; cbn; [| exact H].
  destruct (timestamp info <? now - 5 * 60 * 1000); cbn;
    rewrite lookup_delete_None; auto.
Qed.

Lemma generate_keeps_absent (s random : string) (t1 t2 t3 : Z)
    (m : gmap string StateInfo) :
  m !! s = None -> s <> random +:+ numberToString 36 t1 ->
  (generateOAuthState random t1 t2 t3 m).1 !! s = None.
Proof.
  intros H Hne.
  destruct ((generateOAuthState random t1 t2 t3 m).1 !! s) as [v |] eqn:E;
    [| reflexivity].
  apply lookup_after_generate in E. destruct E as [_ E].
  cbn [snd generateOAuthState] in E.
  destruct (decide (s = random +:+ numberToString 36 t1)); congruence.
Qed.

Lemma accepted_absent (s : string) (calls : list Call) (m : gmap string StateInfo) :
  m !! s = None ->
  (forall c, In c calls -> issued c <> Some s) ->
  accepted s calls m = O.
Proof.
  revert m. induction calls as [| c calls IH]; intros m Hm Hc; [reflexivity |].
  destruct c as [random t1 t2 t3 | state now]; cbn [accepted].
  - apply IH.
    + apply generate_keeps_absent; [exact Hm |].
      intros ->. apply (Hc (Generate random t1 t2 t3)); [left; reflexivity | reflexivity].
    + intros c Hin. apply Hc. right. exact Hin.
  - rewrite IH.
    + destruct (String.eqb_spec state s) as [-> | Hne].
      * rewrite (verify_absent s now m Hm). reflexivity.
      * rewrite andb_false_r. reflexivity.
    + apply verify_keeps_absent. exact Hm.
    + intros c Hin. apply Hc. right. exact Hin.
Qed.

Lemma accepted_at_most_once (s : string) (calls : list Call) (m : gmap string StateInfo) :
  (forall c, In c calls -> issued c <> Some s) ->
  (accepted s calls m <= 1)%nat.
Proof.
  revert m. induction calls as [| c calls IH]; intros m Hc; [cbn; lia |].
  assert (Hc' : forall c0, In c0 calls -> issued c0 <> Some s).
  { intros c0 Hin. apply Hc. right. exact Hin. }
  destruct c as [random t1 t2 t3 | state now]; cbn [accepted].
  - apply IH. exact Hc'.
  - destruct (String.eqb_spec state s) as [-> | Hne].
    + rewrite (accepted_absent s calls _ (verify_removes s now m) Hc').
      destruct (verifyOAuthState s now m).2; cbn; lia.
    + rewrite andb_false_r. cbn. apply IH. exact Hc'.
Qed.

End AuthFacts.

(** ** The endpoints and the notification *)

Module RouteFacts.
Import JS Storage Routes StorageFacts.

Lemma getUser_id (uid : string) (db : Database) (u : User) :
  getUser uid db = Some u -> user_id u = uid.
Proof.
  unfold getUser. intros H. apply head_In in H. apply filter_In in H.
  destruct H as [_ H]. apply String.eqb_eq in H. exact H.
Qed.

Lemma authenticateToken_id (c : Credentials) (db : Database) (uid : string) :
  authenticateToken c db = inr uid -> c = TokenFor uid.
Proof.
  destruct c as [| | decoded]; cbn; try discriminate.
  destruct (getUser decoded db) as [u |] eqn:E; [| discriminate].
  intros [= <-]. rewrite (getUser_id _ _ _ E). reflexivity.
Qed.

Lemma refusal_has_no_rows (c : Credentials) (db : Database) (resp : Response) :
  authenticateToken c db = inl resp -> rowsOf resp = [].
Proof.
  destruct c as [| | decoded]; cbn; try (intros [= <-]; reflexivity).
  destruct (getUser decoded db); [discriminate | intros [= <-]; reflexivity].
Qed.

(** The search and category endpoints answer 500 to every request. *)
Lemma searchRoute_fails (query : string) (db : Database) :
  searchRoute query db
  = (db, {| status := 500; body := ErrorBody "Failed to search mail items" |}).
Proof. reflexivity. Qed.

Lemma categoryRoute_fails (cat : string) (db : Database) :
  categoryRoute cat db
  = (db, {| status := 500;
            body := ErrorBody "Failed to fetch mail items by category" |}).
Proof. reflexivity. Qed.

(** The reading endpoints and the delete endpoint answer with rows of the
    authenticated user only. *)
Lemma read_endpoints_scoped (c : Credentials) (db : Database) (i : Z)
    (query cat : string) (r : MailItem) :
  In r (rowsOf (listMailItems c db).2)
  \/ In r (rowsOf (fetchMailItem c i db).2)
  \/ In r (rowsOf (removeMailItem c i db).2)
  \/ In r (rowsOf (searchRoute query db).2)
  \/ In r (rowsOf (categoryRoute cat db).2) ->
  c = TokenFor (userId r) /\ In r (mailItems db).
Proof.
  unfold listMailItems, fetchMailItem, removeMailItem, protected.
  rewrite searchRoute_fails, categoryRoute_fails.
  destruct (authenticateToken c db) as [resp | uid] eqn:A.
  - cbn [snd]. rewrite (refusal_has_no_rows _ _ _ A). cbn. tauto.
  - apply authenticateToken_id in A. subst c.
    intros [H | [H | [H | [H | H]]]]; cbn in H; try contradiction.
    + apply getAllMailItems_scoped in H. destruct H as [H <-]. tauto.
    + destruct (getMailItem i uid db) as [item |] eqn:G; cbn in H; [| contradiction].
      destruct H as [<- | []]. apply getMailItem_scoped in G.
      destruct G as (G & _ & <-). tauto.
    + destruct (length (List.filter (isItemOf i uid) (mailItems db)));
        cbn in H; contradiction.
Qed.

End RouteFacts.

Module NotificationFacts.
Import JS Storage EmailService Routes.

Lemma sendLetterNotification_returns (pf : Platform) (user : User)
    (letter : LetterData) :
  (sendLetterNotification pf user letter).2 = Returns tt.
Proof.
  unfold sendLetterNotification.
  destruct (notificationAttempt pf user letter) as [log [[] | e]]; reflexivity.
Qed.

Lemma failure_is_logged (pf : Platform) (user : User) (letter : LetterData)
    (log : list LogEntry) (e : Thrown) :
  notificationAttempt pf user letter = (log, Throws e) ->
  sendLetterNotification pf user letter
  = (log ++ [ConsoleError ("Failed to send letter notification email: "
                           +:+ errorMessage e)], Returns tt).
Proof. intros H. unfold sendLetterNotification. rewrite H. reflexivity. Qed.

Lemma upload_ignores_platform (ai : AIService.Externals) (pf1 pf2 : Platform)
    (zone : JSDate.TimeZone) (now : Z) (c : Credentials) (file : option UploadedFile) (db : Database) :
  (uploadMailItem ai pf1 zone now c file db).1
  = (uploadMailItem ai pf2 zone now c file db).1.
Proof.
  unfold uploadMailItem.
  destruct (authenticateToken c db); [reflexivity |].
  destruct file as [f |]; [| reflexivity].
  destruct (mbind _ _) as [[db' item] | e]; reflexivity.
Qed.

Lemma upload_created_row (ai : AIService.Externals) (pf : Platform)
    (zone : JSDate.TimeZone) (now : Z) (c : Credentials) (file : option UploadedFile)
    (db db' : Database) (resp : Response) (log : list LogEntry) :
  uploadMailItem ai pf zone now c file db = (db', resp, log) ->
  status resp = 201%Z ->
  exists item uid,
    body resp = Item item /\ c = TokenFor uid /\ userId item = uid
    /\ mailItems db' = mailItems db ++ [item].
Proof.
  unfold uploadMailItem.
  destruct (authenticateToken c db) as [refusal | uid] eqn:A.
  - intros [= <- <- <-] S. exfalso. revert A S.
    destruct c as [| | d]; cbn; try (intros [= <-]; discriminate).
    destruct (getUser d db); [discriminate | intros [= <-]; discriminate].
  - apply RouteFacts.authenticateToken_id in A. subst c.
    destruct file as [f |]; [| intros [= <- <- <-]; discriminate].
    destruct (AIService.analyzeDocument ai zone now (file_path f) (file_originalname f))
      as [r | e]; cbn [mbind outcome_bind]; [| intros [= <- <- <-]; discriminate].
    destruct (parseInsert uid r f) as [ins |] eqn:P; cbn [mbind outcome_bind];
      [| intros [= <- <- <-]; discriminate].
    unfold createMailItem.
    destruct (userExists db (ins_userId ins)); [| intros [= <- <- <-]; discriminate].
    intros [= <- <- <-] _. eexists _, uid. repeat split.
    cbn. revert P. unfold parseInsert.
    destruct (AIService.title r), (AIService.summary r),
      (js_or (AIService.reminderDate r) JNull); try discriminate;
      intros [= <-]; reflexivity.
Qed.

(** The four failures the service guards against, each with what it
    writes to the console. *)
Lemma no_email_address (pf : Platform) (user : User) (letter : LetterData) :
  strOr (email user) "" = ""%string ->
  sendLetterNotification pf user letter
  = ([ConsoleError "Cannot send email notification: user has no email address"],
     Returns tt).
Proof.
  unfold sendLetterNotification, notificationAttempt, strOr.
  destruct (email user) as [a |]; [| reflexivity].
  destruct (String.eqb_spec a ""); [reflexivity |].
  intros ->. contradiction.
Qed.

Lemma missing_credentials (pf : Platform) (user : User) :
  auth_user (auth (smtp (getEmailConfig pf (Some user)))) = ""%string
  \/ auth_pass (auth (smtp (getEmailConfig pf (Some user)))) = ""%string ->
  createTransporter pf (Some user)
  = Throws (JsError "SMTP credentials not configured. Please configure email settings in your profile.").
Proof.
  unfold createTransporter. intros [-> | ->]; rewrite ?orb_true_r; reflexivity.
Qed.

Lemma transporter_failure (pf : Platform) (user : User) (letter : LetterData)
    (address : string) (e : Thrown) :
  email user = Some address -> address <> ""%string ->
  createTransporter pf (Some user) = Throws e ->
  sendLetterNotification pf user letter
  = ([ConsoleError ("Failed to send letter notification email: "
                    +:+ errorMessage e)], Returns tt).
Proof.
  intros He Hne Ht. unfold sendLetterNotification, notificationAttempt.
  rewrite He. destruct (String.eqb_spec address ""); [contradiction |].
  rewrite Ht. reflexivity.
Qed.

Lemma missing_attachment (pf : Platform) (user : User) (letter : LetterData)
    (address : string) (transporter : Smtp) :
  email user = Some address -> address <> ""%string ->
  createTransporter pf (Some user) = Returns transporter ->
  existsSync pf (pathJoin pf (cwd pf) (stripLeadingSlash (letter_imageUrl letter)))
  = false ->
  sendLetterNotification pf user letter
  = ([ConsoleError ("File not found for email attachment: "
                    +:+ pathJoin pf (cwd pf)
                          (stripLeadingSlash (letter_imageUrl letter)));
      ConsoleError ("Failed to send letter notification email: "
                    +:+ ("File not found: " +:+ letter_fileName letter))],
     Returns tt).
Proof.
  intros He Hne Ht Hx. unfold sendLetterNotification, notificationAttempt.
  rewrite He. destruct (String.eqb_spec address ""); [contradiction |].
  rewrite Ht, Hx. reflexivity.
Qed.

Lemma smtp_failure (pf : Platform) (user : User) (letter : LetterData)
    (address : string) (transporter : Smtp) (e : Thrown) :
  email user = Some address -> address <> ""%string ->
  createTransporter pf (Some user) = Returns transporter ->
  existsSync pf (pathJoin pf (cwd pf) (stripLeadingSlash (letter_imageUrl letter)))
  = true ->
  (forall options, sendMail pf transporter options = Throws e) ->
  sendLetterNotification pf user letter
  = ([ConsoleError ("Failed to send letter notification email: "
                    +:+ errorMessage e)], Returns tt).
Proof.
  intros He Hne Ht Hx Hs. unfold sendLetterNotification, notificationAttempt.
  rewrite He. destruct (String.eqb_spec address ""); [contradiction |].
  rewrite Ht, Hx, Hs. reflexivity.
Qed.

End NotificationFacts.

Section StorageClaims.
Import JS Storage Routes Scenarios.

(** C1 fails on the update path. Alice patches her own letter with a body
    whose only key is [userId]: the endpoint answers 200 with a row whose
    owner is Bob, not Alice, and the letter is from then on in Bob's list. *)
Theorem C1_update_hands_a_row_to_another_user :
  let answer :=
    patchMailItem (TokenFor "email_alice_example.org") 1 handOverToBob twoUsers in
  exists row,
    answer.2 = {| status := 200; body := Item row |}
    /\ userId row = "google_1234"%string
    /\ userId row <> "email_alice_example.org"%string
    /\ title row = "Council tax"%string
    /\ getAllMailItems "google_1234" twoUsers = []
    /\ getAllMailItems "google_1234" answer.1 = [row]
    /\ getAllMailItems "email_alice_example.org" answer.1 = [].
Proof.
  eexists. repeat split; try reflexivity. discriminate.
Qed.

End StorageClaims.

Section NotificationClaims.
Import JS Storage EmailService Routes NotificationFacts Scenarios.

(** C8. [sendLetterNotification] returns normally for every user, letter and
    behaviour of the platform; an exception inside it ends up on the console
    and nowhere else; this holds in particular for a user without address,
    missing SMTP credentials, a missing attachment file and a failing SMTP
    transport.  The database and the response of the upload endpoint are
    the same whatever the platform does, and a 201 response carries the row
    that has been appended to the table. *)
Theorem C8_notification_never_raises :
  (forall pf user letter,
     (sendLetterNotification pf user letter).2 = Returns tt)
  /\ (forall pf user letter log e,
        notificationAttempt pf user letter = (log, Throws e) ->
        sendLetterNotification pf user letter
        = (log ++ [ConsoleError ("Failed to send letter notification email: "
                                 +:+ errorMessage e)], Returns tt))
  /\ (forall pf user letter,
        strOr (email user) "" = ""%string ->
        sendLetterNotification pf user letter
        = ([ConsoleError "Cannot send email notification: user has no email address"],
           Returns tt))
  /\ (forall pf user letter address,
        email user = Some address -> address <> ""%string ->
        auth_user (auth (smtp (getEmailConfig pf (Some user)))) = ""%string
        \/ auth_pass (auth (smtp (getEmailConfig pf (Some user)))) = ""%string ->
        sendLetterNotification pf user letter
        = ([ConsoleError "Failed to send letter notification email: SMTP credentials not configured. Please configure email settings in your profile."],
           Returns tt))
  /\ (forall pf user letter address transporter,
        email user = Some address -> address <> ""%string ->
        createTransporter pf (Some user) = Returns transporter ->
        existsSync pf (pathJoin pf (cwd pf)
                         (stripLeadingSlash (letter_imageUrl letter))) = false ->
        sendLetterNotification pf user letter
        = ([ConsoleError ("File not found for email attachment: "
                          +:+ pathJoin pf (cwd pf)
                                (stripLeadingSlash (letter_imageUrl letter)));
            ConsoleError ("Failed to send letter notification email: "
                          +:+ ("File not found: " +:+ letter_fileName letter))],
           Returns tt))
  /\ (forall pf user letter address transporter e,
        email user = Some address -> address <> ""%string ->
        createTransporter pf (Some user) = Returns transporter ->
        existsSync pf (pathJoin pf (cwd pf)
                         (stripLeadingSlash (letter_imageUrl letter))) = true ->
        (forall options, sendMail pf transporter options = Throws e) ->
        sendLetterNotification pf user letter
        = ([ConsoleError ("Failed to send letter notification email: "
                          +:+ errorMessage e)], Returns tt))
  /\ (forall ai pf1 pf2 zone now c file db,
        (uploadMailItem ai pf1 zone now c file db).1
        = (uploadMailItem ai pf2 zone now c file db).1)
  /\ (forall ai pf zone now c file db db' resp log,
        uploadMailItem ai pf zone now c file db = (db', resp, log) ->
        status resp = 201%Z ->
        exists item uid,
          body resp = Item item /\ c = TokenFor uid /\ userId item = uid
          /\ mailItems db' = mailItems db ++ [item]).
Proof.
  split; [exact sendLetterNotification_returns |].
  split; [exact failure_is_logged |].
  split; [exact no_email_address |].
  split.
  { intros pf user letter address He Hne Hc.
    rewrite (transporter_failure pf user letter address _ He Hne
               (missing_credentials pf user Hc)).
    reflexivity. }
  split; [exact missing_attachment |].
  split; [exact smtp_failure |].
  split; [exact upload_ignores_platform | exact upload_created_row].
Qed.

Lemma C8_witness :
  existsSync noAttachment
    (pathJoin noAttachment (cwd noAttachment)
       (stripLeadingSlash "/uploads/file-1.pdf")) = false
  /\ sendLetterNotification noAttachment alice
       {| letter_id := 1; letter_title := "Council tax";
          letter_fileName := "council.pdf";
          letter_imageUrl := "/uploads/file-1.pdf";
          letter_uploadDate := 1705752000000;
          letter_summary := Some "Demand for payment"%string;
          letter_extractedText := None |}
     = ([ConsoleError "File not found for email attachment: /srv/posty/uploads/file-1.pdf";
         ConsoleError "Failed to send letter notification email: File not found: council.pdf"],
        Returns tt).
Proof.
  split; [reflexivity |].
  exact (proj1 (proj2 (proj2 (proj2 (proj2 C8_notification_never_raises))))
           noAttachment alice _ "alice@example.org"%string _
           eq_refl ltac:(discriminate) eq_refl eq_refl).
Defined.

End NotificationClaims.

Section AuthClaims.
Import JS Auth AuthFacts MoreScenarios.
Local Open Scope Z_scope.

(** C9. A call of [generateOAuthState] stores the state it returns under
    the time of the call and leaves no entry in the map that is more than
    ten minutes old, the other entries being kept as they were; the new
    state is in the map afterwards when the sweep reads the clock less than
    ten minutes after the insertion did, as it does when the readings
    coincide.  Every verification consumes its state: whatever it answers,
    the map afterwards is the map without that state; it answers true
    exactly when the state was in the map and not more than five minutes
    old; a verification of the same state that follows immediately answers
    false; and in any run of calls that does not issue [s] again, at most
    one verification of [s] returns true. *)
Theorem C9_oauth_states_swept_and_consumed_once :
  (forall random t1 t2 t3 (m : gmap string StateInfo),
     let r := generateOAuthState random t1 t2 t3 m in
     (t3 - 600000 <= t2 -> r.1 !! r.2 = Some {| timestamp := t2 |})
     /\ (forall k v, r.1 !! k = Some v -> t3 - 600000 <= timestamp v)
     /\ (forall k v, m !! k = Some v -> timestamp v < t3 - 600000 ->
                     k <> r.2 -> r.1 !! k = None)
     /\ (forall k, k <> r.2 ->
           r.1 !! k = match m !! k with
                      | Some v => if timestamp v <? t3 - 600000 then None else Some v
                      | None => None
                      end))
  /\ (forall random now (m : gmap string StateInfo),
        let r := generateOAuthState random now now now m in
        r.1 !! r.2 = Some {| timestamp := now |})
  /\ (forall s now (m : gmap string StateInfo),
        (verifyOAuthState s now m).1 = delete s m
        /\ (verifyOAuthState s now m).1 !! s = None
        /\ ((verifyOAuthState s now m).2 = true <->
            exists info, m !! s = Some info /\ now - 300000 <= timestamp info)
        /\ forall now',
             verifyOAuthState s now' (verifyOAuthState s now m).1
             = ((verifyOAuthState s now m).1, false))
  /\ (forall s calls (m : gmap string StateInfo),
        (forall c, In c calls -> issued c <> Some s) ->
        (accepted s calls m <= 1)%nat).
Proof.
  assert (Hnew : forall random t1 t2 t3 (m : gmap string StateInfo),
            t3 - 600000 <= t2 ->
            (generateOAuthState random t1 t2 t3 m).1
              !! (generateOAuthState random t1 t2 t3 m).2
            = Some {| timestamp := t2 |}).
  { intros random t1 t2 t3 m H. apply lookup_after_generate.
    split; [exact H |]. rewrite decide_True by reflexivity. reflexivity. }
  assert (Hother : forall random t1 t2 t3 (m : gmap string StateInfo) k,
            k <> (generateOAuthState random t1 t2 t3 m).2 ->
            (generateOAuthState random t1 t2 t3 m).1 !! k
            = match m !! k with
              | Some v => if timestamp v <? t3 - 600000 then None else Some v
              | None => None
              end).
  { intros random t1 t2 t3 m k Hk.
    destruct ((generateOAuthState random t1 t2 t3 m).1 !! k) as [v |] eqn:E.
    - apply lookup_after_generate in E. rewrite decide_False in E by exact Hk.
      destruct E as [Ht ->]. destruct (Z.ltb_spec (timestamp v) (t3 - 600000));
        [lia | reflexivity].
    - destruct (m !! k) as [v |] eqn:Em; [| reflexivity].
      destruct (Z.ltb_spec (timestamp v) (t3 - 600000)); [reflexivity |].
      assert (X : (generateOAuthState random t1 t2 t3 m).1 !! k = Some v).
      { apply lookup_after_generate. split; [lia |].
        rewrite decide_False by exact Hk. exact Em. }
      congruence. }
  split.
  { intros random t1 t2 t3 m. cbv zeta.
    split; [apply Hnew |].
    split.
    { intros k v E. apply lookup_after_generate in E. tauto. }
    split; [| apply Hother].
    intros k v Em Hold Hk. rewrite Hother by exact Hk. rewrite Em.
    destruct (Z.ltb_spec (timestamp v) (t3 - 600000)); [reflexivity | lia]. }
  split.
  { intros random now m. cbv zeta. apply Hnew. lia. }
  split.
  { intros s now m. split.
    { unfold verifyOAuthState. destruct (m !! s) as [info |] eqn:E.
      - destruct (timestamp info <? now - 5 * 60 * 1000); reflexivity.
      - cbn [fst]. symmetry. apply delete_id. exact E. }
    split; [apply verify_removes |].
    split.
    { unfold verifyOAuthState. replace (5 * 60 * 1000) with 300000 by reflexivity.
      destruct (m !! s) as [info |] eqn:E.
      - destruct (Z.ltb_spec (timestamp info) (now - 300000)); cbn [snd].
        + split; [discriminate | intros (i & [= <-] & H'); lia].
        + split; [eauto | reflexivity].
      - cbn [snd]. split; [discriminate | intros (i & [=] & _)]. }
    intros now'. apply verify_absent, verify_removes. }
  exact accepted_at_most_once.
Qed.

(** At noon the map holds a state that is eleven minutes old and one that
    is one minute old.  Issuing a state sweeps the first, keeps the second
    and stores the new one; a minute later the new state verifies, and
    verifying it again at once fails. *)
Lemma C9_witness :
  (generateOAuthState "k3j2x" 1705752000000 1705752000000 1705752000000 twoStates).1
    !! "m4x81lrl8a2rs"%string = None
  /\ (generateOAuthState "k3j2x" 1705752000000 1705752000000 1705752000000 twoStates).1
       !! "c7d01lrl8n1og"%string = Some {| timestamp := 1705751940000 |}
  /\ (generateOAuthState "k3j2x" 1705752000000 1705752000000 1705752000000 twoStates).1
       !! (generateOAuthState "k3j2x" 1705752000000 1705752000000 1705752000000
             twoStates).2
     = Some {| timestamp := 1705752000000 |}
  /\ (verifyOAuthState
        (generateOAuthState "k3j2x" 1705752000000 1705752000000 1705752000000
           twoStates).2
        1705752060000
        (generateOAuthState "k3j2x" 1705752000000 1705752000000 1705752000000
           twoStates).1).2 = true
  /\ (verifyOAuthState
        (generateOAuthState "k3j2x" 1705752000000 1705752000000 1705752000000
           twoStates).2
        1705752060000
        (verifyOAuthState
           (generateOAuthState "k3j2x" 1705752000000 1705752000000 1705752000000
              twoStates).2
           1705752060000
           (generateOAuthState "k3j2x" 1705752000000 1705752000000 1705752000000
              twoStates).1).1).2 = false.
Proof.
  pose proof C9_oauth_states_swept_and_consumed_once as (G & _ & V & _).
  specialize (G "k3j2x"%string 1705752000000 1705752000000 1705752000000 twoStates).
  cbv zeta in G. destruct G as (Gnew & _ & Gold & Gkeep).
  set (r := generateOAuthState "k3j2x" 1705752000000 1705752000000 1705752000000
              twoStates) in *.
  assert (N1 : "m4x81lrl8a2rs"%string <> r.2)
    by (intros H; vm_compute in H; discriminate H).
  assert (N2 : "c7d01lrl8n1og"%string <> r.2)
    by (intros H; vm_compute in H; discriminate H).
  assert (Hnew : r.1 !! r.2 = Some {| timestamp := 1705752000000 |})
    by (apply Gnew; lia).
  split.
  { apply (Gold _ {| timestamp := 1705751340000 |});
      [vm_compute; reflexivity | cbn; lia | exact N1]. }
  split.
  { rewrite (Gkeep _ N2). vm_compute. reflexivity. }
  split; [exact Hnew |].
  destruct (V r.2 1705752060000 r.1) as (_ & _ & Vtrue & Vagain).
  split.
  { apply Vtrue. exists {| timestamp := 1705752000000 |}.
    split; [exact Hnew | cbn; lia]. }
  rewrite (Vagain 1705752060000). reflexivity.
Defined.

(** C10. [generateUserId] is not injective on e-mail addresses: only the
    first "@" and the first "." are replaced, and the distinct addresses
    "a.b@x.com" and "a@b.x.com" both give "email_a_b_x.com". *)
Theorem C10_generateUserId_not_injective :
  exists e1 e2 : string,
    e1 <> e2
    /\ e1 = "a.b@x.com"%string /\ e2 = "a@b.x.com"%string
    /\ forall now random,
         generateUserId "email" None (Some e1) now random = "email_a_b_x.com"%string
         /\ generateUserId "email" None (Some e1) now random
            = generateUserId "email" None (Some e2) now random.
Proof.
  exists "a.b@x.com"%string, "a@b.x.com"%string.
  split; [discriminate |]. repeat split.
Qed.

End AuthClaims.

(** ** More on the persistence layer *)

Module StorageMore.
Import JS Storage StorageFacts StorageConditions Scenarios MoreScenarios.

Lemma insertByDate_perm (m : MailItem) (l : list MailItem) :
  Permutation (insertByDate m l) (m :: l).
Proof.
  induction l as [| x l IH]; cbn; [reflexivity |].
  destruct (uploadDate x <? uploadDate m)%Z; [reflexivity |].
  rewrite IH. apply perm_swap.
Qed.

Lemma newestFirst_perm (l : list MailItem) : Permutation (newestFirst l) l.
Proof.
  unfold newestFirst. induction l as [| x l IH]; cbn; [reflexivity |].
  rewrite insertByDate_perm, IH. reflexivity.
Qed.

Lemma insertByDate_sorted (m : MailItem) (l : list MailItem) :
  StronglySorted notOlder l -> StronglySorted notOlder (insertByDate m l).
Proof.
  induction l as [| x l IH]; intros S; cbn.
  - constructor; constructor.
  - inversion S as [| ? ? S' F]; subst.
    destruct (Z.ltb_spec (uploadDate x) (uploadDate m)).
    + constructor; [exact S |]. constructor.
      * unfold notOlder. lia.
      * eapply Forall_impl; [exact F |]. unfold notOlder. intros; lia.
    + constructor; [apply IH; exact S' |].
      rewrite insertByDate_perm. constructor; [| exact F].
      unfold notOlder. lia.
Qed.

Lemma newestFirst_sorted (l : list MailItem) : StronglySorted notOlder (newestFirst l).
Proof.
  unfold newestFirst. induction l as [| x l IH]; cbn; [constructor |].
  apply insertByDate_sorted, IH.
Qed.

(** X1: getAllMailItems, searchMailItems and getMailItemsByCategory each
    return exactly the rows of the table that satisfy their where-clause
    (a permutation of them: no row lost, none repeated), ordered by upload
    date with the newest first. *)
Theorem listings_are_newest_first (uid query cat : string) (db : Database) :
  (StronglySorted notOlder (getAllMailItems uid db)
   /\ Permutation (getAllMailItems uid db)
                  (List.filter (ownedBy uid) (mailItems db)))
  /\ (StronglySorted notOlder (searchMailItems query uid db)
      /\ Permutation (searchMailItems query uid db)
           (List.filter (fun m => ownedBy uid m && matchesQuery query m)
                        (mailItems db)))
  /\ (StronglySorted notOlder (getMailItemsByCategory cat uid db)
      /\ Permutation (getMailItemsByCategory cat uid db)
           (List.filter (fun m => String.eqb (category m) cat && ownedBy uid m)
                        (mailItems db))).
Proof.
  unfold getAllMailItems, searchMailItems, getMailItemsByCategory.
  repeat split; first [apply newestFirst_sorted | apply newestFirst_perm].
Qed.

Lemma filter_none {A} (p : A -> bool) (l : list A) :
  (forall x, In x l -> p x = false) -> List.filter p l = [].
Proof.
  induction l as [| x l IH]; intros H; cbn; [reflexivity |].
  rewrite (H x) by (left; reflexivity). apply IH. intros y Hy. apply H. right. exact Hy.
Qed.

Lemma filter_all {A} (p : A -> bool) (l : list A) :
  (forall x, In x l -> p x = true) -> List.filter p l = l.
Proof.
  induction l as [| x l IH]; intros H; cbn; [reflexivity |].
  rewrite (H x) by (left; reflexivity). f_equal. apply IH.
  intros y Hy. apply H. right. exact Hy.
Qed.

Lemma database_eta (db : Database) :
  {| users := users db; mailItems := mailItems db; nextId := nextId db |} = db.
Proof. destruct db; reflexivity. Qed.


Lemma createMailItem_fresh_key (db : Database) (uid : string) (m : MailItem) :
  keysFresh db -> In m (mailItems db) -> isItemOf (nextId db) uid m = false.
Proof.
  intros [_ Hlt] Hin. rewrite List.Forall_forall in Hlt. specialize (Hlt m Hin).
  unfold isItemOf. destruct (Z.eqb_spec (id m) (nextId db)); [lia | reflexivity].
Qed.

Lemma createMailItem_lookup (ins : InsertMailItem) (now : Z)
    (db db' : Database) (item : MailItem) :
  keysFresh db ->
  createMailItem ins now db = Returns (db', item) ->
  getMailItem (id item) (ins_userId ins) db' = Some item
  /\ In item (getAllMailItems (ins_userId ins) db').
Proof.
  intros K. unfold createMailItem.
  destruct (userExists db (ins_userId ins)); [| discriminate].
  intros [= <- <-]. split.
  - unfold getMailItem. cbn.
    rewrite List.filter_app, (filter_none _ _ (fun m => createMailItem_fresh_key db _ m K)).
    cbn. unfold isItemOf, ownedBy. cbn. rewrite Z.eqb_refl, String.eqb_refl. reflexivity.
  - apply getAllMailItems_scoped. cbn. split; [| reflexivity].
    apply in_or_app. right. left. reflexivity.
Qed.

Lemma createMailItem_keysFresh (ins : InsertMailItem) (now : Z)
    (db db' : Database) (item : MailItem) :
  keysFresh db ->
  createMailItem ins now db = Returns (db', item) -> keysFresh db'.
Proof.
  intros [Hnd Hlt]. unfold createMailItem.
  destruct (userExists db (ins_userId ins)); [| discriminate].
  intros [= <- <-]. split; cbn.
  - rewrite map_app. cbn. apply NoDup_app. split; [exact Hnd |]. split.
    + intros x Hx Hk. apply list_elem_of_In in Hk. destruct Hk as [<- | []].
      apply list_elem_of_In, in_map_iff in Hx. destruct Hx as (m & Hm & Hin).
      rewrite List.Forall_forall in Hlt. specialize (Hlt m Hin). lia.
    + apply NoDup_singleton.
  - apply Forall_app. split.
    + eapply Forall_impl; [exact Hlt |]. cbn. intros; lia.
    + constructor; [cbn; lia | constructor].
Qed.

Lemma twoUsers_keysFresh : keysFresh twoUsers.
Proof.
  split; cbn.
  - apply NoDup_cons. split; [intros H; apply list_elem_of_In in H; destruct H |].
    apply NoDup_nil. exact I.
  - constructor; [cbn; lia | constructor].
Qed.

(** X2: If the ids in the table are distinct and below the next value of
    the id sequence and createMailItem returns a row, then getMailItem
    finds exactly that row under its id for the inserting user, the row is
    in that user's listing, no other user can read it by that id, and it
    carries the inserted fields unchanged with the time of the insert as
    upload date. *)
Theorem created_item_can_be_read_back (ins : InsertMailItem) (now : Z)
    (db db' : Database) (item : MailItem) :
  keysFresh db ->
  createMailItem ins now db = Returns (db', item) ->
  getMailItem (id item) (ins_userId ins) db' = Some item
  /\ In item (getAllMailItems (ins_userId ins) db')
  /\ (forall other, other <> ins_userId ins ->
                    getMailItem (id item) other db' = None)
  /\ (userId item, title item, summary item, category item, reminderDate item,
      imageUrl item, fileName item, extractedText item)
     = (ins_userId ins, ins_title ins, ins_summary ins, ins_category ins,
        ins_reminderDate ins, ins_imageUrl ins, ins_fileName ins,
        ins_extractedText ins)
  /\ uploadDate item = now.
Proof.
  intros K C. destruct (createMailItem_lookup ins now db db' item K C) as [G L].
  split; [exact G |]. split; [exact L |].
  revert C. unfold createMailItem.
  destruct (userExists db (ins_userId ins)); [| discriminate].
  intros [= <- <-].
  split; [| split; reflexivity].
  intros other Hne. unfold getMailItem. cbn.
  rewrite List.filter_app, (filter_none _ _ (fun m => createMailItem_fresh_key db _ m K)).
  cbn. unfold isItemOf, ownedBy. cbn. rewrite Z.eqb_refl.
  destruct (String.eqb_spec (ins_userId ins) other); [congruence | reflexivity].
Qed.

Lemma created_item_witness :
  keysFresh twoUsers
  /\ createMailItem aliceInsert 1705838400000 twoUsers
     = Returns (afterDentist, dentistLetter)
  /\ getMailItem 2 "email_alice_example.org" afterDentist = Some dentistLetter
  /\ getMailItem 2 "google_1234" afterDentist = None.
Proof.
  split; [exact twoUsers_keysFresh |]. split; [reflexivity |].
  destruct (created_item_can_be_read_back aliceInsert 1705838400000 twoUsers
              afterDentist dentistLetter twoUsers_keysFresh eq_refl)
    as (G & _ & O & _).
  split; [exact G |]. apply O. discriminate.
Defined.







Lemma filter_negb_none {A} (p : A -> bool) (l : list A) :
  List.filter p l = [] -> List.filter (fun x => negb (p x)) l = l.
Proof.
  intros H. apply filter_all. intros x Hx.
  destruct (p x) eqn:E; [| reflexivity].
  assert (X : In x (List.filter p l)) by (apply filter_In; tauto).
  rewrite H in X. destruct X.
Qed.

Lemma filter_filter_negb {A} (p : A -> bool) (l : list A) :
  List.filter p (List.filter (fun x => negb (p x)) l) = [].
Proof.
  apply filter_none. intros x Hx. apply filter_In in Hx.
  destruct (p x); [destruct Hx as [_ Hx]; discriminate Hx | reflexivity].
Qed.

(** X4: deleteMailItem answers true exactly when the caller owns a row
    with that id. Afterwards that id can no longer be read by the caller,
    a second delete answers false, exactly the rows with that id and that
    owner are gone (users and id sequence untouched), and a delete that
    answers false leaves the database as it was. *)
Theorem delete_removes_only_the_callers_item (i : Z) (uid : string) (db : Database) :
  let after := (deleteMailItem i uid db).1 in
  ((deleteMailItem i uid db).2 = true <-> exists m, getMailItem i uid db = Some m)
  /\ getMailItem i uid after = None
  /\ ((deleteMailItem i uid db).2 = false -> after = db)
  /\ deleteMailItem i uid after = (after, false)
  /\ (forall m, In m (mailItems after) <->
                In m (mailItems db) /\ ~ (id m = i /\ userId m = uid))
  /\ users after = users db /\ nextId after = nextId db.
Proof.
  cbv zeta. unfold deleteMailItem, getMailItem. cbn [fst snd mailItems users nextId].
  split.
  { destruct (List.filter (isItemOf i uid) (mailItems db)) as [| m l]; cbn.
    - split; [discriminate | intros [m [=]]].
    - split; [eauto | reflexivity]. }
  split.
  { rewrite filter_filter_negb. reflexivity. }
  split.
  { intros H. destruct (List.filter (isItemOf i uid) (mailItems db)) eqn:F;
      [| discriminate H].
    rewrite (filter_negb_none _ _ F). apply database_eta. }
  split.
  { rewrite filter_filter_negb. cbn. f_equal. f_equal.
    apply filter_all. intros x Hx. apply filter_In in Hx. tauto. }
  split; [| split; reflexivity].
  intros m. rewrite filter_In, negb_true_iff, <- not_true_iff_false, isItemOf_true.
  tauto.
Qed.

(** X5: deleteAllMailItems returns the number of rows the user had, leaves
    that user's listing empty, and leaves every other user's listing and
    the users table unchanged. *)
Theorem deleteAll_empties_one_mailbox (uid : string) (db : Database) :
  let after := (deleteAllMailItems uid db).1 in
  (deleteAllMailItems uid db).2 = length (getAllMailItems uid db)
  /\ getAllMailItems uid after = []
  /\ (forall other, other <> uid ->
        getAllMailItems other after = getAllMailItems other db)
  /\ users after = users db.
Proof.
  cbv zeta. split.
  { unfold deleteAllMailItems, getAllMailItems. cbn.
    rewrite (Permutation_length (newestFirst_perm _)). reflexivity. }
  split.
  { unfold deleteAllMailItems, getAllMailItems. cbn.
    rewrite filter_filter_negb. reflexivity. }
  split; [| reflexivity].
  intros other Hne. unfold getAllMailItems.
  rewrite (deleteAllMailItems_others uid other db Hne). reflexivity.
Qed.








End StorageMore.

(** ** Search patterns *)

Module SearchFacts.
Import JS Storage StorageFacts StorageConditions Scenarios MoreScenarios.

Lemma like_percent_step (rest s : string) :
  like (String "%" rest) s
  = like rest s || match s with
                   | EmptyString => false
                   | String _ s' => like (String "%" rest) s'
                   end.
Proof. destruct s; reflexivity. Qed.

Lemma like_percent_all (s : string) : like "%" s = true.
Proof.
  induction s as [| c s IH]; [reflexivity |].
  rewrite like_percent_step. rewrite IH. apply orb_true_r.
Qed.

Lemma like_percent_more (rest : string) :
  (forall t, like rest t = true) -> forall s, like (String "%" rest) s = true.
Proof. intros H s. rewrite like_percent_step, H. reflexivity. Qed.

Lemma like_literal_prefix (p s : string) :
  literalQuery p = true -> like (p +:+ "%") s = startsWith s p.
Proof.
  revert s. induction p as [| c p IH]; intros s H.
  - change ("" +:+ "%") with "%"%string.
    rewrite like_percent_all. destruct s; reflexivity.
  - unfold literalQuery, all_chars in H. cbn in H. apply andb_true_iff in H.
    destruct H as [Hc Hp]. unfold isWildcard in Hc.
    apply negb_true_iff, orb_false_iff in Hc. destruct Hc as [Hc H3].
    apply orb_false_iff in Hc. destruct Hc as [H1 H2].
    change (String c p +:+ "%") with (String c (p +:+ "%")).
    cbn [like]. rewrite H1, H2, H3.
    destruct s as [| d s]; [reflexivity |]. cbn [startsWith].
    rewrite (IH s Hp). reflexivity.
Qed.

(** With a literal query the pattern [%query%] is a substring test. *)
Lemma like_literal_contains (q s : string) :
  literalQuery q = true -> like ("%" +:+ q +:+ "%") s = includes s q.
Proof.
  intros H. change ("%" +:+ q +:+ "%") with (String "%" (q +:+ "%")).
  induction s as [| c s IH].
  - rewrite like_percent_step, (like_literal_prefix q _ H).
    cbn [includes]. destruct (startsWith "" q); reflexivity.
  - rewrite like_percent_step, (like_literal_prefix q _ H), IH.
    cbn [includes]. destruct (startsWith (String c s) q); reflexivity.
Qed.

Lemma toLowerCase_app (a b : string) :
  toLowerCase (a +:+ b) = toLowerCase a +:+ toLowerCase b.
Proof.
  induction a as [| c a IH]; [reflexivity |].
  change (String c a +:+ b) with (String c (a +:+ b)).
  cbn [toLowerCase]. rewrite IH. reflexivity.
Qed.

Lemma lower_ascii_wildcard (c : ascii) : isWildcard (lower_ascii c) = isWildcard c.
Proof. destruct c as [[] [] [] [] [] [] [] []]; reflexivity. Qed.

Lemma literalQuery_lower (q : string) :
  literalQuery (toLowerCase q) = literalQuery q.
Proof.
  unfold literalQuery, all_chars. induction q as [| c q IH]; cbn; [reflexivity |].
  rewrite lower_ascii_wildcard. f_equal. exact IH.
Qed.

Lemma lower_ascii_idem (c : ascii) : lower_ascii (lower_ascii c) = lower_ascii c.
Proof. destruct c as [[] [] [] [] [] [] [] []]; reflexivity. Qed.

Lemma toLowerCase_idem (s : string) : toLowerCase (toLowerCase s) = toLowerCase s.
Proof.
  induction s as [| c s IH]; cbn; [reflexivity |].
  rewrite lower_ascii_idem, IH. reflexivity.
Qed.

Lemma ilike_literal (col : option string) (q : string) :
  literalQuery q = true ->
  ilike col ("%" +:+ q +:+ "%")
  = match col with
    | Some s => includes (toLowerCase s) (toLowerCase q)
    | None => false
    end.
Proof.
  intros H. destruct col as [s |]; [| reflexivity]. unfold ilike.
  rewrite !toLowerCase_app. change (toLowerCase "%") with "%"%string.
  apply like_literal_contains. rewrite literalQuery_lower. exact H.
Qed.

(** X8: For a query without the LIKE characters %, _ and backslash,
    searchMailItems returns exactly the caller's rows whose title,
    summary, category or extracted text contains the query, ASCII letter
    case ignored; a row without extracted text can match through the other
    three columns only; and lower-casing the query does not change the
    result. *)
Theorem search_is_case_insensitive_substring_match
    (query uid : string) (db : Database) (m : MailItem) :
  literalQuery query = true ->
  (In m (searchMailItems query uid db) <->
   In m (mailItems db) /\ userId m = uid
   /\ (includes (toLowerCase (title m)) (toLowerCase query) = true
       \/ includes (toLowerCase (summary m)) (toLowerCase query) = true
       \/ includes (toLowerCase (category m)) (toLowerCase query) = true
       \/ exists text, extractedText m = Some text
                       /\ includes (toLowerCase text) (toLowerCase query) = true))
  /\ searchMailItems (toLowerCase query) uid db = searchMailItems query uid db.
Proof.
  intros H. split.
  - unfold searchMailItems. rewrite In_newestFirst, filter_In, andb_true_iff, ownedBy_true.
    unfold matchesQuery. rewrite !(ilike_literal _ _ H), !orb_true_iff.
    destruct (extractedText m) as [text |].
    + split.
      * intros (Hin & Hu & [[[Ht | Hs] | Hc] | Hx]); repeat split; eauto 6.
      * intros (Hin & Hu & [Ht | [Hs | [Hc | (t & [= <-] & Hx)]]]); tauto.
    + split.
      * intros (Hin & Hu & [[[Ht | Hs] | Hc] | Hx]); try discriminate; tauto.
      * intros (Hin & Hu & [Ht | [Hs | [Hc | (t & [=] & Hx)]]]); tauto.
  - unfold searchMailItems. f_equal. apply filter_ext. intros x. f_equal.
    unfold matchesQuery, ilike.
    rewrite !toLowerCase_app, toLowerCase_idem. reflexivity.
Qed.

Lemma search_witness :
  literalQuery "TAX" = true
  /\ In aliceLetter (searchMailItems "TAX" "email_alice_example.org" twoUsers).
Proof.
  split; [reflexivity |].
  apply (proj1 (search_is_case_insensitive_substring_match
                  "TAX" "email_alice_example.org" twoUsers aliceLetter eq_refl)).
  split; [left; reflexivity |]. split; [reflexivity |]. left. reflexivity.
Defined.

(** X9: The empty query and the query % both make searchMailItems return
    the user's whole listing: the query is pasted into the pattern
    unescaped, so a % in it is a wildcard. *)
Theorem empty_and_percent_queries_list_everything (uid : string) (db : Database) :
  searchMailItems "" uid db = getAllMailItems uid db
  /\ searchMailItems "%" uid db = getAllMailItems uid db.
Proof.
  unfold searchMailItems, getAllMailItems.
  split; f_equal; apply filter_ext; intros m;
    unfold matchesQuery, ilike;
    change (toLowerCase ("%" +:+ "" +:+ "%")) with "%%"%string;
    change (toLowerCase ("%" +:+ "%" +:+ "%")) with "%%%"%string;
    rewrite (like_percent_more _ (like_percent_more _ like_percent_all)
               (toLowerCase (title m))) ||
    rewrite (like_percent_more _ like_percent_all (toLowerCase (title m)));
    cbn [orb]; apply andb_true_r.
Qed.

End SearchFacts.

(** ** More on the endpoints *)

Module RouteMore.
Import JS Storage Routes StorageFacts StorageConditions RouteFacts StorageMore.
Import Scenarios MoreScenarios.

Lemma refusal_status (c : Credentials) (db : Database) (refusal : Response) :
  authenticateToken c db = inl refusal ->
  (status refusal = 401%Z \/ status refusal = 403%Z) /\ rowsOf refusal = [].
Proof.
  destruct c as [| | d]; cbn.
  - intros [= <-]. cbn. tauto.
  - intros [= <-]. cbn. tauto.
  - destruct (getUser d db); [discriminate |]. intros [= <-]. cbn. tauto.
Qed.

(** X10: When authenticateToken refuses a request (no token, a token that
    does not verify, or the token of a user that no longer exists), the
    refusal has status 401 or 403 and carries no rows, and the list, get,
    patch, delete and upload endpoints answer exactly that refusal and
    leave the database unchanged; the upload writes nothing to the log. *)
Theorem refused_requests_change_nothing (c : Credentials) (db : Database)
    (refusal : Response) :
  authenticateToken c db = inl refusal ->
  (status refusal = 401%Z \/ status refusal = 403%Z)
  /\ rowsOf refusal = []
  /\ listMailItems c db = (db, refusal)
  /\ (forall i, fetchMailItem c i db = (db, refusal))
  /\ (forall i updates, patchMailItem c i updates db = (db, refusal))
  /\ (forall i, removeMailItem c i db = (db, refusal))
  /\ (forall ai pf zone now file,
        uploadMailItem ai pf zone now c file db = (db, refusal, [])).
Proof.
  intros A. destruct (refusal_status c db refusal A) as [S R].
  unfold listMailItems, fetchMailItem, patchMailItem, removeMailItem,
    uploadMailItem, protected.
  rewrite A. repeat split; try assumption; reflexivity.
Qed.

Lemma refused_request_witness :
  authenticateToken InvalidToken twoUsers
  = inl {| status := 403; body := ErrorBody "Invalid or expired token" |}
  /\ removeMailItem InvalidToken 1 twoUsers
     = (twoUsers, {| status := 403; body := ErrorBody "Invalid or expired token" |}).
Proof.
  split; [reflexivity |].
  destruct (refused_requests_change_nothing InvalidToken twoUsers _ eq_refl)
    as (_ & _ & _ & _ & _ & R & _).
  exact (R 1%Z).
Defined.

Lemma authenticateToken_refuses (c : Credentials) (db : Database) :
  (c = NoToken \/ c = InvalidToken
   \/ exists uid, c = TokenFor uid /\ getUser uid db = None) ->
  exists refusal, authenticateToken c db = inl refusal.
Proof.
  intros [-> | [-> | (uid & -> & H)]]; cbn; eauto. rewrite H. eauto.
Qed.





Lemma authenticated_user_exists (c : Credentials) (db : Database) (uid : string) :
  authenticateToken c db = inr uid -> userExists db uid = true.
Proof.
  destruct c as [| | d]; cbn; try discriminate.
  destruct (getUser d db) as [u |] eqn:G; [| discriminate]. intros [= <-].
  unfold getUser in G. apply head_In, filter_In in G. destruct G as [Hin E].
  unfold userExists. apply existsb_exists. exists u. split; [exact Hin |].
  apply String.eqb_refl.
Qed.

Lemma authenticateToken_users (c : Credentials) (db db' : Database) :
  users db' = users db -> authenticateToken c db' = authenticateToken c db.
Proof.
  intros H. destruct c; cbn; try reflexivity. unfold getUser. rewrite H. reflexivity.
Qed.

Lemma triple_eta {A B C} (x : A * B * C) : x = (x.1.1, x.1.2, x.2).
Proof. destruct x as [[a b] c]. reflexivity. Qed.

(** X12: When POST /api/mail-items answers 201, its body is the stored
    item, a GET of that item's id with the same credentials answers 200
    with the same item, the item is in the caller's listing, and the ids
    of the table are still distinct and below the sequence. *)
Theorem uploaded_item_can_be_fetched (ai : AIService.Externals)
    (pf : EmailService.Platform) (zone : JSDate.TimeZone) (now : Z) (c : Credentials)
    (file : option UploadedFile) (db db' : Database) (resp : Response)
    (log : list EmailService.LogEntry) :
  keysFresh db ->
  uploadMailItem ai pf zone now c file db = (db', resp, log) ->
  status resp = 201%Z ->
  exists item,
    body resp = Item item
    /\ fetchMailItem c (id item) db' = (db', {| status := 200; body := Item item |})
    /\ In item (rowsOf (listMailItems c db').2)
    /\ keysFresh db'.
Proof.
  intros K. unfold uploadMailItem.
  destruct (authenticateToken c db) as [refusal | uid] eqn:A.
  { intros [= <- <- <-] S. destruct (refusal_status _ _ _ A) as [[X | X] _]; lia. }
  destruct file as [f |]; [| intros [= <- <- <-]; discriminate].
  destruct (AIService.analyzeDocument ai zone now (file_path f) (file_originalname f))
    as [r | e]; cbn [mbind outcome_bind]; [| intros [= <- <- <-]; discriminate].
  destruct (parseInsert uid r f) as [ins |] eqn:P; cbn [mbind outcome_bind];
    [| intros [= <- <- <-]; discriminate].
  destruct (createMailItem ins now db) as [[db1 item] | e] eqn:C;
    [| intros [= <- <- <-]; discriminate].
  intros [= <- <- <-] _.
  assert (Hu : ins_userId ins = uid).
  { revert P. unfold parseInsert.
    destruct (AIService.title r), (AIService.summary r),
      (js_or (AIService.reminderDate r) JNull); try discriminate;
      intros [= <-]; reflexivity. }
  destruct (createMailItem_lookup ins now db db1 item K C) as [G L].
  pose proof (createMailItem_keysFresh ins now db db1 item K C) as K'.
  rewrite Hu in G, L.
  assert (A' : authenticateToken c db1 = inr uid).
  { rewrite (authenticateToken_users c db db1); [exact A |].
    revert C. unfold createMailItem.
    destruct (userExists db (ins_userId ins)); [| discriminate].
    intros [= <- _]. reflexivity. }
  exists item. split; [reflexivity |].
  unfold fetchMailItem, listMailItems, protected. rewrite A', G.
  split; [reflexivity |]. split; [exact L | exact K'].
Qed.

Lemma uploaded_item_witness :
  keysFresh twoUsers
  /\ status councilUploadAnswer.1.2 = 201%Z
  /\ exists item,
       body councilUploadAnswer.1.2 = Item item
       /\ fetchMailItem (TokenFor "email_alice_example.org") (id item)
            councilUploadAnswer.1.1
          = (councilUploadAnswer.1.1, {| status := 200; body := Item item |}).
Proof.
  split; [exact twoUsers_keysFresh |]. split; [reflexivity |].
  destruct (uploaded_item_can_be_fetched missingFile noAttachment utc 1705838400000
              (TokenFor "email_alice_example.org") (Some councilUpload) twoUsers
              _ _ _ twoUsers_keysFresh (triple_eta councilUploadAnswer) eq_refl)
    as (item & B & F & _).
  exists item. split; [exact B | exact F].
Defined.

(** X13: When the analysis of an uploaded file throws (AI service or file
    error), an authenticated upload still answers 201 and appends exactly
    one row, built from the file-name fallback: owner the caller, id the
    next value of the sequence, title, summary, category and reminder of
    the fallback, image URL /uploads/ followed by the stored name, file
    name the original name, upload date the time of the request. *)
Theorem upload_succeeds_when_analysis_fails (ai : AIService.Externals)
    (pf : EmailService.Platform) (zone : JSDate.TimeZone) (now : Z) (c : Credentials) (uid : string)
    (f : UploadedFile) (db : Database) (e : Thrown) :
  authenticateToken c db = inr uid ->
  AIService.analyzeBody ai now (file_path f) (file_originalname f) = Throws e ->
  let r := AIService.generateEnhancedFallback zone now (file_originalname f) e in
  exists db' item title summary,
    (uploadMailItem ai pf zone now c (Some f) db).1
    = (db', {| status := 201; body := Item item |})
    /\ mailItems db' = mailItems db ++ [item]
    /\ AIService.title r = JStr title /\ AIService.summary r = JStr summary
    /\ item = {| id := nextId db; userId := uid; title := title;
                 summary := summary; category := AIService.category r;
                 reminderDate := match AIService.reminderDate r with
                                 | JStr d => Some d
                                 | _ => None
                                 end;
                 imageUrl := "/uploads/" +:+ file_filename f;
                 fileName := file_originalname f;
                 extractedText := Some (AIService.extractedText r);
                 uploadDate := now |}.
Proof.
  intros A B. cbv zeta.
  pose proof (FallbackFacts.fallback_shape zone now (file_originalname f) e) as S.
  cbv zeta in S. destruct S as (Ht & Hs & _ & _ & _ & Hr & _).
  pose proof (FallbackFacts.classify_wellFormed zone now (file_originalname f)) as W.
  cbv zeta in W. destruct W as [_ W].
  unfold uploadMailItem. rewrite A.
  unfold AIService.analyzeDocument. rewrite B. cbn [try_catch mbind outcome_bind].
  unfold parseInsert. rewrite Ht, Hs, Hr.
  destruct W as [-> | ->]; unfold js_or, truthy;
    [| destruct (String.eqb_spec (AIService.reminderIn14Days zone now) "") as [E | E];
       cbn [negb]].
  1,3: cbn [mbind outcome_bind]; unfold createMailItem; cbn [ins_userId];
       rewrite (authenticated_user_exists c db uid A); cbn;
       eexists _, _, _, _; repeat split; reflexivity.
  exfalso. rewrite FallbackFacts.reminderIn14Days_eq in E. revert E.
  unfold JSDate.isoDate, JSDate.isoYear.
  destruct (_ && _); [| destruct (_ <? _)%Z]; discriminate.
Qed.

Lemma upload_fallback_witness :
  authenticateToken (TokenFor "email_alice_example.org") twoUsers
  = inr "email_alice_example.org"%string
  /\ AIService.analyzeBody missingFile 1705838400000
       (file_path councilUpload) (file_originalname councilUpload)
     = Throws (JsError "429 You exceeded your current quota")
  /\ exists db' item,
       councilUploadAnswer.1 = (db', {| status := 201; body := Item item |})
       /\ mailItems db' = [aliceLetter; item].
Proof.
  split; [reflexivity |]. split; [reflexivity |].
  destruct (upload_succeeds_when_analysis_fails missingFile noAttachment utc
              1705838400000 (TokenFor "email_alice_example.org")
              "email_alice_example.org" councilUpload twoUsers
              (JsError "429 You exceeded your current quota") eq_refl eq_refl)
    as (db' & item & t & s & U & M & _).
  exists db', item. split; [exact U | exact M].
Defined.

End RouteMore.

(** ** More on the OAuth state map *)

Module AuthMore.
Import JS Auth AuthFacts MoreScenarios.
Local Open Scope Z_scope.

Lemma verifyOAuthState_true_iff (s : string) (now : Z) (m : gmap string StateInfo) :
  (verifyOAuthState s now m).2 = true <->
  exists info, m !! s = Some info /\ now - 300000 <= timestamp info.
Proof.
  unfold verifyOAuthState. replace (5 * 60 * 1000) with 300000 by reflexivity.
  destruct (m !! s) as [info |] eqn:E.
  - destruct (Z.ltb_spec (timestamp info) (now - 300000)); cbn [fst snd].
    + split; [discriminate | intros (i & [= <-] & H'); lia].
    + split; [eauto | reflexivity].
  - cbn [fst snd]. split; [discriminate | intros (i & [=] & _)].
Qed.

(** X14: verifyOAuthState answers true exactly when the state is in the
    map with a timestamp not more than five minutes old; in every case the
    state is absent from the map afterwards and no other state is touched. *)
Theorem verify_accepts_fresh_states_only (s : string) (now : Z)
    (m : gmap string StateInfo) :
  ((verifyOAuthState s now m).2 = true <->
   exists info, m !! s = Some info /\ now - 300000 <= timestamp info)
  /\ (verifyOAuthState s now m).1 = delete s m
  /\ (forall k, k <> s -> (verifyOAuthState s now m).1 !! k = m !! k).
Proof.
  split; [apply verifyOAuthState_true_iff |].
  unfold verifyOAuthState.
  destruct (m !! s) as [info |] eqn:E.
  - destruct (timestamp info <? now - 5 * 60 * 1000); cbn [fst snd];
      (split; [reflexivity |]); intros k Hk; apply lookup_delete_ne; congruence.
  - cbn [fst snd]. split; [symmetry; apply delete_id; exact E | reflexivity].
Qed.

(** X15: A state issued by generateOAuthState is accepted by
    verifyOAuthState when it is checked within five minutes of its
    timestamp (and the sweep of the issuing call ran less than ten minutes
    after that timestamp); the check removes it from the map. *)
Theorem issued_state_verifies_within_five_minutes (random : string)
    (t1 t2 t3 now : Z) (m : gmap string StateInfo) :
  t3 - 600000 <= t2 ->
  now - 300000 <= t2 ->
  let issuedState := generateOAuthState random t1 t2 t3 m in
  verifyOAuthState issuedState.2 now issuedState.1
  = (delete issuedState.2 issuedState.1, true).
Proof.
  intros H3 Hn. cbv zeta.
  assert (L : (generateOAuthState random t1 t2 t3 m).1
                !! (generateOAuthState random t1 t2 t3 m).2
              = Some {| timestamp := t2 |}).
  { apply lookup_after_generate. split; [exact H3 |].
    rewrite decide_True by reflexivity. reflexivity. }
  unfold verifyOAuthState at 1. rewrite L. cbn [timestamp].
  replace (5 * 60 * 1000) with 300000 by reflexivity.
  destruct (Z.ltb_spec t2 (now - 300000)); [lia | reflexivity].
Qed.

Lemma issued_state_witness :
  1705752000120 - 600000 <= 1705752000000
  /\ 1705752240000 - 300000 <= 1705752000000
  /\ (verifyOAuthState
        (generateOAuthState "k3j2x" 1705752000000 1705752000000 1705752000120 ∅).2
        1705752240000
        (generateOAuthState "k3j2x" 1705752000000 1705752000000 1705752000120 ∅).1).2
     = true.
Proof.
  split; [lia |]. split; [lia |].
  rewrite (issued_state_verifies_within_five_minutes "k3j2x" 1705752000000
             1705752000000 1705752000120 1705752240000 ∅ ltac:(lia) ltac:(lia)).
  reflexivity.
Defined.

(** X16: The sweep at the end of generateOAuthState never changes the
    answer of a later verifyOAuthState for another state: what it drops
    (older than ten minutes) would be rejected (older than five minutes)
    anyway, as long as the clock of the verification is not more than five
    minutes behind the clock of the sweep. *)
Theorem sweep_drops_no_state_that_could_still_verify (random : string)
    (t1 t2 t3 now : Z) (m : gmap string StateInfo) (k : string) :
  let after := (generateOAuthState random t1 t2 t3 m).1 in
  k <> (generateOAuthState random t1 t2 t3 m).2 ->
  t3 <= now + 300000 ->
  (verifyOAuthState k now after).2 = (verifyOAuthState k now m).2.
Proof.
  cbv zeta. intros Hk Hn.
  pose proof (verifyOAuthState_true_iff k now m) as Vm.
  pose proof (verifyOAuthState_true_iff k now
                (generateOAuthState random t1 t2 t3 m).1) as Va.
  apply eq_true_iff_eq. rewrite Vm, Va. split.
  - intros (info & L & H). apply lookup_after_generate in L.
    rewrite decide_False in L by exact Hk. exists info. tauto.
  - intros (info & L & H). exists info. split; [| exact H].
    apply lookup_after_generate. rewrite decide_False by exact Hk.
    split; [lia | exact L].
Qed.

Lemma sweep_witness :
  "q9z1lrl8o2o0"%string
  <> (generateOAuthState "k3j2x" 1705752060000 1705752060000 1705752060000 oneState).2
  /\ 1705752060000 <= 1705752120000 + 300000
  /\ (verifyOAuthState "q9z1lrl8o2o0" 1705752120000
        (generateOAuthState "k3j2x" 1705752060000 1705752060000 1705752060000
           oneState).1).2
     = (verifyOAuthState "q9z1lrl8o2o0" 1705752120000 oneState).2.
Proof.
  assert (N : "q9z1lrl8o2o0"%string
              <> (generateOAuthState "k3j2x" 1705752060000 1705752060000
                    1705752060000 oneState).2)
    by (intros H; vm_compute in H; discriminate H).
  split; [exact N |]. split; [lia |].
  exact (sweep_drops_no_state_that_could_still_verify "k3j2x" 1705752060000
           1705752060000 1705752060000 1705752120000 oneState "q9z1lrl8o2o0"
           N ltac:(lia)).
Defined.

End AuthMore.

(** ** Provider detection and automatic setup *)

Module ProviderFacts.
Import JS EmailProviders AddressConditions.

Lemma secondPart_none (s : string) : noAt s = true -> secondPart "@" s = None.
Proof.
  unfold noAt, all_chars. induction s as [| c s IH]; cbn; [reflexivity |].
  destruct (Ascii.eqb c "@"); cbn; [discriminate | exact IH].
Qed.

Lemma beforeFirst_noAt (s rest : string) :
  noAt s = true -> beforeFirst "@" (s +:+ String "@" rest) = s.
Proof.
  unfold noAt, all_chars. induction s as [| c s IH]; cbn.
  - reflexivity.
  - destruct (Ascii.eqb c "@") eqn:E; cbn; [discriminate |].
    intros H. change (String c s +:+ String "@" rest) with (String c (s +:+ String "@" rest)).
    cbn [beforeFirst]. rewrite E, (IH H). reflexivity.
Qed.

Lemma beforeFirst_noAt_end (s : string) : noAt s = true -> beforeFirst "@" s = s.
Proof.
  unfold noAt, all_chars. induction s as [| c s IH]; cbn; [reflexivity |].
  destruct (Ascii.eqb c "@") eqn:E; cbn; [discriminate |].
  intros H. rewrite (IH H). reflexivity.
Qed.

Lemma secondPart_address (l d : string) :
  noAt l = true -> noAt d = true -> secondPart "@" (l +:+ "@" +:+ d) = Some d.
Proof.
  intros Hl Hd. unfold noAt, all_chars in Hl. induction l as [| c l IH].
  - change ("" +:+ "@" +:+ d) with (String "@" d). cbn [secondPart].
    change (Ascii.eqb "@" "@") with true. cbv iota.
    rewrite (beforeFirst_noAt_end d Hd). reflexivity.
  - cbn in Hl. destruct (Ascii.eqb c "@") eqn:E; cbn in Hl; [discriminate |].
    change (String c l +:+ "@" +:+ d) with (String c (l +:+ "@" +:+ d)).
    cbn [secondPart]. rewrite E. exact (IH Hl).
Qed.

Lemma secondPart_address_more (l d rest : string) :
  noAt l = true -> noAt d = true ->
  secondPart "@" (l +:+ "@" +:+ d +:+ "@" +:+ rest) = Some d.
Proof.
  intros Hl Hd. unfold noAt, all_chars in Hl. induction l as [| c l IH].
  - change ("" +:+ "@" +:+ d +:+ "@" +:+ rest)
      with (String "@" (d +:+ String "@" rest)).
    cbn [secondPart]. change (Ascii.eqb "@" "@") with true. cbv iota.
    rewrite (beforeFirst_noAt d rest Hd). reflexivity.
  - cbn in Hl. destruct (Ascii.eqb c "@") eqn:E; cbn in Hl; [discriminate |].
    change (String c l +:+ "@" +:+ d +:+ "@" +:+ rest)
      with (String c (l +:+ "@" +:+ d +:+ "@" +:+ rest)).
    cbn [secondPart]. rewrite E. exact (IH Hl).
Qed.

(** X17: detectEmailProvider finds no provider for an address without @;
    for local@domain the answer depends on the lower-cased domain only;
    and whatever follows a second @ is ignored. *)
Theorem provider_detection_reads_the_domain_only :
  (forall email, noAt email = true -> detectEmailProvider email = None)
  /\ (forall l d, noAt l = true -> noAt d = true ->
        detectEmailProvider (l +:+ "@" +:+ d)
        = detectEmailProvider ("@" +:+ toLowerCase d))
  /\ (forall l d rest, noAt l = true -> noAt d = true ->
        detectEmailProvider (l +:+ "@" +:+ d +:+ "@" +:+ rest)
        = detectEmailProvider (l +:+ "@" +:+ d)).
Proof.
  split.
  { intros email H. unfold detectEmailProvider. rewrite (secondPart_none _ H).
    reflexivity. }
  assert (L : forall s, noAt s = true -> noAt (toLowerCase s) = true).
  { unfold noAt, all_chars. induction s as [| c s IH]; cbn; [reflexivity |].
    intros H. apply andb_true_iff in H. destruct H as [Hc Hs].
    rewrite (IH Hs), andb_true_r.
    destruct c as [[] [] [] [] [] [] [] []]; try reflexivity; discriminate Hc. }
  split.
  - intros l d Hl Hd. unfold detectEmailProvider.
    rewrite (secondPart_address l d Hl Hd).
    change ("@" +:+ toLowerCase d) with (String "@" (toLowerCase d)).
    cbn [secondPart]. change (Ascii.eqb "@" "@") with true. cbv iota.
    rewrite (beforeFirst_noAt_end _ (L d Hd)), SearchFacts.toLowerCase_idem.
    reflexivity.
  - intros l d rest Hl Hd. unfold detectEmailProvider.
    rewrite (secondPart_address l d Hl Hd), (secondPart_address_more l d rest Hl Hd).
    reflexivity.
Qed.

Lemma detected_provider (email : string) (p : EmailProvider) :
  detectEmailProvider email = Some p ->
  p = gmail \/ p = outlook \/ p = yahoo \/ p = icloud.
Proof.
  unfold detectEmailProvider. destruct (secondPart "@" email); [| discriminate].
  repeat match goal with
         | |- context [if ?b then _ else _] => destruct b
         end; intros [= <-]; tauto.
Qed.

Lemma detected_address_nonempty (email : string) (p : EmailProvider) :
  detectEmailProvider email = Some p -> email <> ""%string.
Proof. intros H ->. discriminate H. Qed.

(** X18: attemptAutoEmailSetup succeeds exactly when the user has an
    address, a non-empty password is given, the address is detected as
    Outlook/Hotmail (the only provider with plain password authentication)
    and the SMTP verification with that address and password succeeds. On
    success the saved configuration is Outlook's host, port 587, not
    secure, with the address as user; on failure no configuration is
    returned. *)
Theorem auto_setup_succeeds_for_password_providers_only
    (verify : TransportOptions -> Outcome unit) (email password : option string) :
  let result := attemptAutoEmailSetup verify email password in
  (success result = true <->
   exists address pass,
     email = Some address /\ password = Some pass /\ pass <> ""%string
     /\ detectEmailProvider address = Some outlook
     /\ verify {| to_config := {| ac_host := "smtp-mail.outlook.com"; ac_port := 587;
                                  ac_secure := false;
                                  ac_service := "outlook/hotmail" |};
                  to_user := address; to_pass := pass |} = Returns tt)
  /\ (success result = true ->
      exists address,
        email = Some address
        /\ saved result = Some {| sc_host := "smtp-mail.outlook.com"; sc_port := 587;
                                  sc_secure := false; sc_user := address |})
  /\ (success result = false -> saved result = None).
Proof.
  cbv zeta. unfold attemptAutoEmailSetup, getAutoEmailConfig.
  destruct email as [address |];
    [| cbn; repeat split; try discriminate; try reflexivity;
       intros (a & p & [=] & _)].
  destruct (String.eqb_spec address "") as [-> | Hne].
  { cbn. repeat split; try discriminate; try reflexivity.
    intros (a & p & [= <-] & _ & _ & D & _). discriminate D. }
  unfold getEmailSetupInstructions.
  destruct (detectEmailProvider address) as [p |] eqn:D;
    [| cbn; repeat split; try discriminate; try reflexivity;
       intros (a & q & [= <-] & _ & _ & D' & _); congruence].
  destruct (detected_provider _ _ D) as [-> | [-> | [-> | ->]]]; cbn -[toLowerCase];
    try change (toLowerCase "Outlook/Hotmail") with "outlook/hotmail"%string.
  1,3,4: repeat split; try discriminate; try reflexivity;
         intros (a & q & [= <-] & _ & _ & D' & _); rewrite D in D';
         injection D' as D'; discriminate D'.
  destruct password as [[| c pass] |]; cbn -[toLowerCase].
  1,3: repeat split; try discriminate; try reflexivity;
       intros (a & q & _ & [=] & Hq & _); try contradiction; congruence.
  destruct (verify _) as [[] | e] eqn:V; cbn -[toLowerCase].
  - split; [split; [intros _; exists address, (String c pass);
                      split; [reflexivity |]; split; [reflexivity |];
                      split; [discriminate |]; split; [exact D | exact V]
                   | reflexivity] |].
    split; [intros _; exists address; split; reflexivity | discriminate].
  - split; [split; [discriminate |] |].
    + intros (a & q & [= <-] & [= <-] & _ & _ & V'). congruence.
    + split; [discriminate | reflexivity].
Qed.

End ProviderFacts.

(** ** More on the analyzer *)

Module AnalyzerMore.
Import JS AIService FallbackSpec FallbackFacts Scenarios MoreScenarios.

(** X19: The fallback result has a reminder date exactly when the
    lower-cased file name contains council, tax, bill or invoice; for
    every other file name the reminder is undefined. The date is the UTC
    date of the instant at which the local clock shows the time of the
    call fourteen days later; when the zone reads that local time with the
    offset in force at the call, this is the date fourteen days after the
    call. *)
Theorem only_the_bill_tax_group_sets_a_reminder
    (zone : JSDate.TimeZone) (now : Z) (fileName : string) (error : Thrown) :
  let billGroup :=
    groupMatches (toLowerCase fileName) ["council"; "tax"; "bill"; "invoice"]%string in
  reminderDate (generateEnhancedFallback zone now fileName error)
  = (if billGroup
     then JStr (JSDate.isoDate
                  (JSDate.UTC zone (JSDate.LocalTime zone now + 14 * JSDate.msPerDay)))
     else JUndefined)
  /\ (billGroup = true -> ZoneConditions.sameOffsetIn14Days zone now ->
      reminderDate (generateEnhancedFallback zone now fileName error)
      = JStr (JSDate.isoDate (now + 14 * JSDate.msPerDay))).
Proof.
  cbv zeta.
  assert (G : reminderDate (generateEnhancedFallback zone now fileName error)
              = if groupMatches (toLowerCase fileName)
                     ["council"; "tax"; "bill"; "invoice"]%string
                then JStr (reminderIn14Days zone now) else JUndefined).
  { pose proof (fallback_shape zone now fileName error) as S. cbv zeta in S.
    destruct S as (_ & _ & _ & _ & _ & -> & _).
    unfold classifyFileName, groupMatches, existsb.
    generalize (toLowerCase fileName) as l. intros l.
    split_includes. }
  split.
  - rewrite G, reminderIn14Days_eq. reflexivity.
  - intros B S. rewrite G, B, (reminderIn14Days_steady zone now S). reflexivity.
Qed.

(** X20: Two file names that are equal after lower-casing get the same
    category, the same summary and the same reminder date from the
    fallback classifier (for the same error and time). *)
Theorem classification_ignores_letter_case
    (zone : JSDate.TimeZone) (now : Z) (name1 name2 : string) (error : Thrown) :
  toLowerCase name1 = toLowerCase name2 ->
  let r1 := generateEnhancedFallback zone now name1 error in
  let r2 := generateEnhancedFallback zone now name2 error in
  category r1 = category r2 /\ summary r1 = summary r2
  /\ reminderDate r1 = reminderDate r2.
Proof.
  intros H. cbv zeta.
  pose proof (fallback_shape zone now name1 error) as S1.
  pose proof (fallback_shape zone now name2 error) as S2. cbv zeta in S1, S2.
  destruct S1 as (_ & -> & -> & _ & _ & -> & _).
  destruct S2 as (_ & -> & -> & _ & _ & -> & _).
  unfold classifyFileName. rewrite H.
  generalize (toLowerCase name2) as l. intros l.
  repeat match goal with
         | |- context [includes ?l ?k] =>
             destruct (includes l k); cbn [orb]; try (repeat split; reflexivity)
         end.
Qed.

Lemma letter_case_witness :
  toLowerCase "Council_TAX.PDF" = toLowerCase "council_tax.pdf"
  /\ category (generateEnhancedFallback utc 0 "Council_TAX.PDF" (JsError "offline"))
     = category (generateEnhancedFallback utc 0 "council_tax.pdf" (JsError "offline")).
Proof.
  split; [reflexivity |].
  exact (proj1 (classification_ignores_letter_case utc 0 "Council_TAX.PDF"
                  "council_tax.pdf" (JsError "offline") eq_refl)).
Defined.

Lemma all_chars_app (p : ascii -> bool) (a b : string) :
  all_chars p (a +:+ b) = all_chars p a && all_chars p b.
Proof.
  unfold all_chars. induction a as [| c a IH]; [reflexivity |].
  change (String c a +:+ b) with (String c (a +:+ b)). cbn.
  rewrite IH. apply andb_assoc.
Qed.

Lemma app_nonempty_r (a b : string) : b <> ""%string -> String.eqb (a +:+ b) "" = false.
Proof.
  intros H. destruct a; [| reflexivity].
  change ("" +:+ b) with b. apply String.eqb_neq. exact H.
Qed.

(** X21: The replace of the fallback title, with the pattern of a dot
    followed by characters other than dot and slash up to the end, removes
    a last extension: base.ext (ext not empty, without dot and slash)
    gives base; a name without any dot is unchanged; and a name that ends
    in a dot is unchanged. *)
Theorem stripExtension_drops_the_last_extension :
  (forall base ext,
     ext <> ""%string -> all_chars not_slash_or_dot ext = true ->
     stripExtension (base +:+ "." +:+ ext) = base)
  /\ (forall name,
        all_chars (fun c => negb (Ascii.eqb c ".")) name = true ->
        stripExtension name = name)
  /\ (forall base, stripExtension (base +:+ ".") = base +:+ ".").
Proof.
  split; [| split].
  - intros base ext Hne Hok. induction base as [| c base IH].
    + change ("" +:+ "." +:+ ext) with (String "." ext). cbn [stripExtension].
      change (Ascii.eqb "." ".") with true. rewrite Hok.
      rewrite (proj2 (String.eqb_neq ext "") Hne). reflexivity.
    + change (String c base +:+ "." +:+ ext) with (String c (base +:+ "." +:+ ext)).
      cbn [stripExtension]. rewrite IH.
      rewrite all_chars_app.
      change ("." +:+ ext) with (String "." ext).
      replace (all_chars not_slash_or_dot (String "." ext)) with false
        by reflexivity.
      rewrite !andb_false_r. reflexivity.
  - intros name. unfold all_chars. induction name as [| c name IH]; [reflexivity |].
    cbn [list_ascii_of_string forallb stripExtension]. intros H.
    apply andb_true_iff in H. destruct H as [Hc Hn].
    apply negb_true_iff in Hc. rewrite Hc, (IH Hn). reflexivity.
  - intros base. induction base as [| c base IH]; [reflexivity |].
    change (String c base +:+ ".") with (String c (base +:+ ".")).
    cbn [stripExtension]. rewrite IH, all_chars_app.
    replace (all_chars not_slash_or_dot ".") with false by reflexivity.
    rewrite !andb_false_r. reflexivity.
Qed.

(** X22: With the same chat and JSON.parse behaviour, analyzeDocument on a
    .pdf name depends on the PDF conversion only and not on reading the
    file, and on any other name it depends on reading the file only and
    not on the PDF conversion: two environments that agree on the used
    reader give equal results. *)
Theorem branches_use_their_own_input_only
    (e1 e2 : Externals) (zone : JSDate.TimeZone) (now : Z) (filePath fileName : string) :
  (forall req, chat e1 req = chat e2 req) ->
  (forall text, JSON_parse e1 text = JSON_parse e2 text) ->
  (toLowerCase (extname fileName) = ".pdf"%string ->
   (forall p, convertPDF e1 p = convertPDF e2 p) ->
   analyzeDocument e1 zone now filePath fileName
   = analyzeDocument e2 zone now filePath fileName)
  /\ (toLowerCase (extname fileName) <> ".pdf"%string ->
      (forall p, readFileSync e1 p = readFileSync e2 p) ->
      analyzeDocument e1 zone now filePath fileName
      = analyzeDocument e2 zone now filePath fileName).
Proof.
  intros Hc Hj. split.
  - intros Hext Hp. unfold analyzeDocument, analyzeBody. rewrite Hext, String.eqb_refl.
    assert (E1 : pdfViaImage e1 filePath fileName = pdfViaImage e2 filePath fileName).
    { unfold pdfViaImage. rewrite Hp.
      destruct (convertPDF e2 filePath) as [[b |] |]; cbn [mbind outcome_bind];
        try reflexivity.
      destruct (String.length b =? 0)%nat; cbn [mbind outcome_bind]; [reflexivity |].
      rewrite Hc. destruct (chat e2 _) as [r |]; cbn [mbind outcome_bind];
        [| reflexivity].
      destruct (firstContent r) as [t |]; cbn [mbind outcome_bind]; [| reflexivity].
      rewrite Hc. destruct (chat e2 _) as [r' |]; cbn [mbind outcome_bind];
        [| reflexivity].
      destruct (firstContent r') as [t' |]; cbn [mbind outcome_bind]; [| reflexivity].
      rewrite Hj. reflexivity. }
    assert (E2 : pdfByFileName e1 now fileName = pdfByFileName e2 now fileName).
    { unfold pdfByFileName. rewrite Hc.
      destruct (chat e2 _) as [r |]; cbn [mbind outcome_bind]; [| reflexivity].
      destruct (firstContent r) as [t |]; cbn [mbind outcome_bind]; [| reflexivity].
      rewrite Hj. reflexivity. }
    rewrite E1, E2. reflexivity.
  - intros Hext Hr. unfold analyzeDocument, analyzeBody.
    destruct (String.eqb_spec (toLowerCase (extname fileName)) ".pdf");
      [contradiction |].
    assert (E : imageViaVision e1 filePath fileName (toLowerCase (extname fileName))
                = imageViaVision e2 filePath fileName (toLowerCase (extname fileName))).
    { unfold imageViaVision. rewrite Hr.
      destruct (readFileSync e2 filePath) as [b |]; cbn [mbind outcome_bind];
        [| reflexivity].
      rewrite Hc. destruct (chat e2 _) as [r |]; cbn [mbind outcome_bind];
        [| reflexivity].
      destruct (firstContent r) as [t |]; cbn [mbind outcome_bind]; [| reflexivity].
      rewrite Hc. destruct (chat e2 _) as [r' |]; cbn [mbind outcome_bind];
        [| reflexivity].
      destruct (firstContent r') as [t' |]; cbn [mbind outcome_bind]; [| reflexivity].
      rewrite Hj. reflexivity. }
    rewrite E. reflexivity.
Qed.

Lemma own_input_witness :
  (forall req, chat quotaOnOcr req = chat quotaOnOcrNoDisk req)
  /\ (forall text, JSON_parse quotaOnOcr text = JSON_parse quotaOnOcrNoDisk text)
  /\ toLowerCase (extname "council.pdf") = ".pdf"%string
  /\ (forall p, convertPDF quotaOnOcr p = convertPDF quotaOnOcrNoDisk p)
  /\ analyzeDocument quotaOnOcr utc 0 "uploads/file-1.pdf" "council.pdf"
     = analyzeDocument quotaOnOcrNoDisk utc 0 "uploads/file-1.pdf" "council.pdf".
Proof.
  split; [reflexivity |]. split; [reflexivity |]. split; [reflexivity |].
  split; [reflexivity |].
  exact (proj1 (branches_use_their_own_input_only quotaOnOcr quotaOnOcrNoDisk utc 0
                  "uploads/file-1.pdf" "council.pdf"
                  (fun _ => eq_refl) (fun _ => eq_refl))
           eq_refl (fun _ => eq_refl)).
Defined.

End AnalyzerMore.

(** ** More on the notification service *)

Module NotificationMore.
Import JS Storage EmailService Routes NotificationFacts EmailTest.
Import Scenarios MoreScenarios.

Lemma createTransporter_cases (pf : Platform) (user : option User) :
  let config := getEmailConfig pf user in
  createTransporter pf user
  = if String.eqb (auth_user (auth (smtp config))) ""
       || String.eqb (auth_pass (auth (smtp config))) ""
    then Throws (JsError "SMTP credentials not configured. Please configure email settings in your profile."%string)
    else match createTransport pf (smtp config) with
         | Returns _ => Returns (smtp config)
         | Throws e => Throws e
         end.
Proof.
  cbv zeta. unfold createTransporter.
  destruct (_ || _); [reflexivity |].
  destruct (createTransport pf _); reflexivity.
Qed.

(** X23: sendLetterNotification writes a console.log line only if the user
    has a non-empty address, the transporter could be created, the
    uploaded file exists on disk and sendMail returned for a mail
    addressed to that user with the subject Your scanned letter from Posty
    and the file as its one attachment; the log then consists of that
    single line. *)
Theorem success_is_logged_only_after_a_real_hand_over
    (pf : Platform) (user : User) (letter : LetterData) (text : string) :
  In (ConsoleLog text) (sendLetterNotification pf user letter).1 ->
  exists address transporter options messageId,
    email user = Some address /\ address <> ""%string
    /\ createTransporter pf (Some user) = Returns transporter
    /\ existsSync pf (pathJoin pf (cwd pf)
                        (stripLeadingSlash (letter_imageUrl letter))) = true
    /\ sendMail pf transporter options = Returns messageId
    /\ mail_to options = address
    /\ mail_subject options = "Your scanned letter from Posty"%string
    /\ mail_attachments options
       = [{| att_filename := letter_fileName letter;
             att_path := pathJoin pf (cwd pf)
                           (stripLeadingSlash (letter_imageUrl letter));
             att_contentType :=
               contentTypeOf (toLowerCase (extname (letter_fileName letter))) |}]
    /\ (sendLetterNotification pf user letter).1 = [ConsoleLog text].
Proof.
  unfold sendLetterNotification, notificationAttempt.
  destruct (email user) as [address |]; [| cbn; intros [[=] | []]].
  destruct (String.eqb_spec address ""); [cbn; intros [[=] | []] |].
  destruct (createTransporter pf (Some user)) as [transporter | e];
    [| cbn; intros [[=] | []]].
  destruct (existsSync pf _) eqn:X; cbn [negb];
    [| cbn; intros [[=] | [[=] | []]]].
  match goal with
  | |- context [sendMail pf transporter ?o] =>
      destruct (sendMail pf transporter o) as [mid | e] eqn:S
  end; [| cbn; intros [[=] | []]].
  cbn. intros [[= <-] | []].
  eexists address, transporter, _, mid.
  repeat split; try eassumption; reflexivity.
Qed.

Lemma logged_success_witness :
  In (ConsoleLog "Email sent successfully to alice@example.org: <1@posty>")
     (sendLetterNotification workingMail alice aliceLetterData).1
  /\ exists transporter options messageId,
       sendMail workingMail transporter options = Returns messageId
       /\ mail_to options = "alice@example.org"%string.
Proof.
  assert (L : In (ConsoleLog "Email sent successfully to alice@example.org: <1@posty>")
                 (sendLetterNotification workingMail alice aliceLetterData).1)
    by (left; reflexivity).
  split; [exact L |].
  destruct (success_is_logged_only_after_a_real_hand_over workingMail alice
              aliceLetterData _ L)
    as (address & transporter & options & messageId & E & _ & _ & _ & S & T & _).
  exists transporter, options, messageId. split; [exact S |].
  rewrite T. injection E as <-. reflexivity.
Defined.

(** X24: testEmailConfiguration always returns a result: success is true
    exactly when SMTP user and password are configured, the transport can
    be created and verify() succeeds; with a missing user or password the
    result is success false with the credentials-not-configured message;
    and the test-config endpoint answers 200 with that result for every
    authenticated request, also when the test failed. *)
Theorem configuration_test_reports_instead_of_throwing
    (pf : Platform) (verify : Smtp -> Outcome unit) :
  let config := getEmailConfig pf None in
  (test_success (testEmailConfiguration pf verify) = true <->
   auth_user (auth (smtp config)) <> ""%string
   /\ auth_pass (auth (smtp config)) <> ""%string
   /\ createTransport pf (smtp config) = Returns tt
   /\ verify (smtp config) = Returns tt)
  /\ (auth_user (auth (smtp config)) = ""%string
      \/ auth_pass (auth (smtp config)) = ""%string ->
      testEmailConfiguration pf verify
      = {| test_success := false; test_message := "SMTP credentials not configured. Please configure email settings in your profile."%string |})
  /\ (forall c db uid,
        authenticateToken c db = inr uid ->
        testConfigRoute pf verify c db
        = Answered 200 (testEmailConfiguration pf verify)).
Proof.
  cbv zeta.
  assert (R : forall c db uid,
            authenticateToken c db = inr uid ->
            testConfigRoute pf verify c db
            = Answered 200 (testEmailConfiguration pf verify)).
  { intros c db uid A. unfold testConfigRoute. rewrite A. reflexivity. }
  split; [| split; [| exact R]]; clear R; unfold testEmailConfiguration;
    rewrite (createTransporter_cases pf None); cbv zeta;
    (destruct (String.eqb_spec (auth_user (auth (smtp (getEmailConfig pf None)))) "")
       as [Eu | Eu];
     [| destruct (String.eqb_spec
                    (auth_pass (auth (smtp (getEmailConfig pf None)))) "") as [Ep | Ep]];
     cbn [orb mbind outcome_bind]).
  - split; [discriminate | tauto].
  - split; [discriminate | tauto].
  - destruct (createTransport pf _) as [[] | e]; cbn [mbind outcome_bind].
    + destruct (verify _) as [[] | e]; cbn;
        (split; [intros H; try discriminate H; tauto
                | intros (_ & _ & _ & V); try reflexivity; discriminate V]).
    + split; [discriminate | intros (_ & _ & C & _); discriminate C].
  - reflexivity.
  - reflexivity.
  - intros [H | H]; contradiction.
Qed.

(** X25: For an authenticated user, POST /api/email/test-send answers 500
    with success false and the message of the error when the transporter
    cannot be created or sendMail throws (with no SMTP user: the
    credentials-not-configured message), and 200 with success true when
    sendMail returns; unlike sendLetterNotification, sendTestEmail lets
    the error through. *)
Theorem test_send_surfaces_transport_errors
    (pf : Platform) (sentAt : string) (c : Credentials) (db : Database)
    (uid : string) (user : User) :
  authenticateToken c db = inr uid ->
  getUser uid db = Some user ->
  let answer := (testSendRoute pf sentAt c db).1 in
  (forall e, createTransporter pf None = Throws e ->
     answer = Answered 500 {| test_success := false;
                              test_message := errorMessage e |})
  /\ (forall transporter e,
        createTransporter pf None = Returns transporter ->
        sendMail pf transporter (testMail pf sentAt (strOr (email user) "")) = Throws e ->
        answer = Answered 500 {| test_success := false;
                                 test_message := errorMessage e |})
  /\ (forall transporter messageId,
        createTransporter pf None = Returns transporter ->
        sendMail pf transporter (testMail pf sentAt (strOr (email user) ""))
        = Returns messageId ->
        exists text, answer = Answered 200 {| test_success := true;
                                              test_message := text |})
  /\ (auth_user (auth (smtp (getEmailConfig pf None))) = ""%string ->
      answer = Answered 500 {| test_success := false;
                               test_message := "SMTP credentials not configured. Please configure email settings in your profile."%string |}).
Proof.
  intros A G. cbv zeta. unfold testSendRoute, sendTestEmail. rewrite A, G.
  split; [| split; [| split]].
  - intros e ->. reflexivity.
  - intros t e -> ->. reflexivity.
  - intros t mid -> ->. eexists. reflexivity.
  - intros H. rewrite (createTransporter_cases pf None). cbv zeta. rewrite H.
    reflexivity.
Qed.

Lemma test_send_witness :
  authenticateToken (TokenFor "email_alice_example.org") twoUsers
  = inr "email_alice_example.org"%string
  /\ getUser "email_alice_example.org" twoUsers = Some alice
  /\ (testSendRoute noAttachment "2024-01-20T12:00:00.000Z"
        (TokenFor "email_alice_example.org") twoUsers).1
     = Answered 500 {| test_success := false;
                       test_message := "connect ECONNREFUSED" |}.
Proof.
  split; [reflexivity |]. split; [reflexivity |].
  exact (proj1 (proj2 (test_send_surfaces_transport_errors noAttachment
                         "2024-01-20T12:00:00.000Z"
                         (TokenFor "email_alice_example.org") twoUsers
                         "email_alice_example.org" alice eq_refl eq_refl))
           _ (JsError "connect ECONNREFUSED") eq_refl eq_refl).
Defined.

End NotificationMore.

(** ** Registration and login *)

Module AccountFacts.
Import JS Storage Routes StorageFacts RouteFacts Accounts.

Lemma getUserByEmail_None (address : string) (db : Database) :
  getUserByEmail address db = None <->
  forall u, In u (users db) -> email u <> Some address.
Proof.
  unfold getUserByEmail. split.
  - intros H u Hin E.
    assert (X : In u (List.filter
                        (fun u => match email u with
                                  | Some a => String.eqb a address
                                  | None => false
                                  end) (users db))).
    { apply filter_In. split; [exact Hin |]. rewrite E. apply String.eqb_refl. }
    destruct (List.filter _ (users db)); [destruct X | discriminate H].
  - intros H. rewrite (StorageMore.filter_none _ (users db)); [reflexivity |].
    intros u Hin. specialize (H u Hin). destruct (email u) as [a |]; [| reflexivity].
    apply String.eqb_neq. congruence.
Qed.

Lemma emailTaken_free (row : User) (db : Database) (address : string) :
  email row = Some address ->
  getUserByEmail address db = None ->
  emailTaken row db = false.
Proof.
  intros E H. unfold emailTaken. rewrite E.
  rewrite getUserByEmail_None in H.
  apply not_true_is_false. intros X. apply existsb_exists in X.
  destruct X as (u & Hin & X). apply andb_true_iff in X. destruct X as [_ X].
  destruct (email u) as [b |] eqn:Eb; [| discriminate X].
  apply String.eqb_eq in X. subst b. exact (H u Hin Eb).
Qed.

Section Replaced.

Variable vid : string.
Variable row : User.
Hypothesis row_id : user_id row = vid.

Lemma getUser_replaced (l : list User) (old : User) :
  head (List.filter (fun u => String.eqb (user_id u) vid) l) = Some old ->
  head (List.filter (fun u => String.eqb (user_id u) vid) (replaceRow vid row l)) = Some row.
Proof using row_id.
  unfold replaceRow. induction l as [| x l IH]; cbn; [discriminate |].
  destruct (String.eqb (user_id x) vid) eqn:E; cbn.
  - intros _. rewrite row_id, String.eqb_refl. reflexivity.
  - rewrite E. exact IH.
Qed.

Lemma byEmail_replaced (l : list User) (old : User) (address : string) :
  email row = Some address ->
  (forall u, In u l -> email u <> Some address) ->
  head (List.filter (fun u => String.eqb (user_id u) vid) l) = Some old ->
  head (List.filter (fun u => match email u with
                              | Some a => String.eqb a address
                              | None => false
                              end) (replaceRow vid row l)) = Some row.
Proof using row_id.
  intros Er Hfree. unfold replaceRow. induction l as [| x l IH]; cbn; [discriminate |].
  destruct (String.eqb (user_id x) vid) eqn:E; cbn.
  - intros _. rewrite Er, String.eqb_refl. reflexivity.
  - assert (Hx : match email x with
                 | Some a => String.eqb a address
                 | None => false
                 end = false).
    { pose proof (Hfree x (or_introl eq_refl)) as N.
      destruct (email x) as [a |]; [| reflexivity]. apply String.eqb_neq. congruence. }
    rewrite Hx. apply IH. intros u Hu. apply Hfree. right. exact Hu.
Qed.

Lemma byEmail_replaced_none (l : list User) (address other : string) :
  email row = Some address -> other <> address ->
  (forall u, In u l -> email u = Some other -> user_id u = vid) ->
  List.filter (fun u => match email u with
                        | Some a => String.eqb a other
                        | None => false
                        end) (replaceRow vid row l) = [].
Proof using row_id.
  intros Er Hne Hown. apply StorageMore.filter_none. intros u Hu.
  unfold replaceRow in Hu. apply in_map_iff in Hu. destruct Hu as (x & <- & Hx).
  destruct (String.eqb_spec (user_id x) vid) as [E | E].
  - rewrite Er. apply String.eqb_neq. congruence.
  - destruct (email x) as [a |] eqn:Ea; [| reflexivity].
    apply String.eqb_neq. intros ->. apply E. exact (Hown x Hx Ea).
Qed.

End Replaced.

Section Registration.

Variable hash : string -> string.
Variable compare : string -> string -> bool.
Variable isEmail : string -> bool.
Variable now : Z.
Variable random : string.

Lemma valid_parts (r : Registration) :
  validRegistration isEmail r = true ->
  isEmail (reg_email r) = true
  /\ (1 <=? String.length (reg_password r))%nat = true.
Proof.
  unfold validRegistration. rewrite !andb_true_iff.
  intros [[[V1 V2] _] _]. split; [exact V1 |].
  apply Nat.leb_le. apply Nat.leb_le in V2. lia.
Qed.

(** X26: Assume bcrypt's hash is never empty and compare accepts a
    password against its own hash. If a valid registration uses an address
    that is free but whose generated id is the id of an existing account,
    then after the register request (whether it answers 200 or 500) the
    existing row carries the new address, names and password hash under
    the old id: a login with the new address and password succeeds, its
    token lists the victim's mail items, and a login with the old address
    gets no token. *)
Theorem colliding_registration_takes_the_account_over
    (r : Registration) (st : AccountStore) (victim : User) :
  validRegistration isEmail r = true ->
  getUserByEmail (reg_email r) (store_db st) = None ->
  getUser (Auth.generateUserId "email" None (Some (reg_email r)) now random)
          (store_db st) = Some victim ->
  hash (reg_password r) <> ""%string ->
  compare (reg_password r) (hash (reg_password r)) = true ->
  let after := (registerRoute hash isEmail now random r st).1 in
  let row := {| user_id := user_id victim; email := Some (reg_email r);
                firstName := Some (reg_firstName r);
                lastName := Some (reg_lastName r); provider := "email";
                passwordHash := Some (hash (reg_password r));
                emailConfig := emailConfig victim |} in
  getUserByEmail (reg_email r) (store_db after) = Some row
  /\ getUser (user_id victim) (store_db after) = Some row
  /\ mailItems (store_db after) = mailItems (store_db st)
  /\ loginRoute compare isEmail (reg_email r) (reg_password r) after
     = {| auth_status := 200; auth_error := None; auth_user := Some row;
          auth_cookie := Some (generateToken row) |}
  /\ listMailItems (credentialsOf (generateToken row)) (store_db after)
     = (store_db after,
        {| status := 200;
           body := Items (getAllMailItems (user_id victim) (store_db st)) |})
  /\ (forall old password,
        old <> reg_email r ->
        (forall u, In u (users (store_db st)) -> email u = Some old ->
                   user_id u = user_id victim) ->
        auth_cookie (loginRoute compare isEmail old password after) = None).
Proof.
  intros V Hfree Hv Hh Hc. cbv zeta.
  pose proof (getUser_id _ _ _ Hv) as Hid.
  set (vid := Auth.generateUserId "email" None (Some (reg_email r)) now random) in *.
  set (row := {| user_id := user_id victim; email := Some (reg_email r);
                 firstName := Some (reg_firstName r);
                 lastName := Some (reg_lastName r); provider := "email";
                 passwordHash := Some (hash (reg_password r));
                 emailConfig := emailConfig victim |}).
  set (db' := {| users := replaceRow vid row (users (store_db st));
                 mailItems := mailItems (store_db st);
                 nextId := nextId (store_db st) |}).
  assert (Hup : upsertUser
                  {| up_id := vid; up_email := Some (reg_email r);
                     up_firstName := Some (reg_firstName r);
                     up_lastName := Some (reg_lastName r);
                     up_provider := "email";
                     up_passwordHash := Some (hash (reg_password r)) |}
                  (store_db st) = Returns (db', row)).
  { unfold upsertUser. cbn [up_id]. rewrite Hv. cbn [upsertedRow orKeep up_email
      up_firstName up_lastName up_provider up_passwordHash].
    fold row. rewrite (emailTaken_free row (store_db st) (reg_email r) eq_refl Hfree).
    reflexivity. }
  assert (Hafter : store_db (registerRoute hash isEmail now random r st).1 = db').
  { unfold registerRoute. rewrite V. cbn [negb]. rewrite Hfree.
    unfold createEmailUser. fold vid. rewrite Hup.
    destruct (createUserSettings _ _) as [st'' |] eqn:C; cbn; [| reflexivity].
    revert C. unfold createUserSettings.
    destruct (getUserSettings _ _); [discriminate |].
    destruct (userExists _ _); [| discriminate]. intros [= <-]. reflexivity. }
  rewrite Hafter.
  assert (Hrow_id : user_id row = vid) by (cbn; exact Hid).
  assert (Hby : getUserByEmail (reg_email r) db' = Some row).
  { unfold getUserByEmail. cbn [users db'].
    apply (byEmail_replaced vid row Hrow_id _ victim (reg_email r) eq_refl);
      [apply getUserByEmail_None; exact Hfree | exact Hv]. }
  assert (Hget : getUser (user_id victim) db' = Some row).
  { rewrite Hid. unfold getUser. cbn [users db'].
    exact (getUser_replaced vid row Hrow_id _ victim Hv). }
  split; [exact Hby |]. split; [exact Hget |]. split; [reflexivity |].
  split.
  { unfold loginRoute, authenticateEmailUser. rewrite Hafter, Hby.
    destruct (valid_parts r V) as [Ve Vp].
    rewrite Ve, Vp. cbn [andb negb provider row String.eqb passwordHash].
    rewrite (proj2 (String.eqb_neq _ _) Hh), Hc. reflexivity. }
  split.
  { unfold listMailItems, protected, credentialsOf, generateToken.
    cbn [tok_userId user_id row authenticateToken]. rewrite Hget.
    cbn [user_id row]. unfold getAllMailItems. reflexivity. }
  intros old password Hne Hown. unfold loginRoute, authenticateEmailUser.
  rewrite Hafter.
  assert (N : getUserByEmail old db' = None).
  { unfold getUserByEmail. cbn [users db'].
    rewrite (byEmail_replaced_none vid row Hrow_id _ (reg_email r) old eq_refl Hne);
      [reflexivity |].
    intros u Hu Eu. rewrite <- Hid. exact (Hown u Hu Eu). }
  rewrite N. destruct (negb _); reflexivity.
Qed.

Lemma head_filter_none {A} (p : A -> bool) (l : list A) :
  head (List.filter p l) = None -> List.filter p l = [].
Proof. destruct (List.filter p l); [reflexivity | discriminate]. Qed.

(** X27: Assume bcrypt's hash is never empty and compare accepts a
    password against its own hash. A valid registration whose address and
    generated id are both new (no settings stored for that id) answers 200
    with the new user and a token; it appends one users row, stores
    settings with theme light for the new id and leaves the mail items
    alone; a login with the same address and password then gives the same
    answer, the token authenticates as the new id, and a login with a
    password that does not match the hash gets no token. *)
Theorem registration_then_login (r : Registration) (st : AccountStore) :
  validRegistration isEmail r = true ->
  getUserByEmail (reg_email r) (store_db st) = None ->
  getUser (Auth.generateUserId "email" None (Some (reg_email r)) now random)
          (store_db st) = None ->
  getUserSettings (Auth.generateUserId "email" None (Some (reg_email r)) now random)
                  st = None ->
  hash (reg_password r) <> ""%string ->
  compare (reg_password r) (hash (reg_password r)) = true ->
  let uid := Auth.generateUserId "email" None (Some (reg_email r)) now random in
  let row := {| user_id := uid; email := Some (reg_email r);
                firstName := Some (reg_firstName r);
                lastName := Some (reg_lastName r); provider := "email";
                passwordHash := Some (hash (reg_password r));
                emailConfig := None |} in
  let welcome := {| auth_status := 200; auth_error := None; auth_user := Some row;
                    auth_cookie := Some (generateToken row) |} in
  let after := (registerRoute hash isEmail now random r st).1 in
  (registerRoute hash isEmail now random r st).2 = welcome
  /\ loginRoute compare isEmail (reg_email r) (reg_password r) after = welcome
  /\ authenticateToken (credentialsOf (generateToken row)) (store_db after) = inr uid
  /\ getUserSettings uid after
     = Some {| settings_userId := uid; settings_theme := "light" |}
  /\ users (store_db after) = users (store_db st) ++ [row]
  /\ mailItems (store_db after) = mailItems (store_db st)
  /\ (forall wrong, compare wrong (hash (reg_password r)) = false ->
        auth_cookie (loginRoute compare isEmail (reg_email r) wrong after) = None).
Proof.
  intros V Hfree Hnew Hset Hh Hc. cbv zeta.
  set (uid := Auth.generateUserId "email" None (Some (reg_email r)) now random) in *.
  set (row := {| user_id := uid; email := Some (reg_email r);
                 firstName := Some (reg_firstName r);
                 lastName := Some (reg_lastName r); provider := "email";
                 passwordHash := Some (hash (reg_password r));
                 emailConfig := None |}).
  set (db' := {| users := users (store_db st) ++ [row];
                 mailItems := mailItems (store_db st);
                 nextId := nextId (store_db st) |}).
  set (st' := {| store_db := db';
                 store_settings := store_settings st
                                   ++ [{| settings_userId := uid;
                                          settings_theme := "light" |}] |}).
  assert (Hexists : userExists db' uid = true).
  { unfold userExists. cbn [users db']. rewrite existsb_app. cbn.
    rewrite String.eqb_refl. apply orb_true_r. }
  assert (Hreg : registerRoute hash isEmail now random r st
                 = (st', {| auth_status := 200; auth_error := None;
                            auth_user := Some row;
                            auth_cookie := Some (generateToken row) |})).
  { unfold registerRoute. rewrite V. cbn [negb]. rewrite Hfree.
    unfold createEmailUser. fold uid. unfold upsertUser. cbn [up_id].
    rewrite Hnew. cbn [upsertedRow up_id up_email up_firstName up_lastName
      up_provider up_passwordHash]. fold row.
    rewrite (emailTaken_free row (store_db st) (reg_email r) eq_refl Hfree).
    fold db'. unfold createUserSettings. cbn [settings_userId user_id row].
    assert (S : getUserSettings uid {| store_db := db';
                                       store_settings := store_settings st |} = None)
      by exact Hset.
    rewrite S. cbn [store_db]. rewrite Hexists. reflexivity. }
  rewrite Hreg. cbn [fst snd].
  assert (Hby : getUserByEmail (reg_email r) db' = Some row).
  { unfold getUserByEmail. cbn [users db']. rewrite List.filter_app.
    rewrite (head_filter_none _ _ Hfree). cbn. rewrite String.eqb_refl. reflexivity. }
  assert (Hget : getUser uid db' = Some row).
  { unfold getUser. cbn [users db']. rewrite List.filter_app.
    rewrite (head_filter_none _ _ Hnew). cbn. rewrite String.eqb_refl. reflexivity. }
  destruct (valid_parts r V) as [Ve Vp].
  split; [reflexivity |].
  split.
  { unfold loginRoute, authenticateEmailUser. cbn [store_db st']. rewrite Hby, Ve, Vp.
    cbn [andb negb provider row String.eqb passwordHash].
    rewrite (proj2 (String.eqb_neq _ _) Hh), Hc. reflexivity. }
  split.
  { unfold credentialsOf, generateToken. cbn [tok_userId user_id row authenticateToken].
    cbn [store_db st']. rewrite Hget. reflexivity. }
  split.
  { unfold getUserSettings. cbn [store_settings st']. rewrite List.filter_app.
    rewrite (head_filter_none _ _ Hset). cbn. rewrite String.eqb_refl. reflexivity. }
  split; [reflexivity |]. split; [reflexivity |].
  intros wrong Hw. unfold loginRoute, authenticateEmailUser. cbn [store_db st'].
  rewrite Hby. destruct (negb _); [reflexivity |].
  cbn [provider row String.eqb negb passwordHash].
  rewrite (proj2 (String.eqb_neq _ _) Hh), Hw. reflexivity.
Qed.

End Registration.

Lemma takeover_witness :
  validRegistration anyAddress newcomer = true
  /\ getUserByEmail (reg_email newcomer) (store_db oneAccount) = None
  /\ getUser (Auth.generateUserId "email" None (Some (reg_email newcomer)) 0 "")
             (store_db oneAccount) = Some annBee
  /\ markedHash (reg_password newcomer) <> ""%string
  /\ markedCompare (reg_password newcomer) (markedHash (reg_password newcomer)) = true
  /\ getUserByEmail "a@b.x.com"
       (store_db (registerRoute markedHash anyAddress 0 "" newcomer oneAccount).1)
     = Some {| user_id := "email_a_b_x.com"; email := Some "a@b.x.com"%string;
               firstName := Some "Al"%string; lastName := Some "Bx"%string;
               provider := "email";
               passwordHash := Some "hash:second-password"%string;
               emailConfig := None |}
  /\ auth_cookie (loginRoute markedCompare anyAddress "a.b@x.com" "first-password"
                    (registerRoute markedHash anyAddress 0 "" newcomer oneAccount).1)
     = None.
Proof.
  split; [reflexivity |]. split; [reflexivity |]. split; [reflexivity |].
  split; [discriminate |]. split; [reflexivity |].
  destruct (colliding_registration_takes_the_account_over markedHash markedCompare
              anyAddress 0 "" newcomer oneAccount annBee
              eq_refl eq_refl eq_refl ltac:(discriminate) eq_refl)
    as (E & _ & _ & _ & _ & O).
  split; [exact E |].
  apply O; [discriminate |].
  intros u [<- | []] _. reflexivity.
Defined.

Lemma registration_witness :
  validRegistration anyAddress carol = true
  /\ getUserByEmail (reg_email carol) (store_db oneAccount) = None
  /\ getUser (Auth.generateUserId "email" None (Some (reg_email carol)) 0 "")
             (store_db oneAccount) = None
  /\ getUserSettings (Auth.generateUserId "email" None (Some (reg_email carol)) 0 "")
       oneAccount = None
  /\ markedHash (reg_password carol) <> ""%string
  /\ markedCompare (reg_password carol) (markedHash (reg_password carol)) = true
  /\ auth_status (registerRoute markedHash anyAddress 0 "" carol oneAccount).2 = 200%Z
  /\ loginRoute markedCompare anyAddress "carol@example.org" "third-password"
       (registerRoute markedHash anyAddress 0 "" carol oneAccount).1
     = (registerRoute markedHash anyAddress 0 "" carol oneAccount).2.
Proof.
  split; [reflexivity |]. split; [reflexivity |]. split; [reflexivity |].
  split; [reflexivity |]. split; [discriminate |]. split; [reflexivity |].
  destruct (registration_then_login markedHash markedCompare anyAddress 0 "" carol
              oneAccount eq_refl eq_refl eq_refl eq_refl ltac:(discriminate) eq_refl)
    as (R & L & _).
  split; [rewrite R; reflexivity |].
  rewrite R. exact L.
Defined.

End AccountFacts.

(** ** The Caesar decoder *)

Module DecodeFacts.
Import JS Decode.
Local Open Scope Z_scope.

Lemma charCode_range (c : ascii) : 0 <= charCode c < 256.
Proof.
  unfold charCode. pose proof (nat_ascii_bounded c). lia.
Qed.

Lemma charCode_fromCharCode (n : Z) : 0 <= n < 256 -> charCode (fromCharCode n) = n.
Proof.
  intros H. unfold charCode, fromCharCode.
  rewrite nat_ascii_embedding by lia. lia.
Qed.

Lemma fromCharCode_charCode (c : ascii) : fromCharCode (charCode c) = c.
Proof.
  unfold charCode, fromCharCode. rewrite Nat2Z.id. apply ascii_nat_embedding.
Qed.

(** Below 2^53 the sum is exact. *)
Lemma roundToDouble_exact (x : Z) : Z.abs x < 2 ^ 53 -> roundToDouble x = x.
Proof.
  intros H. unfold roundToDouble.
  destruct (Z.ltb_spec (Z.abs x) (2 ^ 53)); [reflexivity | lia].
Qed.

(** Above, it is not: next to 2^60 the doubles are 256 apart. *)
Lemma roundToDouble_large (d : Z) :
  0 <= d < 26 -> roundToDouble (d + 2 ^ 60) = 2 ^ 60.
Proof.
  intros H. unfold roundToDouble.
  assert (A : Z.abs (d + 2 ^ 60) = d + 2 ^ 60) by lia.
  rewrite A.
  assert (L : Z.log2 (d + 2 ^ 60) = 60).
  { apply Z.log2_unique; lia. }
  rewrite L.
  destruct (Z.ltb_spec (d + 2 ^ 60) (2 ^ 53)); [lia |].
  change (60 - 52) with 8. change (2 ^ 8) with 256. change (2 ^ (8 - 1)) with 128.
  replace (d + 2 ^ 60) with (d + 2 ^ 52 * 256) by lia.
  rewrite Z.div_add, Z.mod_add by lia.
  rewrite Z.div_small, Z.mod_small by lia.
  destruct (Z.ltb_spec 128 d); [lia |].
  destruct (Z.eqb_spec d 128); [lia |].
  cbn [orb andb]. rewrite Z.sgn_pos by lia. lia.
Qed.

(** The code of a decoded letter, for a shift that is not negative and
    leaves the sum below 2^53. *)
Lemma decodeChar_code (shift : Z) (c : ascii) :
  0 <= shift <= 2 ^ 53 - 26 ->
  charCode (decodeChar shift c)
  = if (97 <=? charCode c) && (charCode c <=? 122)
    then (charCode c - 97 + shift) mod 26 + 97
    else if (65 <=? charCode c) && (charCode c <=? 90)
    then (charCode c - 65 + shift) mod 26 + 65
    else charCode c.
Proof.
  intros Hs. unfold decodeChar.
  change (charCode "a") with 97. change (charCode "z") with 122.
  change (charCode "A") with 65. change (charCode "Z") with 90.
  destruct (Z.leb_spec 97 (charCode c)); destruct (Z.leb_spec (charCode c) 122);
    cbn [andb];
    try (destruct (Z.leb_spec 65 (charCode c)); destruct (Z.leb_spec (charCode c) 90);
         cbn [andb]); try reflexivity; try lia;
    rewrite roundToDouble_exact by lia;
    rewrite Z.rem_mod_nonneg by lia;
    rewrite charCode_fromCharCode; try reflexivity;
    match goal with
    | |- context [?x mod 26] => pose proof (Z.mod_pos_bound x 26 ltac:(lia)); lia
    end.
Qed.

Lemma charCode_inj (a b : ascii) : charCode a = charCode b -> a = b.
Proof.
  intros H. rewrite <- (fromCharCode_charCode a), <- (fromCharCode_charCode b), H.
  reflexivity.
Qed.

Lemma decodeChar_compose (a b : Z) (c : ascii) :
  0 <= a -> 0 <= b -> a + b <= 2 ^ 53 - 26 ->
  decodeChar b (decodeChar a c) = decodeChar (a + b) c.
Proof.
  intros Ha Hb Hab. apply charCode_inj.
  rewrite (decodeChar_code b) by lia. rewrite (decodeChar_code (a + b)) by lia.
  pose proof (decodeChar_code a c ltac:(lia)) as Hn.
  set (n := charCode (decodeChar a c)) in *.
  pose proof (Z.mod_pos_bound (charCode c - 97 + a) 26 ltac:(lia)) as B1.
  pose proof (Z.mod_pos_bound (charCode c - 65 + a) 26 ltac:(lia)) as B2.
  destruct (Z.leb_spec 97 (charCode c)); destruct (Z.leb_spec (charCode c) 122);
    cbn [andb] in Hn |- *;
    try (destruct (Z.leb_spec 65 (charCode c)); destruct (Z.leb_spec (charCode c) 90);
         cbn [andb] in Hn |- *);
    try lia;
    destruct (Z.leb_spec 97 n); destruct (Z.leb_spec n 122); cbn [andb];
    try (destruct (Z.leb_spec 65 n); destruct (Z.leb_spec n 90); cbn [andb]);
    try lia.
  - rewrite Hn. replace ((charCode c - 97 + a) mod 26 + 97 - 97 + b)
      with ((charCode c - 97 + a) mod 26 + b) by lia.
    rewrite Z.add_mod_idemp_l by lia. f_equal. f_equal. lia.
  - rewrite Hn. replace ((charCode c - 65 + a) mod 26 + 65 - 65 + b)
      with ((charCode c - 65 + a) mod 26 + b) by lia.
    rewrite Z.add_mod_idemp_l by lia. f_equal. f_equal. lia.
Qed.

Lemma decodeChar_26 (c : ascii) : decodeChar 26 c = c.
Proof.
  apply charCode_inj. rewrite decodeChar_code by lia.
  destruct (Z.leb_spec 97 (charCode c)); destruct (Z.leb_spec (charCode c) 122);
    cbn [andb];
    try (destruct (Z.leb_spec 65 (charCode c)); destruct (Z.leb_spec (charCode c) 90);
         cbn [andb]); try reflexivity.
  all: Z.div_mod_to_equations; lia.
Qed.

(** With the shift 2^60 every small letter decodes to the same letter. *)
Lemma decodeChar_large_shift (c : ascii) :
  97 <= charCode c <= 122 -> decodeChar (2 ^ 60) c = "o"%char.
Proof.
  intros H. unfold decodeChar.
  change (charCode "a") with 97. change (charCode "z") with 122.
  destruct (Z.leb_spec 97 (charCode c)); [| lia].
  destruct (Z.leb_spec (charCode c) 122); [| lia]. cbn [andb].
  rewrite roundToDouble_large by lia. reflexivity.
Qed.

(** X28: For integer shifts that are not negative and whose sum a + b is
    at most 2^53 - 26, so that every sum is computed exactly, decoding
    with shift a and then with shift b is decoding with shift a + b;
    decoding with k and then with 26 - k (0 <= k <= 26) gives the text
    back; the result always has the length of the text. Beyond that range
    the sum is rounded to a double: with the shift 2^60 the text abcxyz
    decodes to oooooo. *)
Theorem caesar_shifts_compose_and_invert (text : string) :
  (forall a b, 0 <= a -> 0 <= b -> a + b <= 2 ^ 53 - 26 ->
     caesarDecode (caesarDecode text a) b = caesarDecode text (a + b))
  /\ (forall k, 0 <= k <= 26 ->
        caesarDecode (caesarDecode text k) (26 - k) = text)
  /\ (forall shift, String.length (caesarDecode text shift) = String.length text)
  /\ caesarDecode "abcxyz" (2 ^ 60) = "oooooo"%string.
Proof.
  assert (C : forall a b, 0 <= a -> 0 <= b -> a + b <= 2 ^ 53 - 26 ->
            caesarDecode (caesarDecode text a) b = caesarDecode text (a + b)).
  { intros a b Ha Hb Hab. induction text as [| c t IH]; [reflexivity |].
    cbn [caesarDecode]. rewrite decodeChar_compose by lia. rewrite IH. reflexivity. }
  split; [exact C |]. split; [| split].
  - intros k Hk. rewrite C by lia. replace (k + (26 - k)) with 26 by lia.
    clear C. induction text as [| c t IH]; [reflexivity |].
    cbn [caesarDecode]. rewrite decodeChar_26, IH. reflexivity.
  - intros shift. clear C. induction text as [| c t IH]; [reflexivity |].
    cbn [caesarDecode String.length]. rewrite IH. reflexivity.
  - cbn [caesarDecode]. rewrite !decodeChar_large_shift by (vm_compute; split; discriminate).
    reflexivity.
Qed.

End DecodeFacts.

(** ** The reminder event *)

Module CalendarFacts.
Import JS Storage Calendar ZoneConditions Scenarios MoreScenarios.
Local Open Scope Z_scope.

(** [setHours] puts the local clock at the given hour of the local day. *)
Lemma setHours_instant (zone : JSDate.TimeZone) (t hour : Z) :
  setHours zone t hour 0 0 0
  = JSDate.UTC zone (JSDate.Day (JSDate.LocalTime zone t) * JSDate.msPerDay
                     + hour * 3600000).
Proof.
  unfold setHours, JSDate.MakeDate, MakeTime. f_equal. lia.
Qed.

Lemma day_of_hour (d hour : Z) :
  0 <= hour < 24 ->
  JSDate.Day (d * JSDate.msPerDay + hour * 3600000) = d
  /\ JSDate.TimeWithinDay (d * JSDate.msPerDay + hour * 3600000) = hour * 3600000.
Proof.
  intros H. unfold JSDate.Day, JSDate.TimeWithinDay, JSDate.msPerDay.
  rewrite Z.add_comm, Z.div_add, Z.mod_add by lia.
  rewrite Z.div_small, Z.mod_small by lia. lia.
Qed.

(** X29: For an item whose reminder date parses to an instant t, take 9:00
    on the local calendar day of t. If the zone's clocks show that local
    time (converted to an instant and back it is itself) and the zone
    reads 10:00 of that day with the same offset, createCalendarEvent
    gives an event that starts at 9:00 local time on that day and ends
    exactly one hour later. A date-only reminder (midnight UTC of a day)
    lands on that day when the zone's offset at that instant is zero or
    east of UTC, and on the day before when it is west. *)
Theorem reminder_event_is_nine_to_ten_local
    (parseDate : string -> option Z) (toLocaleDateString : Z -> string)
    (zone : JSDate.TimeZone) (now : Z) (item : MailItem) (text : string) (t : Z) :
  reminderDate item = Some text -> text <> ""%string -> parseDate text = Some t ->
  let nine := JSDate.Day (JSDate.LocalTime zone t) * JSDate.msPerDay + 9 * 3600000 in
  readsBack zone nine ->
  JSDate.offsetOfLocal zone (nine + 3600000) = JSDate.offsetOfLocal zone nine ->
  let event := createCalendarEvent parseDate toLocaleDateString zone now item in
  exists start finish,
    startDate event = Some start /\ endDate event = Some finish
    /\ finish - start = 3600000
    /\ JSDate.TimeWithinDay (JSDate.LocalTime zone start) = 9 * 3600000
    /\ JSDate.Day (JSDate.LocalTime zone start) = JSDate.Day (JSDate.LocalTime zone t)
    /\ (forall day, t = day * JSDate.msPerDay ->
          (0 <= JSDate.offsetAt zone t < JSDate.msPerDay ->
           JSDate.Day (JSDate.LocalTime zone start) = day)
          /\ (- JSDate.msPerDay <= JSDate.offsetAt zone t < 0 ->
              JSDate.Day (JSDate.LocalTime zone start) = day - 1)).
Proof.
  intros Hr Hne Hp. cbv zeta. intros Hback Hsame. unfold createCalendarEvent.
  rewrite Hr, (proj2 (String.eqb_neq _ _) Hne), Hp. cbn [option_map startDate endDate].
  eexists _, _. split; [reflexivity |]. split; [reflexivity |].
  set (d := JSDate.Day (JSDate.LocalTime zone t)) in *.
  assert (S : setHours zone t 9 0 0 0
              = JSDate.UTC zone (d * JSDate.msPerDay + 9 * 3600000))
    by apply setHours_instant.
  rewrite S.
  assert (L : JSDate.LocalTime zone
                (JSDate.UTC zone (d * JSDate.msPerDay + 9 * 3600000))
              = d * JSDate.msPerDay + 9 * 3600000) by exact Hback.
  destruct (day_of_hour d 9 ltac:(lia)) as [D9 T9].
  split.
  { rewrite setHours_instant, L, D9. unfold JSDate.UTC.
    replace (d * JSDate.msPerDay + 10 * 3600000)
      with (d * JSDate.msPerDay + 9 * 3600000 + 3600000) by lia.
    rewrite Hsame. lia. }
  rewrite L. split; [exact T9 |]. split; [exact D9 |].
  intros day ->. rewrite D9. unfold d, JSDate.LocalTime, JSDate.Day, JSDate.msPerDay.
  split; intros Hz; unfold JSDate.msPerDay in Hz.
  - rewrite Z.add_comm, Z.div_add by lia. rewrite Z.div_small by lia. lia.
  - replace (day * 86400000 + JSDate.offsetAt zone (day * 86400000))
      with ((JSDate.offsetAt zone (day * 86400000) + 86400000)
            + (day - 1) * 86400000) by lia.
    rewrite Z.div_add by lia. rewrite Z.div_small by lia. lia.
Qed.

(** On the day summer time begins in London the event starts at 08:00 UTC,
    which is 09:00 on the local clock. *)
Lemma reminder_event_witness :
  reminderDate summerTimeLetter = Some "2024-03-31"%string
  /\ "2024-03-31"%string <> ""%string
  /\ parseLastOfMarch "2024-03-31" = Some 1711843200000
  /\ readsBack london2024 1711875600000
  /\ JSDate.offsetOfLocal london2024 (1711875600000 + 3600000)
     = JSDate.offsetOfLocal london2024 1711875600000
  /\ startDate (createCalendarEvent parseLastOfMarch showLastOfMarch
                  london2024 1705838400000 summerTimeLetter) = Some 1711872000000
  /\ exists start finish,
       startDate (createCalendarEvent parseLastOfMarch showLastOfMarch
                    london2024 1705838400000 summerTimeLetter) = Some start
       /\ endDate (createCalendarEvent parseLastOfMarch showLastOfMarch
                     london2024 1705838400000 summerTimeLetter) = Some finish
       /\ finish - start = 3600000
       /\ JSDate.TimeWithinDay (JSDate.LocalTime london2024 start) = 9 * 3600000.
Proof.
  split; [reflexivity |]. split; [discriminate |]. split; [reflexivity |].
  split; [reflexivity |]. split; [reflexivity |]. split; [reflexivity |].
  destruct (reminder_event_is_nine_to_ten_local parseLastOfMarch
              showLastOfMarch london2024 1705838400000 summerTimeLetter
              "2024-03-31" 1711843200000 eq_refl ltac:(discriminate) eq_refl
              eq_refl eq_refl)
    as (start & finish & S & F & D & T & _).
  exists start, finish. repeat split; assumption.
Defined.

End CalendarFacts.

(** ** User ids of the OAuth providers *)

Module AuthIds.
Import JS Auth.

Lemma append_inj_l (p a b : string) : (p +:+ a = p +:+ b)%string -> a = b.
Proof.
  induction p as [| c p IH]; [trivial |].
  change (String c p +:+ a) with (String c (p +:+ a)).
  change (String c p +:+ b) with (String c (p +:+ b)).
  intros [= H]. exact (IH H).
Qed.

(** X30: For a provider other than email, generateUserId gives different
    user ids for different non-empty provider ids, whatever the e-mail
    addresses are. *)
Theorem provider_ids_do_not_collide (provider id1 id2 : string)
    (email1 email2 : option string) (now1 now2 : Z) (random1 random2 : string) :
  provider <> "email"%string -> id1 <> ""%string -> id2 <> ""%string ->
  id1 <> id2 ->
  generateUserId provider (Some id1) email1 now1 random1
  <> generateUserId provider (Some id2) email2 now2 random2.
Proof.
  intros Hp H1 H2 Hne. unfold generateUserId, present.
  rewrite (proj2 (String.eqb_neq _ _) Hp).
  rewrite (proj2 (String.eqb_neq _ _) H1), (proj2 (String.eqb_neq _ _) H2).
  intros E. apply Hne. apply append_inj_l in E. exact (append_inj_l _ _ _ E).
Qed.

Lemma provider_ids_witness :
  "google"%string <> "email"%string
  /\ "1234"%string <> ""%string /\ "1235"%string <> ""%string
  /\ "1234"%string <> "1235"%string
  /\ generateUserId "google" (Some "1234"%string) (Some "bob@example.org"%string) 0 ""
     <> generateUserId "google" (Some "1235"%string) (Some "bob@example.org"%string) 0 "".
Proof.
  split; [discriminate |]. split; [discriminate |]. split; [discriminate |].
  split; [discriminate |].
  exact (provider_ids_do_not_collide "google" "1234" "1235" _ _ 0%Z 0%Z "" ""
           ltac:(discriminate) ltac:(discriminate) ltac:(discriminate)
           ltac:(discriminate)).
Defined.

End AuthIds.
